(** * halflife: line lifecycle tracking and survival statistics

    A shallow embedding of the two programs of the repository:

    - [Tracker]: the analyzer with the first-commit snapshot, the sampled
      survival curve and the validation mode (src/unnamed/part_001);
    - [MainGo]: the analyzer that keeps a list of change events per line and
      a change-frequency tally (src/main.go).

    Conventions of the embedding.
    - [time.Time] is the number of nanoseconds since the epoch, a [Z];
      [time.Duration] is an int64 count of nanoseconds and [Time.Sub]
      saturates as in Go.
    - [float64] values are modelled by exact rationals [Q]: rounding is not
      modelled, and the theorems state what does not depend on it (which
      records are counted, which element is selected, orders and counts).
    - A Go [map[string]*T] is a [gmap string T]; the pointers stored in the
      maps are only reached through the map while the history is replayed, so
      the records are stored by value.  A [range] over a map visits the
      entries in an unspecified order: the statistics loops take the visiting
      order as a list.
    - The go-git objects (commits, trees, patches, chunks) are data handed to
      the analyzer; a call that can fail carries an [option].  Library
      functions that are not modelled ([filepath.Match], [math.Sqrt],
      [math.Log]) are variables of the sections that use them.
    - Counters ([int], [int64]) are unbounded. *)

From Stdlib Require Import ZArith QArith Qround Lia List Bool Ascii String Permutation Sorted.
From Stdlib Require Import Lqa.
From stdpp Require Import gmap strings list fin_maps pretty.

Open Scope string_scope.
Open Scope Z_scope.
Open Scope list_scope.

(** ** The Go library functions the programs call *)

Module GoStrings.

Definition newline : ascii := Ascii.ascii_of_nat 10.

(** [strings.Split(s, "\n")]: the pieces between newlines; the empty string
    gives one empty piece. *)
Fixpoint Split (s : string) : list string :=
  match s with
  | EmptyString => [EmptyString]
  | String c rest =>
      if Ascii.eqb c newline then EmptyString :: Split rest
      else match Split rest with
           | piece :: more => String c piece :: more
           | [] => [String c EmptyString]
           end
  end.

Definition byte (c : ascii) : N := Ascii.N_of_ascii c.

(** The six ASCII bytes of [unicode.IsSpace]: tab, newline, vertical tab,
    form feed, carriage return, space. *)
Definition asciiSpace (c : ascii) : bool :=
  let b := byte c in
  ((9 <=? b) && (b <=? 13) || (b =? 32))%N.

(** [allSpace s] holds when [s] decodes (UTF-8) to white space runes only.
    The runes of [unicode.IsSpace] beyond ASCII are U+0085, U+00A0, U+1680,
    U+2000 to U+200A, U+2028, U+2029, U+202F, U+205F and U+3000. *)
Fixpoint allSpace (s : string) : bool :=
  match s with
  | EmptyString => true
  | String c1 r1 =>
      if asciiSpace c1 then allSpace r1
      else
        match r1 with
        | String c2 r2 =>
            let b1 := byte c1 in
            let b2 := byte c2 in
            if ((b1 =? 194) && ((b2 =? 133) || (b2 =? 160)))%N then allSpace r2
            else
              match r2 with
              | String c3 r3 =>
                  let b3 := byte c3 in
                  if (((b1 =? 225) && (b2 =? 154) && (b3 =? 128))
                      || ((b1 =? 226) && (b2 =? 128)
                          && (((128 <=? b3) && (b3 <=? 138))
                              || (b3 =? 168) || (b3 =? 169) || (b3 =? 175)))
                      || ((b1 =? 226) && (b2 =? 129) && (b3 =? 159))
                      || ((b1 =? 227) && (b2 =? 128) && (b3 =? 128)))%N
                  then allSpace r3
                  else false
              | EmptyString => false
              end
        | EmptyString => false
        end
  end.

(** [strings.TrimSpace(line) == ""], the blank-line test of both programs. *)
Definition isBlank (line : string) : bool := allSpace line.

Fixpoint HasPrefix (s p : string) : bool :=
  match p, s with
  | EmptyString, _ => true
  | String a p', String b s' => Ascii.eqb a b && HasPrefix s' p'
  | String _ _, EmptyString => false
  end.

Fixpoint drop (n : nat) (s : string) : string :=
  match n, s with
  | O, _ => s
  | S n', String _ s' => drop n' s'
  | S _, EmptyString => EmptyString
  end.

Definition TrimPrefix (s p : string) : string :=
  if HasPrefix s p then drop (String.length p) s else s.

Definition HasSuffix (s suffix : string) : bool :=
  (String.length suffix <=? String.length s)%nat
  && String.eqb (drop (String.length s - String.length suffix) s) suffix.

(** [len(s)], a number of bytes. *)
Definition len (s : string) : Z := Z.of_nat (String.length s).

End GoStrings.

Module GoTime.

(** Nanoseconds since the epoch. *)
Definition Time := Z.
(** Nanoseconds, an int64. *)
Definition Duration := Z.

Definition minDuration : Duration := - 2 ^ 63.
Definition maxDuration : Duration := 2 ^ 63 - 1.
Definition Hour : Z := 60 * 60 * 1000000000.

(** [t.Sub(u)]: the difference, saturated to the range of a [Duration]. *)
Definition Sub (t u : Time) : Duration :=
  let d := t - u in
  if d <? minDuration then minDuration
  else if maxDuration <? d then maxDuration
  else d.

(** [d.Hours()]: whole hours plus the fraction of the remainder. *)
Definition Hours (d : Duration) : Q :=
  (inject_Z (Z.quot d Hour) + inject_Z (Z.rem d Hour) / inject_Z Hour)%Q.

End GoTime.

Module GoSort.

Definition Qleb (x y : Q) : bool := Qle_bool x y.
Definition Qltb (x y : Q) : bool := negb (Qle_bool y x).

Fixpoint insert (x : Q) (l : list Q) : list Q :=
  match l with
  | [] => [x]
  | y :: l' => if Qleb x y then x :: l else y :: insert x l'
  end.

(** [sort.Float64s]: the values in ascending order. *)
Fixpoint Float64s (l : list Q) : list Q :=
  match l with
  | [] => []
  | x :: l' => insert x (Float64s l')
  end.

End GoSort.

(** The go-git objects the analyzers read. *)
Module GoGit.

(** A file of a tree; [Contents] is [None] when the blob cannot be read. *)
Record File := { Name : string; Contents : option string }.

Inductive Operation := Equal | Add | Delete.

(** [Type_] is the chunk's [Type()]. *)
Record Chunk := { Type_ : Operation; Content : string }.

(** [Files()] gives the two sides of a file patch, each possibly nil; only
    their paths are used. *)
Record FilePatch := {
  From : option string;
  To : option string;
  Chunks : list Chunk
}.

(** A commit as the analyzers see it: [Tree] is [commit.Tree()],
    [NumParents] the number of parents, [Parent] says whether
    [commit.Parent(0)] could be read, and [Patch] is the result of the one
    call of [commit.Patch] the analyzer makes for this commit. *)
Record Commit := {
  Hash : string;
  When : GoTime.Time;
  Tree : option (list File);
  NumParents : nat;
  Parent : bool;
  Patch : option (list FilePatch)
}.

End GoGit.

(** What a call of the programs gives: a value, an error returned to the
    caller, or a run-time panic (nil dereference, index out of range). *)
Inductive Result (A : Type) : Type :=
| Ok (a : A)
| Err (msg : string)
| Panic (msg : string).

Arguments Ok {A} a.
Arguments Err {A} msg.
Arguments Panic {A} msg.

Definition isNil {A : Type} (o : option A) : bool :=
  match o with
  | None => true
  | Some _ => false
  end.

(** ** The analyzer with snapshot, survival curve and validation mode *)

Module Tracker.

Import GoStrings GoTime GoSort GoGit.

Record CodeLine := {
  Content : string;
  File : string;
  CreatedAt : Time;
  DeletedAt : option Time;
  CommitHash : string;
  LastSeen : Time
}.

Record TimelineEvent := {
  ev_Time : Time;
  ev_CommitHash : string;
  ev_Action : string;
  ev_File : string;
  ev_Line : string;
  ev_LinesSoFar : nat;
  ev_DeletedSoFar : nat
}.

Record Stats := {
  HalfLife : Q;
  TotalLines : nat;
  MedianAge : Q;
  SurvivalRate : list Q;
  OldestLine : string;
  OldestLineAge : Q;
  NewestLine : string;
  NewestLineAge : Q;
  DeletedLines : nat;
  SurvivingLines : nat;
  FirstCommit : Time;
  LastCommit : Time
}.

Record ValidationReport := {
  vr_Stats : Stats;
  vr_Samples : gmap string CodeLine;
  vr_Timeline : list TimelineEvent
}.

(** The [interface{}] that [analyzeRepository] returns. *)
Inductive Report :=
| StatsReport (s : Stats)
| Validation (v : ValidationReport).

Definition statsOf (r : Report) : Stats :=
  match r with
  | StatsReport s => s
  | Validation v => vr_Stats v
  end.

(** The tracking state of the replay: the map [codeLines] and the slice
    [timeline]. *)
Record State := {
  codeLines : gmap string CodeLine;
  timeline : list TimelineEvent
}.

Definition emptyState : State := {| codeLines := ∅; timeline := [] |}.

(** [fmt.Sprintf("%s:%s", path, line)] *)
Definition key (path line : string) : string := path +:+ ":" +:+ line.

Definition setLastSeen (t : Time) (cl : CodeLine) : CodeLine :=
  {| Content := Content cl; File := File cl; CreatedAt := CreatedAt cl;
     DeletedAt := DeletedAt cl; CommitHash := CommitHash cl; LastSeen := t |}.

Definition setDeletedAt (t : Time) (cl : CodeLine) : CodeLine :=
  {| Content := Content cl; File := File cl; CreatedAt := CreatedAt cl;
     DeletedAt := Some t; CommitHash := CommitHash cl; LastSeen := LastSeen cl |}.

Definition newCodeLine (commit : Commit) (path line : string) : CodeLine :=
  {| Content := line; File := path; CreatedAt := When commit;
     DeletedAt := None; CommitHash := Hash commit; LastSeen := When commit |}.

Definition countDeletedLines (lines : gmap string CodeLine) : nat :=
  length (List.filter (fun kv => negb (isNil (DeletedAt (snd kv)))) (map_to_list lines)).

Definition createEvent (commit : Commit) (path line : string)
    (lines : gmap string CodeLine) : TimelineEvent :=
  {| ev_Time := When commit; ev_CommitHash := Hash commit; ev_Action := "create";
     ev_File := path; ev_Line := line; ev_LinesSoFar := size lines;
     ev_DeletedSoFar := 0 |}.

Definition deleteEvent (commit : Commit) (path line : string)
    (lines : gmap string CodeLine) : TimelineEvent :=
  {| ev_Time := When commit; ev_CommitHash := Hash commit; ev_Action := "delete";
     ev_File := path; ev_Line := line; ev_LinesSoFar := size lines;
     ev_DeletedSoFar := countDeletedLines lines |}.

Definition logEvent (validateMode : bool) (ev : TimelineEvent)
    (tl : list TimelineEvent) : list TimelineEvent :=
  if validateMode then tl ++ [ev] else tl.

(** One line of a file of the first commit: the record is written
    whether or not the key is already there. *)
Definition snapshotLine (validateMode : bool) (commit : Commit) (name : string)
    (st : State) (line : string) : State :=
  if isBlank line then st
  else
    let lines := <[key name line := newCodeLine commit name line]> (codeLines st) in
    {| codeLines := lines;
       timeline := logEvent validateMode (createEvent commit name line lines) (timeline st) |}.

(** One line of an added chunk. *)
Definition addLine (validateMode : bool) (commit : Commit) (path : string)
    (st : State) (line : string) : State :=
  if isBlank line then st
  else
    match codeLines st !! key path line with
    | None =>
        let lines := <[key path line := newCodeLine commit path line]> (codeLines st) in
        {| codeLines := lines;
           timeline := logEvent validateMode (createEvent commit path line lines) (timeline st) |}
    | Some cl =>
        {| codeLines := <[key path line := setLastSeen (When commit) cl]> (codeLines st);
           timeline := timeline st |}
    end.

(** One line of a deleted chunk. *)
Definition deleteLine (validateMode : bool) (commit : Commit) (path : string)
    (st : State) (line : string) : State :=
  if isBlank line then st
  else
    match codeLines st !! key path line with
    | None => st
    | Some cl =>
        let lines := <[key path line := setDeletedAt (When commit) cl]> (codeLines st) in
        {| codeLines := lines;
           timeline := logEvent validateMode (deleteEvent commit path line lines) (timeline st) |}
    end.

Definition applyChunk (validateMode : bool) (commit : Commit) (path : string)
    (st : State) (chunk : Chunk) : State :=
  match Type_ chunk with
  | Add => fold_left (addLine validateMode commit path) (Split (GoGit.Content chunk)) st
  | Delete => fold_left (deleteLine validateMode commit path) (Split (GoGit.Content chunk)) st
  | Equal => st
  end.

(** The path a file patch is filed under: the new side when there is one. *)
Definition patchPath (fp : FilePatch) : option string :=
  match To fp, From fp with
  | None, None => None
  | Some to, _ => Some to
  | None, Some from => Some from
  end.

(** The record stored under [k] satisfies [P]. *)
Definition holds (k : string) (P : CodeLine -> Prop) (st : State) : Prop :=
  exists cl, codeLines st !! k = Some cl /\ P cl.

(** [P] survives the two updates a commit of time [t] makes to a record. *)
Definition stable (t : Time) (P : CodeLine -> Prop) : Prop :=
  forall cl, P cl -> P (setLastSeen t cl) /\ P (setDeletedAt t cl).

(** A create event of the timeline for a line of a file at a time. *)
Definition isCreateEvent (t : Time) (path line : string) (ev : TimelineEvent) : Prop :=
  ev_Action ev = "create" /\ ev_Time ev = t /\ ev_File ev = path /\ ev_Line ev = line.

(** The timeline has a create event for a line of a file at a time. *)
Definition logged (t : Time) (path line : string) (st : State) : Prop :=
  exists ev, In ev (timeline st) /\ isCreateEvent t path line ev.

(** The same commit with another result of [commit.Patch]. *)
Definition withPatch (p : option (list FilePatch)) (commit : Commit) : Commit :=
  {| Hash := Hash commit; When := When commit; Tree := Tree commit;
     NumParents := NumParents commit; Parent := Parent commit; Patch := p |}.

Section Replay.

(** [filepath.Base] and [filepath.Match] ([None] for a malformed pattern). *)
Variable filepath_Base : string -> string.
Variable filepath_Match : string -> string -> option bool.

Definition matchesPattern (filename pattern : string) : bool :=
  if String.eqb pattern "*" then true
  else if HasPrefix pattern "*." then
    let ext := TrimPrefix pattern "*" in
    HasSuffix filename ext
  else
    match filepath_Match pattern (filepath_Base filename) with
    | None => false
    | Some matched => matched
    end.

Definition snapshotFile (filePattern : string) (validateMode : bool) (commit : Commit)
    (st : State) (f : GoGit.File) : State :=
  if negb (matchesPattern (Name f) filePattern) then st
  else
    match Contents f with
    | None => st
    | Some content =>
        fold_left (snapshotLine validateMode commit (Name f)) (Split content) st
    end.

Definition applyFilePatch (filePattern : string) (validateMode : bool) (commit : Commit)
    (st : State) (fp : FilePatch) : State :=
  match patchPath fp with
  | None => st
  | Some path =>
      if negb (matchesPattern path filePattern) then st
      else fold_left (applyChunk validateMode commit path) (Chunks fp) st
  end.

(** The first commit of the chronological sequence ([i == 0]): its tree is
    recorded, its patch is not asked for. *)
Definition firstCommit (filePattern : string) (validateMode : bool)
    (st : State) (commit : Commit) : State :=
  match Tree commit with
  | None => st
  | Some files => fold_left (snapshotFile filePattern validateMode commit) files st
  end.

(** A later commit ([i > 0]): the patch against the commit before it. *)
Definition laterCommit (filePattern : string) (validateMode : bool)
    (st : State) (commit : Commit) : State :=
  match Patch commit with
  | None => st
  | Some patches => fold_left (applyFilePatch filePattern validateMode commit) patches st
  end.

(** The loop over the commits, oldest first. *)
Definition replay (filePattern : string) (validateMode : bool)
    (commits : list Commit) : State :=
  match commits with
  | [] => emptyState
  | c0 :: rest =>
      fold_left (laterCommit filePattern validateMode) rest
        (firstCommit filePattern validateMode emptyState c0)
  end.

End Replay.

(** *** Statistics *)

(** [d.Hours() / 24] *)
Definition days (d : Duration) : Q := (Hours d / 24)%Q.

(** The variables of the loop over [codeLines] that gathers the sample. *)
Record Tally := {
  lifetimes : list Q;
  totalLines : nat;
  survivingLines : nat;
  oldestLine : option CodeLine;
  newestLine : option CodeLine;
  oldestAge : Q;
  newestAge : Q
}.

Definition emptyTally : Tally :=
  {| lifetimes := []; totalLines := 0; survivingLines := 0;
     oldestLine := None; newestLine := None; oldestAge := 0%Q; newestAge := 0%Q |}.

(** The body of the loop for a line that is still alive. *)
Definition tallySurviving (now : Time) (a : Tally) (line : CodeLine) : Tally :=
  let age := days (Sub now (CreatedAt line)) in
  if Qltb 0 age then
    let older := isNil (oldestLine a) || Qltb (oldestAge a) age in
    let newer := isNil (newestLine a) || Qltb age (newestAge a) in
    {| lifetimes := lifetimes a ++ [age];
       totalLines := totalLines a;
       survivingLines := S (survivingLines a);
       oldestLine := if older then Some line else oldestLine a;
       newestLine := if newer then Some line else newestLine a;
       oldestAge := if older then age else oldestAge a;
       newestAge := if newer then age else newestAge a |}
  else
    {| lifetimes := lifetimes a;
       totalLines := totalLines a;
       survivingLines := S (survivingLines a);
       oldestLine := oldestLine a; newestLine := newestLine a;
       oldestAge := oldestAge a; newestAge := newestAge a |}.

(** The body of the loop for a deleted line. *)
Definition tallyDeleted (deletedAt : Time) (a : Tally) (line : CodeLine) : Tally :=
  let lifetime := days (Sub deletedAt (CreatedAt line)) in
  if Qltb 0 lifetime then
    {| lifetimes := lifetimes a ++ [lifetime];
       totalLines := totalLines a;
       survivingLines := survivingLines a;
       oldestLine := oldestLine a; newestLine := newestLine a;
       oldestAge := oldestAge a; newestAge := newestAge a |}
  else a.

Definition countLine (a : Tally) : Tally :=
  {| lifetimes := lifetimes a;
     totalLines := S (totalLines a);
     survivingLines := survivingLines a;
     oldestLine := oldestLine a; newestLine := newestLine a;
     oldestAge := oldestAge a; newestAge := newestAge a |}.

Definition tallyLine (now : Time) (a : Tally) (line : CodeLine) : Tally :=
  countLine
    match DeletedAt line with
    | None => tallySurviving now a line
    | Some deletedAt => tallyDeleted deletedAt a line
    end.

Definition tally (now : Time) (lines : list CodeLine) : Tally :=
  fold_left (tallyLine now) lines emptyTally.

(** Following the specification: the end of a record's life is [deletedAt]
    when it is set and [now] otherwise, and its lifetime is the time from
    [createdAt] to that end, in days. *)
Definition lifetimeDays (now : Time) (line : CodeLine) : Q :=
  let endTime := match DeletedAt line with
                 | Some deletedAt => deletedAt
                 | None => now
                 end in
  days (Sub endTime (CreatedAt line)).

(** A line that is alive and older than the time of the analysis. *)
Definition survivor (now : Time) (line : CodeLine) : Prop :=
  DeletedAt line = None /\ Qltb 0 (lifetimeDays now line) = true.

(** The two pointers and the sample once a survivor was visited. *)
Definition hasSurvivor (a : Tally) : Prop :=
  oldestLine a <> None /\ newestLine a <> None /\ lifetimes a <> [].

(** The number of points of the survival curve. *)
Definition timePoints : nat := 100.

Definition float64 (n : nat) : Q := inject_Z (Z.of_nat n).

(** [(maxAge * float64(i)) / float64(timePoints)] *)
Definition timePoint (maxAge : Q) (i : nat) : Q :=
  ((maxAge * float64 i) / float64 timePoints)%Q.

(** The inner loop: the lifetimes that reach [timePoint]. *)
Definition survived (lifetimes : list Q) (timePoint : Q) : nat :=
  length (List.filter (fun lifetime => Qleb timePoint lifetime) lifetimes).

Definition survivalAt (lifetimes : list Q) (age : Q) : Q :=
  (float64 (survived lifetimes age) / float64 (length lifetimes))%Q.

Definition survivalCurve (lifetimes : list Q) (maxAge : Q) : list Q :=
  List.map (fun i => survivalAt lifetimes (timePoint maxAge i)) (seq 0 timePoints).

(** The search for the first rate that is at most one half, from index [i];
    0 when there is none. *)
Fixpoint crossing (maxAge : Q) (i : nat) (rates : list Q) : Q :=
  match rates with
  | [] => 0%Q
  | rate :: rest =>
      if Qleb rate (1 # 2) then timePoint maxAge i
      else crossing maxAge (S i) rest
  end.

(** [lifetimes[len(lifetimes)-1]] of the sorted sample; the index is within
    range when the sample is not empty. *)
Definition maxAgeOf (sorted : list Q) : Q := nth (length sorted - 1) sorted 0%Q.

(** [lifetimes[len(lifetimes)/2]] *)
Definition middle (sorted : list Q) : Q := nth (length sorted / 2) sorted 0%Q.

Definition halfLifeOf (sorted : list Q) : Q :=
  let maxAge := maxAgeOf sorted in
  let halfLife := crossing maxAge 0 (survivalCurve sorted maxAge) in
  if Qeq_bool halfLife 0 then middle sorted else halfLife.

(** [fmt.Sprintf("sample_%d", i)] for the five indices used. *)
Definition sampleLabel (i : nat) : string :=
  match i with
  | 0%nat => "sample_0"
  | 1%nat => "sample_1"
  | 2%nat => "sample_2"
  | 3%nat => "sample_3"
  | _ => "sample_4"
  end.

Definition addSample (survivingSlice : list CodeLine)
    (samples : gmap string CodeLine) (i : nat) : gmap string CodeLine :=
  match survivingSlice !! ((i * length survivingSlice) / 5)%nat with
  | Some cl => <[sampleLabel i := cl]> samples
  | None => samples
  end.

Definition collectSamples (oldest newest : CodeLine) (survivingSlice : list CodeLine)
    : gmap string CodeLine :=
  let samples := <["newest" := newest]> (<["oldest" := oldest]> ∅) in
  if (5 <? length survivingSlice)%nat
  then fold_left (addSample survivingSlice) (seq 0 5) samples
  else samples.

(** The Go arguments of the calls that can fail. *)
Inductive LogResult :=
| LogError (err : string)
| IterError (err : string)
| Commits (newestFirst : list Commit).

Record Repository := {
  Reference : string -> option string;
  Log : string -> LogResult
}.

Definition firstSome {A : Type} (a b : option A) : option A :=
  match a with
  | Some _ => a
  | None => b
  end.

Section Analyze.

Variable filepath_Base : string -> string.
Variable filepath_Match : string -> string -> option bool.

(** The order in which the two loops over the map [codeLines] visit it. *)
Variable rangeLines : gmap string CodeLine -> list (string * CodeLine).
Variable rangeSurvivors : gmap string CodeLine -> list (string * CodeLine).

(** Everything after the replay: the sample, the error for an empty sample,
    the curve, the half-life and the report. *)
Definition statistics (validateMode : bool) (now : Time) (commits : list Commit)
    (st : State) : Result Report :=
  let t := tally now (List.map snd (rangeLines (codeLines st))) in
  if (length (lifetimes t) =? 0)%nat then Err "no valid lifetimes found"
  else
    let sorted := Float64s (lifetimes t) in
    let maxAge := maxAgeOf sorted in
    let survivalRate := survivalCurve sorted maxAge in
    let halfLife := halfLifeOf sorted in
    match oldestLine t, newestLine t, commits, last commits with
    | Some oldest, Some newest, first :: _, Some lastc =>
        let stats :=
          {| HalfLife := halfLife;
             TotalLines := totalLines t;
             MedianAge := middle sorted;
             SurvivalRate := survivalRate;
             OldestLine := Content oldest;
             OldestLineAge := oldestAge t;
             NewestLine := Content newest;
             NewestLineAge := newestAge t;
             DeletedLines := totalLines t - survivingLines t;
             SurvivingLines := survivingLines t;
             FirstCommit := When first;
             LastCommit := When lastc |} in
        if negb validateMode then Ok (StatsReport stats)
        else
          let survivingSlice :=
            List.filter (fun line => isNil (DeletedAt line))
              (List.map snd (rangeSurvivors (codeLines st))) in
          Ok (Validation
                {| vr_Stats := stats;
                   vr_Samples := collectSamples oldest newest survivingSlice;
                   vr_Timeline := timeline st |})
    | None, _, _, _ | _, None, _, _ => Panic "nil pointer dereference"
    | _, _, _, _ => Panic "index out of range"
    end.

Definition analyzeRepository (repo : string + Repository) (filePattern : string)
    (validateMode : bool) (now : Time) : Result Report :=
  match repo with
  | inl err => Err ("error opening repository: " +:+ err)
  | inr r =>
      match firstSome (Reference r "main") (Reference r "master") with
      | None => Err "could not find main or master branch"
      | Some mainRef =>
          match Log r mainRef with
          | LogError err => Err ("error getting commit iterator: " +:+ err)
          | IterError err => Err ("error iterating commits: " +:+ err)
          | Commits newestFirst =>
              let commits := rev newestFirst in
              statistics validateMode now commits
                (replay filepath_Base filepath_Match filePattern validateMode commits)
          end
      end
  end.

End Analyze.

End Tracker.

(** A history for the analyzer [Tracker]: the first commit holds a file with
    two lines; the line [z] is then added, deleted, added again and deleted
    again, ten days apart. *)
Module TrackerExamples.

Import GoStrings GoTime GoGit Tracker.

Definition nl : string := String newline "".
Definition day : Z := 24 * Hour.

(** With the pattern ["*"] the analyzer does not call [filepath]; the
    examples pass these two stand-ins. *)
Definition unusedBase (s : string) : string := s.
Definition unusedMatch (_ _ : string) : option bool := None.

Definition change (op : Operation) (text : string) : option (list FilePatch) :=
  Some [ {| From := Some "a.go"; To := Some "a.go";
            Chunks := [ {| GoGit.Type_ := op; GoGit.Content := text |} ] |} ].

Definition c0 : Commit :=
  {| Hash := "h0"; When := 0;
     Tree := Some [ {| Name := "a.go"; Contents := Some ("x" +:+ nl +:+ "y") |} ];
     NumParents := 0; Parent := false; Patch := None |}.

Definition later (hash : string) (days : Z) (op : Operation) (text : string) : Commit :=
  {| Hash := hash; When := days * day; Tree := None;
     NumParents := 1; Parent := true; Patch := change op text |}.

Definition c1 : Commit := later "h1" 10 Add "z".
Definition c2 : Commit := later "h2" 20 Delete "z".
Definition c3 : Commit := later "h3" 30 Add "z".
Definition c4 : Commit := later "h4" 40 Delete "z".

Definition now : Time := 50 * day.

(** The record of the line [z] after [c1] added it and [c2] deleted it. *)
Definition closedZ : CodeLine :=
  {| Content := "z"; File := "a.go"; CreatedAt := When c1;
     DeletedAt := Some (When c2); CommitHash := "h1"; LastSeen := When c1 |}.

Definition run (validateMode : bool) (commits : list Commit) : State :=
  replay unusedBase unusedMatch "*" validateMode commits.

Definition repo : Repository :=
  {| Reference := fun name => if String.eqb name "master" then Some "h4" else None;
     Log := fun _ => Commits [c4; c3; c2; c1; c0] |}.

(** A history whose only line is created at the time of the analysis. *)
Definition young : Commit :=
  {| Hash := "y0"; When := now;
     Tree := Some [ {| Name := "a.go"; Contents := Some "x" |} ];
     NumParents := 0; Parent := false; Patch := None |}.

Definition youngRepo : Repository :=
  {| Reference := fun name => if String.eqb name "main" then Some "y0" else None;
     Log := fun _ => Commits [young] |}.

(** A history whose only line is deleted ten days after the first commit. *)
Definition lone : Commit :=
  {| Hash := "g0"; When := 0;
     Tree := Some [ {| Name := "a.go"; Contents := Some "x" |} ];
     NumParents := 0; Parent := false; Patch := None |}.

Definition goneRepo : Repository :=
  {| Reference := fun name => if String.eqb name "main" then Some "g1" else None;
     Log := fun _ => Commits [later "g1" 10 Delete "x"; lone] |}.

End TrackerExamples.

(** ** The analyzer with change events and a change-frequency tally *)

Module MainGo.

Import GoStrings GoTime GoSort GoGit.

Inductive ChangeType := Created | Modified | Deleted.

Record ChangeEvent := {
  Timestamp : Time;
  Type_ : ChangeType;
  NewValue : string;
  Distance : Z
}.

Record LineHistory := {
  File : string;
  Line : string;
  Changes : list ChangeEvent;
  FirstSeen : Time;
  LastSeen : Time;
  DeletedAt : option Time
}.

Record Stats := {
  MedianLifetime : Q;
  MeanLifetime : Q;
  StdDevLifetime : Q;
  HalfLife : Q;
  TotalLinesTracked : Z;
  LinesWithChanges : Z;
  OldestCode : Q;
  NewestCode : Q;
  SurvivalRate : gmap Z Q;
  ChangeFrequency : gmap string Z;
  AverageEditSize : Q
}.

(** [Stats{}] *)
Definition zeroStats : Stats :=
  {| MedianLifetime := 0; MeanLifetime := 0; StdDevLifetime := 0; HalfLife := 0;
     TotalLinesTracked := 0; LinesWithChanges := 0; OldestCode := 0; NewestCode := 0;
     SurvivalRate := ∅; ChangeFrequency := ∅; AverageEditSize := 0 |}.

Definition days (d : Duration) : Q := (Hours d / 24)%Q.

Definition float64 (n : Z) : Q := inject_Z n.

Definition len {A : Type} (l : list A) : Z := Z.of_nat (length l).

(** [l[i]] for an index within range. *)
Definition index (l : list Q) (i : Z) : Q := nth (Z.to_nat i) l 0%Q.

(** The variables of the commit loop of [analyzeRepository]. *)
Record State := {
  lineHistories : gmap string LineHistory;
  changeFrequency : gmap string Z;
  totalEditSize : Z;
  totalEdits : Z;
  totalLines : Z
}.

Definition emptyState : State :=
  {| lineHistories := ∅; changeFrequency := ∅;
     totalEditSize := 0; totalEdits := 0; totalLines := 0 |}.

Definition setHistories (h : gmap string LineHistory) (st : State) : State :=
  {| lineHistories := h; changeFrequency := changeFrequency st;
     totalEditSize := totalEditSize st; totalEdits := totalEdits st;
     totalLines := totalLines st |}.

(** The line number every chunk starts from; it is never advanced. *)
Definition lineNum : Z := 1.

(** [fmt.Sprintf("%s:%d:%s", path, lineNum, line)] *)
Definition key (path line : string) : string :=
  path +:+ ":" +:+ pretty lineNum +:+ ":" +:+ line.

Definition newHistory (commit : Commit) (path line : string) : LineHistory :=
  {| File := path; Line := line;
     Changes := [ {| Timestamp := When commit; Type_ := Created;
                     NewValue := line; Distance := 0 |} ];
     FirstSeen := When commit; LastSeen := When commit; DeletedAt := None |}.

Definition markDeleted (commit : Commit) (history : LineHistory) : LineHistory :=
  {| File := File history; Line := Line history;
     Changes := Changes history ++
                [ {| Timestamp := When commit; Type_ := Deleted;
                     NewValue := ""; Distance := 0 |} ];
     FirstSeen := FirstSeen history; LastSeen := LastSeen history;
     DeletedAt := Some (When commit) |}.

Definition markSeen (commit : Commit) (line : string) (history : LineHistory) : LineHistory :=
  {| File := File history; Line := Line history;
     Changes := if isNil (DeletedAt history)
                then Changes history ++
                     [ {| Timestamp := When commit; Type_ := Modified;
                          NewValue := line; Distance := 0 |} ]
                else Changes history;
     FirstSeen := FirstSeen history; LastSeen := When commit;
     DeletedAt := DeletedAt history |}.

(** One line of a [diff.Add] chunk. *)
Definition addLine (commit : Commit) (path : string)
    (h : gmap string LineHistory) (line : string) : gmap string LineHistory :=
  if isBlank line then h
  else
    match h !! key path line with
    | None => <[key path line := newHistory commit path line]> h
    | Some _ => h
    end.

(** One line of a [diff.Delete] chunk. *)
Definition deleteLine (commit : Commit) (path : string)
    (h : gmap string LineHistory) (line : string) : gmap string LineHistory :=
  if isBlank line then h
  else
    match h !! key path line with
    | None => h
    | Some history => <[key path line := markDeleted commit history]> h
    end.

(** One line of a [diff.Equal] chunk. *)
Definition equalLine (commit : Commit) (path : string)
    (h : gmap string LineHistory) (line : string) : gmap string LineHistory :=
  if isBlank line then h
  else
    match h !! key path line with
    | None => h
    | Some history => <[key path line := markSeen commit line history]> h
    end.

Definition applyChunk (commit : Commit) (path : string) (st : State) (chunk : Chunk) : State :=
  let lines := Split (GoGit.Content chunk) in
  let h :=
    match GoGit.Type_ chunk with
    | Add => fold_left (addLine commit path) lines (lineHistories st)
    | Delete => fold_left (deleteLine commit path) lines (lineHistories st)
    | Equal => fold_left (equalLine commit path) lines (lineHistories st)
    end in
  match GoGit.Type_ chunk with
  | Equal => setHistories h st
  | _ =>
      {| lineHistories := h; changeFrequency := changeFrequency st;
         totalEditSize := totalEditSize st + GoStrings.len (GoGit.Content chunk);
         totalEdits := totalEdits st + 1;
         totalLines := totalLines st |}
  end.

(** [strings.HasSuffix(name, strings.TrimPrefix(filePattern, "*"))] *)
Definition matches (name filePattern : string) : bool :=
  HasSuffix name (TrimPrefix filePattern "*").

Definition applyFilePatch (filePattern : string) (commit : Commit)
    (st : State) (fp : FilePatch) : State :=
  match To fp with
  | None => st
  | Some path =>
      if negb (matches path filePattern) then st
      else fold_left (applyChunk commit path) (Chunks fp) st
  end.

(** The lines of the matching files of a tree, blank ones included. *)
Definition countLines (filePattern : string) (n : Z) (f : GoGit.File) : Z :=
  if matches (Name f) filePattern then
    match Contents f with
    | Some contents => n + len (Split contents)
    | None => n
    end
  else n.

Definition bump (name : string) (freq : gmap string Z) : gmap string Z :=
  <[name := default 0 (freq !! name) + 1]> freq.

Definition tallyChange (freq : gmap string Z) (change : ChangeEvent) : gmap string Z :=
  match Type_ change with
  | Created => bump "Created" freq
  | Modified => bump "Modified" freq
  | Deleted => bump "Deleted" freq
  end.

(** The shape of the event list of a history: one [Created] event, then
    the [Modified] events, then the [Deleted] events, of which there are
    some exactly when [DeletedAt] is set. *)
Definition eventsInOrder (history : LineHistory) : Prop :=
  exists first mods dels,
    Changes history = first :: mods ++ dels
    /\ Type_ first = Created
    /\ List.Forall (fun change => Type_ change = Modified) mods
    /\ List.Forall (fun change => Type_ change = Deleted) dels
    /\ (DeletedAt history = None <-> dels = []).

(** Every history of the map has its events in that order. *)
Definition allInOrder (h : gmap string LineHistory) : Prop :=
  map_Forall (fun _ history => eventsInOrder history) h.

(** [changeFrequency["Created"]], zero when the entry is missing. *)
Definition createdCount (freq : gmap string Z) : Z := default 0 (freq !! "Created").

Definition tallyHistory (freq : gmap string Z) (history : LineHistory) : gmap string Z :=
  fold_left tallyChange (Changes history) freq.

Section Analyze.

(** [math.Sqrt] and [math.Log]. *)
Variable math_Sqrt : Q -> Q.
Variable math_Log : Q -> Q.

(** The order in which a loop over the map of histories visits it. *)
Variable range : gmap string LineHistory -> list (string * LineHistory).

(** The loop at the end of the callback: every event of every history is
    added to the running tally. *)
Definition updateFrequency (st : State) : State :=
  {| lineHistories := lineHistories st;
     changeFrequency :=
       fold_left tallyHistory (List.map snd (range (lineHistories st))) (changeFrequency st);
     totalEditSize := totalEditSize st; totalEdits := totalEdits st;
     totalLines := totalLines st |}.

(** The callback of [commitIter.ForEach]. *)
Definition processCommit (filePattern : string) (st : State) (commit : Commit) : State :=
  match Tree commit with
  | None => st
  | Some files =>
      let st1 :=
        {| lineHistories := lineHistories st; changeFrequency := changeFrequency st;
           totalEditSize := totalEditSize st; totalEdits := totalEdits st;
           totalLines := fold_left (countLines filePattern) files (totalLines st) |} in
      if (0 <? NumParents commit)%nat then
        if negb (Parent commit) then st1
        else
          match Patch commit with
          | None => st1
          | Some patches =>
              updateFrequency (fold_left (applyFilePatch filePattern commit) patches st1)
          end
      else updateFrequency st1
  end.

Definition endTimeOf (now : Time) (history : LineHistory) : Time :=
  match DeletedAt history with
  | Some deletedAt => deletedAt
  | None => now
  end.

Definition gatherLifetime (now : Time) (lifetimes : list Q) (history : LineHistory) : list Q :=
  let lifetime := days (Sub (endTimeOf now history) (FirstSeen history)) in
  if Qleb 0 lifetime then lifetimes ++ [lifetime] else lifetimes.

(** The median of a sorted sample, as [calculateStats] computes it. *)
Definition medianOf (lifetimes : list Q) : Q :=
  if (len lifetimes mod 2 =? 0)%Z
  then ((index lifetimes (len lifetimes / 2 - 1) + index lifetimes (len lifetimes / 2)) / 2)%Q
  else index lifetimes (len lifetimes / 2).

(** The sum, the mean and the sum of squares are the values of the
    expressions of the code in exact arithmetic, where Go rounds every
    operation: the rounded mean can lie a unit in the last place outside of
    the range of the sample, so the theorems state nothing about the value of
    [MeanLifetime] or of [StdDevLifetime]. The sorted sample, its ends and
    the median do not depend on the rounding of a sum. *)
Definition calculateStats (now : Time) (histories : gmap string LineHistory) : Stats :=
  let lifetimes := fold_left (gatherLifetime now) (List.map snd (range histories)) [] in
  if (len lifetimes =? 0)%Z then zeroStats
  else
    let lifetimes := Float64s lifetimes in
    let sum := fold_left (fun sum lifetime => (sum + lifetime)%Q) lifetimes 0%Q in
    let mean := (sum / float64 (len lifetimes))%Q in
    let sumSquares :=
      fold_left (fun sumSquares lifetime =>
                   let diff := (lifetime - mean)%Q in (sumSquares + diff * diff)%Q)
        lifetimes 0%Q in
    let stdDev := math_Sqrt (sumSquares / float64 (len lifetimes))%Q in
    let median := medianOf lifetimes in
    {| MedianLifetime := median;
       MeanLifetime := mean;
       StdDevLifetime := stdDev;
       HalfLife := (median * math_Log 2)%Q;
       TotalLinesTracked := Z.of_nat (size histories);
       LinesWithChanges := len lifetimes;
       OldestCode := index lifetimes (len lifetimes - 1);
       NewestCode := index lifetimes 0;
       SurvivalRate := ∅; ChangeFrequency := ∅; AverageEditSize := 0 |}.

(** [int(t)]: the float truncated toward zero. *)
Definition int (t : Q) : Z := Z.quot (Qnum t) (Zpos (Qden t)).

Definition aliveAt (now : Time) (t : Q) (history : LineHistory) : bool :=
  Qleb t (days (Sub now (FirstSeen history)))
  && match DeletedAt history with
     | None => true
     | Some deletedAt => Qltb t (days (Sub deletedAt (FirstSeen history)))
     end.

(** The inner loop and the fraction it writes for the time point [t]. *)
Definition fractionAt (now : Time) (histories : gmap string LineHistory) (t : Q) : Q :=
  let alive := len (List.filter (aliveAt now t) (List.map snd (range histories))) in
  (float64 alive / float64 (Z.of_nat (size histories)))%Q.

Definition calculateSurvivalRate (now : Time) (histories : gmap string LineHistory)
    : gmap Z Q :=
  let timePoints :=
    Float64s (fold_left (gatherLifetime now) (List.map snd (range histories)) []) in
  fold_left
    (fun survival t => <[int t := fractionAt now histories t]> survival)
    timePoints ∅.

(** What the program reads of the repository. *)
Inductive LogResult :=
| LogError (err : string)
| IterError (err : string)
| Commits (newestFirst : list Commit).

Record Repository := {
  Head : string + string;
  CommitObject : string -> option Commit;
  Log : string -> LogResult
}.

(** The lines of the tree of HEAD, counted before the commits are visited. *)
Definition currentLinesOf (r : Repository) (filePattern : string) : Z :=
  match Head r with
  | inl _ => 0
  | inr head =>
      match CommitObject r head with
      | None => 0
      | Some headCommit =>
          match Tree headCommit with
          | None => 0
          | Some files => fold_left (countLines filePattern) files 0
          end
      end
  end.

Definition finish (nowStats nowSurvival : Time) (currentLines : Z) (st : State) : Stats :=
  let stats := calculateStats nowStats (lineHistories st) in
  {| MedianLifetime := MedianLifetime stats;
     MeanLifetime := MeanLifetime stats;
     StdDevLifetime := StdDevLifetime stats;
     HalfLife := HalfLife stats;
     TotalLinesTracked := currentLines;
     LinesWithChanges := LinesWithChanges stats;
     OldestCode := OldestCode stats;
     NewestCode := NewestCode stats;
     SurvivalRate := calculateSurvivalRate nowSurvival (lineHistories st);
     ChangeFrequency := changeFrequency st;
     AverageEditSize :=
       if (0 <? totalEdits st)%Z
       then (float64 (totalEditSize st) / float64 (totalEdits st))%Q
       else AverageEditSize stats |}.

(** The two calls of [time.Now()] are the arguments [nowStats] and
    [nowSurvival]. *)
Definition analyzeRepository (repo : string + Repository) (filePattern : string)
    (nowStats nowSurvival : Time) : Result (Stats * gmap string LineHistory) :=
  match repo with
  | inl err => Err ("error opening repository: " +:+ err)
  | inr r =>
      match Head r with
      | inl err => Err ("error getting HEAD: " +:+ err)
      | inr ref =>
          match Log r ref with
          | LogError err => Err ("error creating commit iterator: " +:+ err)
          | IterError err => Err ("error analyzing commits: " +:+ err)
          | Commits commits =>
              let st := fold_left (processCommit filePattern) commits emptyState in
              Ok (finish nowStats nowSurvival (currentLinesOf r filePattern) st,
                  lineHistories st)
          end
      end
  end.

End Analyze.

End MainGo.

(** A history for the analyzer [MainGo], in the order the commit iterator
    yields it, newest first: an empty root commit, a commit whose patch adds
    the line [x] to a new file, and a commit whose patch adds the line [y]. *)
Module MainGoExamples.

Import GoStrings GoTime GoGit MainGo.

Definition nl : string := String newline "".
Definition day : Z := 24 * Hour.

Definition file (contents : string) : GoGit.File :=
  {| Name := "a.go"; Contents := Some contents |}.

Definition change (op : Operation) (text : string) : option (list FilePatch) :=
  Some [ {| From := Some "a.go"; To := Some "a.go";
            Chunks := [ {| GoGit.Type_ := op; GoGit.Content := text |} ] |} ].

Definition root : Commit :=
  {| Hash := "r0"; When := 0; Tree := Some [];
     NumParents := 0; Parent := false; Patch := None |}.

Definition c1 : Commit :=
  {| Hash := "h1"; When := 10 * day; Tree := Some [ file "x" ];
     NumParents := 1; Parent := true; Patch := change Add "x" |}.

Definition c2 : Commit :=
  {| Hash := "h2"; When := 20 * day; Tree := Some [ file ("x" +:+ nl +:+ "y") ];
     NumParents := 1; Parent := true; Patch := change Add "y" |}.

Definition repo : Repository :=
  {| Head := inr "h2";
     CommitObject := fun _ => Some c2;
     Log := fun _ => Commits [c2; c1; root] |}.

Definition now : Time := 30 * day.

(** Stand-ins for [math.Sqrt] and [math.Log]; the claims do not depend on
    them. *)
Definition anySqrt (x : Q) : Q := x.
Definition anyLog (x : Q) : Q := 1%Q.

(** Two commits about a file that ends in two closing braces: the patch of
    the first adds them, the patch of the second deletes them. *)
Definition braces : string := "}" +:+ nl +:+ "}".

Definition addBraces : Commit :=
  {| Hash := "b2"; When := 20 * day; Tree := Some [ file braces ];
     NumParents := 1; Parent := true; Patch := change Add braces |}.

Definition deleteBraces : Commit :=
  {| Hash := "b1"; When := 10 * day; Tree := Some [ file "" ];
     NumParents := 1; Parent := true; Patch := change Delete braces |}.

Definition visit (commits : list Commit) : State :=
  fold_left (processCommit map_to_list "*.go") commits emptyState.

Definition event (days : Z) (type : ChangeType) (value : string) : ChangeEvent :=
  {| Timestamp := days * day; Type_ := type; NewValue := value; Distance := 0 |}.

(** The history of the closing brace after the two commits. *)
Definition braceHistory : LineHistory :=
  {| File := "a.go"; Line := "}";
     Changes := [ event 20 Created "}"; event 10 Deleted ""; event 10 Deleted "" ];
     FirstSeen := 20 * day; LastSeen := 20 * day; DeletedAt := Some (10 * day) |}.

End MainGoExamples.

(** ** Notions used to state what the replay keeps *)

Module TrackerNotions.

Import GoStrings GoTime GoGit Tracker.

(** Two states with the same map of records. *)
Definition sameRecords (s1 s2 : State) : Prop := codeLines s1 = codeLines s2.

(** A record filed under the key of its own file and content, the content
    not blank. *)
Definition keyed (k : string) (cl : CodeLine) : Prop :=
  k = key (File cl) (Content cl) /\ isBlank (Content cl) = false.

Definition allKeyed (m : gmap string CodeLine) : Prop := map_Forall keyed m.

(** The times of a record are in order and not after [t]. *)
Definition timely (t : Time) (cl : CodeLine) : Prop :=
  CreatedAt cl <= LastSeen cl /\ LastSeen cl <= t
  /\ forall d, DeletedAt cl = Some d -> CreatedAt cl <= d /\ d <= t.

Definition allTimely (t : Time) (m : gmap string CodeLine) : Prop :=
  map_Forall (fun _ cl => timely t cl) m.

(** Two outcomes of the analysis with the same statistics, or the same
    failure. *)
Definition sameOutcome (a b : Result Report) : Prop :=
  match a, b with
  | Ok r1, Ok r2 => statsOf r1 = statsOf r2
  | Err m1, Err m2 => m1 = m2
  | Panic m1, Panic m2 => m1 = m2
  | _, _ => False
  end.

(** What the loop over the records knows of the oldest and newest surviving
    lines after the lines [seen]: the two pointers are lines it has seen,
    alive and older than the time of the analysis, with their ages, and the
    age of every such line lies between the two. *)
Definition extremes (now : Time) (seen : list CodeLine) (a : Tally) : Prop :=
  (forall s, In s seen -> survivor now s ->
     oldestLine a <> None /\ newestLine a <> None
     /\ (newestAge a <= lifetimeDays now s)%Q /\ (lifetimeDays now s <= oldestAge a)%Q)
  /\ (forall o, oldestLine a = Some o ->
        In o seen /\ survivor now o /\ oldestAge a = lifetimeDays now o)
  /\ (forall n, newestLine a = Some n ->
        In n seen /\ survivor now n /\ newestAge a = lifetimeDays now n).

(** The end of the life of a record: its deletion, or the time of the
    analysis. *)
Definition endOf (now : Time) (line : CodeLine) : Time :=
  match DeletedAt line with
  | Some deletedAt => deletedAt
  | None => now
  end.

(** An event whose counters fit a map of [size] records. *)
Definition consistentEvent (size : nat) (ev : TimelineEvent) : Prop :=
  (1 <= ev_LinesSoFar ev <= size)%nat
  /\ (ev_DeletedSoFar ev <= ev_LinesSoFar ev)%nat
  /\ ((ev_Action ev = "create" /\ ev_DeletedSoFar ev = 0%nat)
      \/ (ev_Action ev = "delete" /\ (1 <= ev_DeletedSoFar ev)%nat)).

Definition consistentTimeline (st : State) : Prop :=
  List.Forall (consistentEvent (size (codeLines st))) (timeline st).

End TrackerNotions.

(** The example history of [TrackerExamples] as a whole, and its analysis. *)
Module TrackerRuns.

Import GoStrings GoTime GoGit Tracker TrackerExamples.

Definition history : list Commit := [c0; c1; c2; c3; c4].

Definition outcome (validateMode : bool) : Result Report :=
  statistics map_to_list map_to_list validateMode now history (run validateMode history).

(** The record of the line [x] of the first commit. *)
Definition lineX : CodeLine := newCodeLine c0 "a.go" "x".

(** The record of the line of the history that is deleted and never added
    again. *)
Definition goneX : CodeLine := setDeletedAt (10 * day) (newCodeLine lone "a.go" "x").

(** A history in which the survival fraction reaches one half: the line [x]
    of the first commit lives for the 50 days until the analysis, and the line
    [z] is added after 10 days and deleted after 40. *)
Definition crossingHistory : list Commit := [lone; c1; c4].

(** A history in which it does not: the line [y] is added two fifths of a
    day after the line [x], and both are alive at the analysis, after 49.6
    and 50 days. *)
Definition near : Commit :=
  {| Hash := "n1"; When := 2 * day / 5; Tree := None;
     NumParents := 1; Parent := true; Patch := change Add "y" |}.

Definition nearHistory : list Commit := [lone; near].

End TrackerRuns.

(** ** Notions used to state what the change-event analyzer keeps *)

Module MainGoNotions.

Import GoStrings GoTime GoSort GoGit MainGo.

(** The event a history starts with. *)
Definition createdEvent (history : LineHistory) : ChangeEvent :=
  {| Timestamp := FirstSeen history; Type_ := Created;
     NewValue := Line history; Distance := 0 |}.

(** The event of a deletion at [deletedAt]. *)
Definition deletedEvent (deletedAt : Time) : ChangeEvent :=
  {| Timestamp := deletedAt; Type_ := Deleted; NewValue := ""; Distance := 0 |}.

(** An event carries distance zero, and a deletion the empty string as its
    new value. *)
Definition plainEvent (change : ChangeEvent) : Prop :=
  Distance change = 0 /\ (Type_ change = Deleted -> NewValue change = "").

(** A history stored under the key of its file and line, for a line that is
    not blank, that starts with its creation and, when it is closed, ends
    with the deletion at [DeletedAt]. *)
Definition wellFormed (k : string) (history : LineHistory) : Prop :=
  k = key (File history) (Line history)
  /\ isBlank (Line history) = false
  /\ (exists rest, Changes history = createdEvent history :: rest)
  /\ List.Forall plainEvent (Changes history)
  /\ (forall d, DeletedAt history = Some d ->
        exists before, Changes history = before ++ [deletedEvent d]).

(** A later state of a history: the origin is kept, events are only
    appended, and a closed history stays closed. *)
Definition persists (old new : LineHistory) : Prop :=
  File new = File old /\ Line new = Line old /\ FirstSeen new = FirstSeen old
  /\ (exists more, Changes new = Changes old ++ more)
  /\ (DeletedAt old <> None -> DeletedAt new <> None).

(** The times of a history when the commits are visited newest first: no
    time of it is before [t], and none is after [FirstSeen]. *)
Definition recent (t : Time) (history : LineHistory) : Prop :=
  t <= LastSeen history /\ LastSeen history <= FirstSeen history
  /\ forall d, DeletedAt history = Some d -> t <= d /\ d <= FirstSeen history.

Definition allRecent (t : Time) (h : gmap string LineHistory) : Prop :=
  map_Forall (fun _ history => recent t history) h.

(** The keys of the tally. *)
Definition typeName (type : ChangeType) : string :=
  match type with
  | Created => "Created"
  | Modified => "Modified"
  | Deleted => "Deleted"
  end.

(** [changeFrequency[name]], zero when the entry is missing. *)
Definition frequencyOf (type : ChangeType) (freq : gmap string Z) : Z :=
  default 0 (freq !! typeName type).

Definition isType (type : ChangeType) (change : ChangeEvent) : bool :=
  match type, Type_ change with
  | Created, Created | Modified, Modified | Deleted, Deleted => true
  | _, _ => false
  end.

(** The events of one type of a history, and of all the histories. *)
Definition eventsOf (type : ChangeType) (history : LineHistory) : Z :=
  Z.of_nat (length (List.filter (isType type) (Changes history))).

Definition total (l : list Z) : Z := fold_right Z.add 0 l.

Definition allEventsOf (type : ChangeType) (h : gmap string LineHistory) : Z :=
  total (List.map (fun kv => eventsOf type (snd kv)) (map_to_list h)).

(** The commits after which the tally loop runs: the tree was read and,
    when the commit has parents, so were the parent and the patch. *)
Definition tallied (commit : Commit) : bool :=
  negb (isNil (Tree commit))
  && (if (0 <? NumParents commit)%nat
      then Parent commit && negb (isNil (Patch commit))
      else true).

(** The commits whose patch is read. *)
Definition hasPatch (commit : Commit) : bool :=
  negb (isNil (Tree commit)) && (0 <? NumParents commit)%nat
  && Parent commit && negb (isNil (Patch commit)).

(** The newline bytes of a string. *)
Fixpoint newlines (s : string) : nat :=
  match s with
  | EmptyString => O
  | String c rest => if Ascii.eqb c newline then S (newlines rest) else newlines rest
  end.

(** What a file of a tree adds to the count of lines: one more than its
    newlines when it matches the pattern and can be read. *)
Definition linesIn (filePattern : string) (f : GoGit.File) : Z :=
  if matches (Name f) filePattern then
    match Contents f with
    | Some contents => 1 + Z.of_nat (newlines contents)
    | None => 0
    end
  else 0.

(** The chunks that count as edits: the added and the deleted ones of the
    patches of matching files, in the commits whose patch is read. *)
Definition isEdit (chunk : Chunk) : bool :=
  match GoGit.Type_ chunk with
  | Equal => false
  | _ => true
  end.

Definition editsOfPatch (filePattern : string) (fp : FilePatch) : list Chunk :=
  match To fp with
  | None => []
  | Some path =>
      if matches path filePattern then List.filter isEdit (Chunks fp) else []
  end.

Definition editsOf (filePattern : string) (commit : Commit) : list Chunk :=
  if hasPatch commit then
    match Patch commit with
    | Some patches => concat (List.map (editsOfPatch filePattern) patches)
    | None => []
    end
  else [].

Definition allEdits (filePattern : string) (commits : list Commit) : list Chunk :=
  concat (List.map (editsOf filePattern) commits).

(** The bytes of the chunks. *)
Definition editBytes (chunks : list Chunk) : Z :=
  total (List.map (fun chunk => GoStrings.len (GoGit.Content chunk)) chunks).

(** The two counters of edits after some chunks more. *)
Definition counts (st : State) (chunks : list Chunk) (st' : State) : Prop :=
  totalEdits st' = totalEdits st + Z.of_nat (length chunks)
  /\ totalEditSize st' = totalEditSize st + editBytes chunks.

End MainGoNotions.

(** ** More example histories of the change-event analyzer *)

Module MainGoRuns.

Import GoStrings GoTime GoGit MainGo MainGoExamples.

(** A repository with a single commit. *)
Definition rootOnly : Repository :=
  {| Head := inr "r0";
     CommitObject := fun _ => Some root;
     Log := fun _ => Commits [root] |}.

(** The histories after the three commits of [repo]. *)
Definition tracked : gmap string LineHistory := lineHistories (visit [c2; c1; root]).

End MainGoRuns.

(** ** The reports *)

(** [sort.Ints] and [sort.Strings]: the values in ascending order. *)
Module GoSortMore.

Section Insertion.

Context {A : Type} (leb : A -> A -> bool).

Fixpoint insertBy (x : A) (l : list A) : list A :=
  match l with
  | [] => [x]
  | y :: l' => if leb x y then x :: l else y :: insertBy x l'
  end.

Fixpoint sortBy (l : list A) : list A :=
  match l with
  | [] => []
  | x :: l' => insertBy x (sortBy l')
  end.

End Insertion.

Definition Ints (l : list Z) : list Z := sortBy Z.leb l.

(** Go compares strings byte by byte. *)
Definition Strings (l : list string) : list string := sortBy String.leb l.

(** [strings.Join] *)
Fixpoint Join (elems : list string) (sep : string) : string :=
  match elems with
  | [] => ""
  | x :: rest =>
      match rest with
      | [] => x
      | _ :: _ => x +:+ sep +:+ Join rest sep
      end
  end.

(** The values [from], [from + 1], ... of the variable of a counting loop. *)
Fixpoint upFrom (i : Z) (count : nat) : list Z :=
  match count with
  | O => []
  | S count' => i :: upFrom (i + 1) count'
  end.

(** The values of [i] in [for i := from; i < to; i++]. *)
Definition interval (from to : Z) : list Z := upFrom from (Z.to_nat (to - from)).

(** [for i := from; i < to && cond(i); i++ { body }], over the values of
    [interval from to]: the loop ends at the first value that fails [cond],
    and a panic of the body ends the function. *)
Fixpoint forEach {S : Type} (indices : list Z) (cond : Z -> bool)
    (body : Z -> S -> Result S) (s : S) : Result S :=
  match indices with
  | [] => Ok s
  | i :: rest =>
      if cond i then
        match body i s with
        | Ok s' => forEach rest cond body s'
        | Err msg => Err msg
        | Panic msg => Panic msg
        end
      else Ok s
  end.

(** [l[i]], which panics out of range. *)
Definition at_ {A : Type} (l : list A) (i : Z) : Result A :=
  if (0 <=? i) && (i <? Z.of_nat (length l)) then
    match nth_error l (Z.to_nat i) with
    | Some x => Ok x
    | None => Panic "index out of range"
    end
  else Panic "index out of range".

End GoSortMore.

(** The report of the change-event analyzer, main.go. *)
Module MainGoReport.

Import GoStrings GoTime GoSort GoGit MainGo GoSortMore.

Definition nl : string := String newline "".

(** [min] *)
Definition min (a b : Z) : Z := if a <? b then a else b.

Section Format.

(** [fmt.Sprintf("%.Nf", x)] for a number of decimals. *)
Variable formatFloat : nat -> Q -> string.

(** The orders in which the loops visit the two maps. *)
Variable rangeSurvival : gmap Z Q -> list (Z * Q).
Variable rangeFrequency : gmap string Z -> list (string * Z).

(** [fmt.Sprintf("  Day %d: %.1f%%\n", day, survivalRate[day]*100)] *)
Definition survivalLine (survivalRate : gmap Z Q) (day : Z) : string :=
  "  Day " +:+ pretty day +:+ ": "
  +:+ formatFloat 1 (default 0%Q (survivalRate !! day) * 100)%Q +:+ "%" +:+ nl.

Definition formatSurvivalRate (survivalRate : gmap Z Q) : string :=
  if (size survivalRate =? 0)%nat then "No survival rate data available"
  else
    let days := Ints (List.map fst (rangeSurvival survivalRate)) in
    fold_left (fun result day => result +:+ survivalLine survivalRate day)
      (firstn (Z.to_nat (min 5 (len days))) days) "".

(** [fmt.Sprintf("  %s: %d", change, count)] *)
Definition frequencyEntry (change : string) (count : Z) : string :=
  "  " +:+ change +:+ ": " +:+ pretty count.

Definition formatChangeFrequency (frequency : gmap string Z) : string :=
  if (size frequency =? 0)%nat then "No change frequency data available"
  else
    let entries :=
      List.map (fun kv => frequencyEntry (fst kv) (snd kv)) (rangeFrequency frequency) in
    Join (Strings entries) nl.

End Format.

End MainGoReport.

(** The report of the snapshot analyzer, part_001. *)
Module TrackerReport.

Import GoStrings GoTime GoSort GoGit Tracker GoSortMore.

Definition nl : string := String newline "".

(** [max] *)
Definition max (a b : Z) : Z := if a >? b then a else b.

Section Format.

Variable formatFloat : nat -> Q -> string.

(** [t.Format("2006-01-02")] *)
Variable formatDate : Time -> string.

(** [fmt.Sprintf("  %.0f%%: %.1f%%\n", float64(i*step)/float64(len(rates))*100,
    rates[i*step]*100)] *)
Definition curveLine (n step i : Z) (rate : Q) : string :=
  "  " +:+ formatFloat 0 (inject_Z (i * step) / inject_Z n * 100)%Q +:+ "%: "
  +:+ formatFloat 1 (rate * 100)%Q +:+ "%" +:+ nl.

Definition formatSurvivalCurve (rates : list Q) : Result string :=
  let n := Z.of_nat (length rates) in
  if n =? 0 then Ok "No survival rate data available"
  else
    let numPoints := 5 in
    let step := Z.quot n numPoints in
    forEach (interval 0 numPoints) (fun i => i * step <? n)
      (fun i result =>
         match at_ rates (i * step) with
         | Ok rate => Ok (result +:+ curveLine n step i rate)
         | Err msg => Err msg
         | Panic msg => Panic msg
         end)
      "".

(** [fmt.Sprintf("%s: %s line in %s (%d lines total, %d deleted)\n", ...)] *)
Definition eventLine (event : TimelineEvent) : string :=
  formatDate (ev_Time event) +:+ ": " +:+ ev_Action event +:+ " line in "
  +:+ ev_File event +:+ " (" +:+ pretty (Z.of_nat (ev_LinesSoFar event))
  +:+ " lines total, " +:+ pretty (Z.of_nat (ev_DeletedSoFar event)) +:+ " deleted)" +:+ nl.

Definition showEvent (timeline : list TimelineEvent) (i : Z) (b : string) : Result string :=
  match at_ timeline i with
  | Ok event => Ok (b +:+ eventLine event)
  | Err msg => Err msg
  | Panic msg => Panic msg
  end.

(** The end of [generateValidationReport]: the first five and the last five
    events of the timeline, written to the builder [b]. *)
Definition timelineSample (timeline : list TimelineEvent) (b : string) : Result string :=
  let numEvents := Z.of_nat (length timeline) in
  let eventsToShow := 5 in
  match forEach (interval 0 eventsToShow) (fun i => i <? numEvents)
          (showEvent timeline) b with
  | Ok b =>
      let b := if numEvents >? eventsToShow * 2 then b +:+ "..." +:+ nl else b in
      forEach (interval (max eventsToShow (numEvents - eventsToShow)) numEvents)
        (fun _ => true) (showEvent timeline) b
  | Err msg => Err msg
  | Panic msg => Panic msg
  end.

(** The events written by a loop, in order. *)
Definition writeEvents (events : list TimelineEvent) (b : string) : string :=
  fold_left (fun b event => b +:+ eventLine event) events b.

End Format.

End TrackerReport.


(** ** Facts about the library models *)

Module GoFacts.

Import GoStrings GoTime GoSort.

Lemma Qleb_le (x y : Q) : Qleb x y = true <-> (x <= y)%Q.
Proof. apply Qle_bool_iff. Qed.

Lemma Qltb_lt (x y : Q) : Qltb x y = true <-> (x < y)%Q.
Proof.
  unfold Qltb. rewrite negb_true_iff. split.
  - intros H. apply Qnot_le_lt. intros Hle. apply Qle_bool_iff in Hle. congruence.
  - intros H. destruct (Qle_bool y x) eqn:E; [|reflexivity].
    apply Qle_bool_iff in E. exfalso. apply (Qlt_not_le _ _ H E).
Qed.

Lemma Qleb_false (x y : Q) : Qleb x y = false <-> (y < x)%Q.
Proof.
  pose proof (Qltb_lt y x) as H. unfold Qltb in H.
  rewrite negb_true_iff in H. exact H.
Qed.

Lemma insert_perm (x : Q) (l : list Q) : Permutation (x :: l) (insert x l).
Proof.
  induction l as [|y l IH]; simpl.
  - apply Permutation_refl.
  - destruct (Qleb x y).
    + apply Permutation_refl.
    + eapply perm_trans; [apply perm_swap|]. apply perm_skip. exact IH.
Qed.

Lemma Float64s_perm (l : list Q) : Permutation l (Float64s l).
Proof.
  induction l as [|x l IH]; simpl.
  - apply perm_nil.
  - eapply perm_trans; [apply perm_skip; exact IH|]. apply insert_perm.
Qed.

Lemma insert_sorted (x : Q) (l : list Q) :
  StronglySorted Qle l -> StronglySorted Qle (insert x l).
Proof.
  induction l as [|y l IH]; simpl; intros Hs.
  - constructor; constructor.
  - destruct (Qleb x y) eqn:E.
    + apply Qleb_le in E. constructor; [exact Hs|].
      constructor; [exact E|].
      apply StronglySorted_inv in Hs as [_ Hall].
      eapply List.Forall_impl; [|exact Hall]. intros z Hz. simpl in Hz.
      eapply Qle_trans; eassumption.
    + apply Qleb_false in E.
      apply StronglySorted_inv in Hs as [Hs Hall].
      constructor; [apply IH; exact Hs|].
      eapply Permutation_Forall; [apply insert_perm|].
      constructor; [apply Qlt_le_weak; exact E|exact Hall].
Qed.

Lemma Float64s_sorted (l : list Q) : StronglySorted Qle (Float64s l).
Proof.
  induction l as [|x l IH]; simpl.
  - constructor.
  - apply insert_sorted. exact IH.
Qed.

Lemma Float64s_length (l : list Q) : length (Float64s l) = length l.
Proof. symmetry. apply Permutation_length, Float64s_perm. Qed.

Lemma Float64s_Forall (P : Q -> Prop) (l : list Q) :
  List.Forall P l -> List.Forall P (Float64s l).
Proof. intros H. eapply Permutation_Forall; [apply Float64s_perm|exact H]. Qed.

(** [Hours] is the exact quotient of the nanoseconds by an hour. *)
Lemma Hours_exact (d : Duration) : (Hours d == inject_Z d / inject_Z Hour)%Q.
Proof.
  unfold Hours. rewrite (Z.quot_rem' d Hour) at 3.
  rewrite inject_Z_plus, inject_Z_mult. field.
  intros H0. unfold Qeq in H0. simpl in H0. unfold Hour in H0. lia.
Qed.

(** The hours of a duration are positive exactly when the duration is. *)
Lemma Hours_pos (d : Duration) : (0 < Hours d)%Q <-> 0 < d.
Proof.
  assert (HH : 0 < Hour) by (unfold Hour; lia).
  rewrite Hours_exact. split; intros H.
  - destruct (Z_lt_le_dec 0 d) as [Hd|Hd]; [exact Hd|]. exfalso.
    apply (Qlt_not_le _ _ H).
    apply Qle_shift_div_r.
    + change 0%Q with (inject_Z 0). rewrite <- Zlt_Qlt. exact HH.
    + rewrite Qmult_0_l. change 0%Q with (inject_Z 0). rewrite <- Zle_Qle. exact Hd.
  - apply Qlt_shift_div_l.
    + change 0%Q with (inject_Z 0). rewrite <- Zlt_Qlt. exact HH.
    + rewrite Qmult_0_l. change 0%Q with (inject_Z 0). rewrite <- Zlt_Qlt. exact H.
Qed.

Lemma filter_none {A : Type} (f : A -> bool) (l : list A) :
  (forall x, In x l -> f x = false) -> List.filter f l = [].
Proof.
  induction l as [|x l IH]; intros H; simpl; [reflexivity|].
  rewrite (H x) by (now left). apply IH. intros y Hy. apply H. now right.
Qed.

(** Two folds of the same loop body. *)
Lemma fold_left_preserves {S X : Type} (f : S -> X -> S) (P : S -> Prop) (l : list X) :
  (forall s x, P s -> P (f s x)) -> forall s, P s -> P (fold_left f l s).
Proof.
  intros Hstep. induction l as [|x l IH]; simpl; intros s Hs.
  - exact Hs.
  - apply IH, Hstep, Hs.
Qed.

(** When the loop body establishes [Post] at an element [x] of the list,
    from any state that satisfies a loop invariant [Pre], and every
    iteration keeps [Post], the loop ends in [Post]. *)
Lemma fold_left_hits {S X : Type} (f : S -> X -> S) (Pre Post : S -> Prop)
    (l : list X) (x : X) :
  In x l ->
  (forall s y, Pre s -> Pre (f s y)) ->
  (forall s y, Post s -> Post (f s y)) ->
  (forall s, Pre s -> Post (f s x)) ->
  forall s, Pre s -> Post (fold_left f l s).
Proof.
  intros Hin Hpre Hpost Hx. induction l as [|y l IH]; simpl; intros s Hs.
  - destruct Hin.
  - destruct Hin as [->|Hin].
    + apply fold_left_preserves; [exact Hpost|]. apply Hx, Hs.
    + apply IH; [exact Hin|]. apply Hpre, Hs.
Qed.

End GoFacts.

(** ** The statistics of the analyzer with the survival curve *)

Module TrackerStats.

Import GoStrings GoTime GoSort GoGit Tracker GoFacts.

Lemma tallyLine_lifetimes (now : Time) (a : Tally) (line : CodeLine) :
  lifetimes (tallyLine now a line)
  = lifetimes a ++ (if Qltb 0 (lifetimeDays now line) then [lifetimeDays now line] else []).
Proof.
  unfold tallyLine, lifetimeDays, tallySurviving, tallyDeleted.
  destruct (DeletedAt line) as [deletedAt|]; simpl.
  - destruct (Qltb 0 (days (Sub deletedAt (CreatedAt line)))); simpl;
      [reflexivity | now rewrite app_nil_r].
  - destruct (Qltb 0 (days (Sub now (CreatedAt line)))); simpl;
      [reflexivity | now rewrite app_nil_r].
Qed.

Lemma tallyLine_totalLines (now : Time) (a : Tally) (line : CodeLine) :
  totalLines (tallyLine now a line) = S (totalLines a).
Proof.
  unfold tallyLine, tallySurviving, tallyDeleted.
  destruct (DeletedAt line) as [deletedAt|]; simpl.
  - destruct (Qltb 0 (days (Sub deletedAt (CreatedAt line)))); reflexivity.
  - destruct (Qltb 0 (days (Sub now (CreatedAt line)))); reflexivity.
Qed.

Lemma fold_tally (now : Time) (lines : list CodeLine) (a : Tally) :
  lifetimes (fold_left (tallyLine now) lines a)
  = lifetimes a ++ List.filter (fun x => Qltb 0 x) (List.map (lifetimeDays now) lines)
  /\ totalLines (fold_left (tallyLine now) lines a) = (totalLines a + length lines)%nat.
Proof.
  revert a. induction lines as [|line lines IH]; intros a; simpl.
  - rewrite app_nil_r. split; [reflexivity | lia].
  - destruct (IH (tallyLine now a line)) as [IH1 IH2].
    rewrite IH1, IH2, tallyLine_lifetimes, tallyLine_totalLines.
    split; [|lia].
    destruct (Qltb 0 (lifetimeDays now line)); simpl.
    + now rewrite <- app_assoc.
    + now rewrite app_nil_r.
Qed.

Lemma tally_lifetimes (now : Time) (lines : list CodeLine) :
  lifetimes (tally now lines)
  = List.filter (fun x => Qltb 0 x) (List.map (lifetimeDays now) lines).
Proof. unfold tally. now rewrite (proj1 (fold_tally now lines emptyTally)). Qed.

Lemma tally_totalLines (now : Time) (lines : list CodeLine) :
  totalLines (tally now lines) = length lines.
Proof. unfold tally. now rewrite (proj2 (fold_tally now lines emptyTally)). Qed.

Lemma tally_positive (now : Time) (lines : list CodeLine) :
  List.Forall (fun x => (0 < x)%Q) (lifetimes (tally now lines)).
Proof.
  rewrite tally_lifetimes. apply List.Forall_forall. intros x Hx.
  apply filter_In in Hx as [_ Hx]. now apply Qltb_lt.
Qed.

Lemma Sub_pos (t u : Time) : 0 < Sub t u <-> u < t.
Proof.
  unfold Sub, minDuration, maxDuration.
  destruct (t - u <? - 2 ^ 63) eqn:E1; [apply Z.ltb_lt in E1; lia|].
  destruct (2 ^ 63 - 1 <? t - u) eqn:E2; [apply Z.ltb_lt in E2; lia|].
  lia.
Qed.

(** A record is in the sample exactly when its life ends after it began:
    a line created and deleted at the same time is left out. *)
Lemma lifetimeDays_pos (now : Time) (line : CodeLine) :
  Qltb 0 (lifetimeDays now line) = true
  <-> CreatedAt line < match DeletedAt line with
                       | Some deletedAt => deletedAt
                       | None => now
                       end.
Proof.
  rewrite Qltb_lt. unfold lifetimeDays, days. cbv zeta.
  set (d := Sub _ (CreatedAt line)).
  rewrite <- Sub_pos. fold d. rewrite <- Hours_pos.
  split; intros H.
  - apply Qnot_le_lt. intros Hle. apply (Qlt_not_le _ _ H).
    unfold Qdiv. rewrite <- (Qmult_0_l (/ 24)).
    apply Qmult_le_compat_r; [exact Hle | discriminate].
  - apply Qlt_shift_div_l; [reflexivity|]. now rewrite Qmult_0_l.
Qed.

(** *** The survival curve *)

Lemma survived_antitone (l : list Q) (t1 t2 : Q) :
  (t1 <= t2)%Q -> (survived l t2 <= survived l t1)%nat.
Proof.
  intros Ht. unfold survived. induction l as [|x l IH]; simpl; [lia|].
  destruct (Qleb t2 x) eqn:E2.
  - apply Qleb_le in E2.
    assert (E1 : Qleb t1 x = true) by (apply Qleb_le; eapply Qle_trans; eassumption).
    rewrite E1. simpl. lia.
  - destruct (Qleb t1 x); simpl; lia.
Qed.

Lemma survived_all (l : list Q) (t : Q) :
  List.Forall (fun x => (t <= x)%Q) l -> survived l t = length l.
Proof.
  unfold survived. induction 1 as [|x l Hx _ IH]; simpl; [reflexivity|].
  apply Qleb_le in Hx. rewrite Hx. simpl. now rewrite IH.
Qed.

Lemma float64_le (n m : nat) : (n <= m)%nat -> (float64 n <= float64 m)%Q.
Proof. intros H. unfold float64. rewrite <- Zle_Qle. lia. Qed.

Lemma float64_pos (n : nat) : (0 < n)%nat -> (0 < float64 n)%Q.
Proof.
  intros H. unfold float64. change 0%Q with (inject_Z 0). rewrite <- Zlt_Qlt. lia.
Qed.

Lemma Qdiv_le_mono (a b c : Q) : (0 <= c)%Q -> (a <= b)%Q -> (a / c <= b / c)%Q.
Proof.
  intros Hc Hab. unfold Qdiv. apply Qmult_le_compat_r; [exact Hab|].
  destruct (Qlt_le_dec 0 c) as [Hpos|Hneg].
  - apply Qlt_le_weak, Qinv_lt_0_compat, Hpos.
  - assert (Hc0 : (c == 0)%Q) by (apply Qle_antisym; assumption).
    rewrite Hc0. apply Qle_refl.
Qed.

Lemma survivalAt_antitone (l : list Q) (t1 t2 : Q) :
  (t1 <= t2)%Q -> (survivalAt l t2 <= survivalAt l t1)%Q.
Proof.
  intros Ht. unfold survivalAt. apply Qdiv_le_mono.
  - unfold float64. change 0%Q with (inject_Z 0). rewrite <- Zle_Qle. lia.
  - apply float64_le, survived_antitone, Ht.
Qed.

Lemma survivalCurve_lookup (l : list Q) (maxAge : Q) (i : nat) (a : Q) :
  survivalCurve l maxAge !! i = Some a ->
  (i < timePoints)%nat /\ a = survivalAt l (timePoint maxAge i).
Proof.
  unfold survivalCurve.
  change (List.map ?f ?s) with (f <$> s).
  rewrite list_lookup_fmap. intros H.
  destruct (seq 0 timePoints !! i) as [k|] eqn:E; simpl in H; [|discriminate].
  apply lookup_seq in E as [-> Hlt]. simpl in H. split; [exact Hlt | congruence].
Qed.

Lemma timePoint_mono (maxAge : Q) (i j : nat) :
  (0 <= maxAge)%Q -> (i <= j)%nat -> (timePoint maxAge i <= timePoint maxAge j)%Q.
Proof.
  intros Hm Hij. unfold timePoint. apply Qdiv_le_mono.
  - unfold float64. change 0%Q with (inject_Z 0). rewrite <- Zle_Qle. lia.
  - rewrite !(Qmult_comm maxAge). apply Qmult_le_compat_r; [|exact Hm].
    apply float64_le, Hij.
Qed.

Lemma timePoint_0 (maxAge : Q) : (timePoint maxAge 0 == 0)%Q.
Proof. unfold timePoint, float64. simpl. unfold Qdiv. ring. Qed.

Lemma timePoint_pos (maxAge : Q) (i : nat) :
  (0 < maxAge)%Q -> (0 < i)%nat -> (0 < timePoint maxAge i)%Q.
Proof.
  intros Hm Hi. unfold timePoint. apply Qlt_shift_div_l.
  - apply float64_pos. unfold timePoints. lia.
  - rewrite Qmult_0_l. apply Qmult_lt_0_compat; [exact Hm|]. apply float64_pos, Hi.
Qed.

(** *** The search for the half-life *)

Lemma crossing_none (maxAge : Q) (f : nat -> Q) (n k : nat) :
  (forall j, (k <= j < k + n)%nat -> ~ (f j <= 1 # 2)%Q) ->
  crossing maxAge k (List.map f (seq k n)) = 0%Q.
Proof.
  revert k. induction n as [|n IH]; intros k Hnone; simpl; [reflexivity|].
  destruct (Qleb (f k) (1 # 2)) eqn:E.
  - apply Qleb_le in E. exfalso. apply (Hnone k); [lia | exact E].
  - apply IH. intros j Hj. apply Hnone. lia.
Qed.

Lemma crossing_first (maxAge : Q) (f : nat -> Q) (n k i : nat) :
  (k <= i < k + n)%nat ->
  (f i <= 1 # 2)%Q ->
  (forall j, (k <= j < i)%nat -> ~ (f j <= 1 # 2)%Q) ->
  crossing maxAge k (List.map f (seq k n)) = timePoint maxAge i.
Proof.
  revert k. induction n as [|n IH]; intros k Hi Hfi Hbefore; simpl; [lia|].
  destruct (Qleb (f k) (1 # 2)) eqn:E.
  - apply Qleb_le in E.
    destruct (Nat.eq_dec k i) as [->|Hne]; [reflexivity|].
    exfalso. apply (Hbefore k); [lia | exact E].
  - destruct (Nat.eq_dec k i) as [->|Hne].
    + apply Qleb_le in Hfi. congruence.
    + apply IH; [lia | exact Hfi |]. intros j Hj. apply Hbefore. lia.
Qed.

Lemma below_dec (P : nat -> Prop) (n : nat) :
  (forall i, P i \/ ~ P i) ->
  (exists i, (i < n)%nat /\ P i) \/ ~ (exists i, (i < n)%nat /\ P i).
Proof.
  intros Hdec. induction n as [|n [IH|IH]].
  - right. intros [i [Hi _]]. lia.
  - left. destruct IH as [i [Hi HP]]. exists i. split; [lia | exact HP].
  - destruct (Hdec n) as [HP|HP].
    + left. exists n. split; [lia | exact HP].
    + right. intros [i [Hi HPi]].
      destruct (Nat.eq_dec i n) as [->|Hne]; [exact (HP HPi)|].
      apply IH. exists i. split; [lia | exact HPi].
Qed.

(** The least index below [n] at which a decidable property holds. *)
Lemma least_index (P : nat -> Prop) (n : nat) :
  (forall i, P i \/ ~ P i) ->
  (exists i, (i < n)%nat /\ P i) ->
  exists i, (i < n)%nat /\ P i /\ forall j, (j < i)%nat -> ~ P j.
Proof.
  intros Hdec. induction n as [|n IH]; intros [i [Hi HP]]; [lia|].
  destruct (below_dec P n Hdec) as [Hsome|Hnone].
  - destruct (IH Hsome) as [m [Hm [HPm Hleast]]].
    exists m. repeat split; [lia | exact HPm | exact Hleast].
  - assert (i = n) as ->.
    { destruct (Nat.eq_dec i n) as [->|Hne]; [reflexivity|].
      exfalso. apply Hnone. exists i. split; [lia | exact HP]. }
    exists n. repeat split; [lia | exact HP |].
    intros j Hj HPj. apply Hnone. exists j. split; [exact Hj | exact HPj].
Qed.

End TrackerStats.

Module TrackerHalfLife.

Import GoStrings GoTime GoSort GoGit Tracker GoFacts TrackerStats.

Lemma maxAgeOf_In (sorted : list Q) : sorted <> [] -> In (maxAgeOf sorted) sorted.
Proof.
  intros Hne. unfold maxAgeOf. apply nth_In.
  destruct sorted; [congruence | simpl; lia].
Qed.

Lemma maxAgeOf_pos (sorted : list Q) :
  sorted <> [] -> List.Forall (fun x => (0 < x)%Q) sorted -> (0 < maxAgeOf sorted)%Q.
Proof.
  intros Hne Hall. rewrite List.Forall_forall in Hall. apply Hall, maxAgeOf_In, Hne.
Qed.

(** At age 0 every line of a positive sample is counted: the fraction is 1. *)
Lemma fraction_at_0 (sorted : list Q) (maxAge : Q) :
  sorted <> [] -> List.Forall (fun x => (0 < x)%Q) sorted ->
  (survivalAt sorted (timePoint maxAge 0) == 1)%Q.
Proof.
  intros Hne Hall. unfold survivalAt.
  rewrite survived_all.
  - unfold Qdiv. apply Qmult_inv_r. intros H0.
    assert (Hpos : (0 < float64 (length sorted))%Q).
    { apply float64_pos. destruct sorted; [congruence | simpl; lia]. }
    rewrite H0 in Hpos. exact (Qlt_irrefl 0 Hpos).
  - eapply List.Forall_impl; [|exact Hall]. intros x Hx. simpl in Hx.
    rewrite timePoint_0. apply Qlt_le_weak, Hx.
Qed.

Lemma fraction_dec (sorted : list Q) (maxAge : Q) (i : nat) :
  (survivalAt sorted (timePoint maxAge i) <= 1 # 2)%Q
  \/ ~ (survivalAt sorted (timePoint maxAge i) <= 1 # 2)%Q.
Proof.
  destruct (Qlt_le_dec (1 # 2) (survivalAt sorted (timePoint maxAge i))) as [H|H].
  - right. apply Qlt_not_le, H.
  - left. exact H.
Qed.

(** The half-life of a sorted sample of positive lifetimes: the first
    sampled age at which the fraction is at most one half, and the element
    at index [len/2] when there is no such age. *)
Lemma halfLifeOf_cases (sorted : list Q) :
  sorted <> [] -> List.Forall (fun x => (0 < x)%Q) sorted ->
  let age := timePoint (maxAgeOf sorted) in
  let fraction := fun i => survivalAt sorted (age i) in
  ((exists i, (i < timePoints)%nat /\ (fraction i <= 1 # 2)%Q) ->
   exists i, (i < timePoints)%nat /\ halfLifeOf sorted = age i
             /\ (fraction i <= 1 # 2)%Q
             /\ forall j, (j < timePoints)%nat -> (fraction j <= 1 # 2)%Q ->
                          (age i <= age j)%Q)
  /\ ((forall i, (i < timePoints)%nat -> ~ (fraction i <= 1 # 2)%Q) ->
      halfLifeOf sorted = middle sorted).
Proof.
  intros Hne Hall age fraction.
  pose proof (maxAgeOf_pos sorted Hne Hall) as Hmax.
  split.
  - intros Hex.
    destruct (least_index (fun i => (fraction i <= 1 # 2)%Q) timePoints
                (fraction_dec sorted (maxAgeOf sorted)) Hex)
      as [i [Hi [Hfi Hleast]]].
    exists i. split; [exact Hi|].
    assert (Hi0 : (0 < i)%nat).
    { destruct i as [|i]; [|lia]. exfalso. unfold fraction, age in Hfi.
      rewrite (fraction_at_0 sorted (maxAgeOf sorted) Hne Hall) in Hfi.
      revert Hfi. apply Qlt_not_le. reflexivity. }
    assert (Hcross : crossing (maxAgeOf sorted) 0 (survivalCurve sorted (maxAgeOf sorted))
                     = age i).
    { unfold survivalCurve.
      apply (crossing_first (maxAgeOf sorted) fraction timePoints 0 i).
      - lia.
      - exact Hfi.
      - intros j Hj. apply Hleast. lia. }
    repeat split.
    + unfold halfLifeOf. cbv zeta. rewrite Hcross.
      destruct (Qeq_bool (age i) 0) eqn:E; [|reflexivity].
      apply Qeq_bool_iff in E. exfalso.
      pose proof (timePoint_pos (maxAgeOf sorted) i Hmax Hi0) as Hpos.
      fold age in Hpos. rewrite E in Hpos. exact (Qlt_irrefl 0 Hpos).
    + exact Hfi.
    + intros j Hj Hfj. apply timePoint_mono; [apply Qlt_le_weak, Hmax|].
      destruct (le_lt_dec i j) as [Hle|Hlt]; [exact Hle|].
      exfalso. exact (Hleast j Hlt Hfj).
  - intros Hnone. unfold halfLifeOf. cbv zeta.
    assert (Hcross : crossing (maxAgeOf sorted) 0 (survivalCurve sorted (maxAgeOf sorted))
                     = 0%Q).
    { unfold survivalCurve.
      apply (crossing_none (maxAgeOf sorted) fraction timePoints 0).
      intros j Hj. apply Hnone. lia. }
    rewrite Hcross. reflexivity.
Qed.

Section Report.

Variable rangeLines : gmap string CodeLine -> list (string * CodeLine).
Variable rangeSurvivors : gmap string CodeLine -> list (string * CodeLine).

(** The fields of a report that [statistics] returns. *)
Lemma statistics_fields (validateMode : bool) (now : Time) (commits : list Commit)
    (st : State) (r : Report) :
  statistics rangeLines rangeSurvivors validateMode now commits st = Ok r ->
  let t := tally now (List.map snd (rangeLines (codeLines st))) in
  let sorted := Float64s (lifetimes t) in
  lifetimes t <> []
  /\ HalfLife (statsOf r) = halfLifeOf sorted
  /\ MedianAge (statsOf r) = middle sorted
  /\ SurvivalRate (statsOf r) = survivalCurve sorted (maxAgeOf sorted)
  /\ TotalLines (statsOf r) = totalLines t.
Proof.
  unfold statistics. cbv zeta.
  set (t := tally now (List.map snd (rangeLines (codeLines st)))).
  destruct (lifetimes t) as [|x l] eqn:El; simpl; [discriminate|].
  destruct (oldestLine t) as [oldest|]; [|discriminate].
  destruct (newestLine t) as [newest|]; [|discriminate].
  destruct commits as [|first rest]; [discriminate|].
  destruct (last (first :: rest)) as [lastc|]; [|discriminate].
  destruct validateMode; simpl; intros H; injection H as <-; simpl;
    repeat split; congruence.
Qed.

End Report.

End TrackerHalfLife.

(** ** The replay of the analyzer with the first-commit snapshot *)

Module TrackerReplay.

Import GoStrings GoTime GoSort GoGit Tracker GoFacts.

(** *** Single lines *)

Lemma addLine_holds (v : bool) (c : Commit) (path k : string) (P : CodeLine -> Prop)
    (st : State) (line : string) :
  stable (When c) P -> holds k P st -> holds k P (addLine v c path st line).
Proof.
  intros Hst [cl [Hk HP]]. unfold addLine, holds.
  destruct (isBlank line); [eauto|].
  destruct (codeLines st !! key path line) as [cl0|] eqn:E; simpl.
  - destruct (decide (key path line = k)) as [<-|Hne].
    + rewrite lookup_insert_eq. eexists. split; [reflexivity|].
      rewrite E in Hk. injection Hk as ->. apply Hst, HP.
    + rewrite lookup_insert_ne by exact Hne. eauto.
  - destruct (decide (key path line = k)) as [<-|Hne]; [congruence|].
    rewrite lookup_insert_ne by exact Hne. eauto.
Qed.

Lemma deleteLine_holds (v : bool) (c : Commit) (path k : string) (P : CodeLine -> Prop)
    (st : State) (line : string) :
  stable (When c) P -> holds k P st -> holds k P (deleteLine v c path st line).
Proof.
  intros Hst [cl [Hk HP]]. unfold deleteLine, holds.
  destruct (isBlank line); [eauto|].
  destruct (codeLines st !! key path line) as [cl0|] eqn:E; simpl; [|eauto].
  destruct (decide (key path line = k)) as [<-|Hne].
  - rewrite lookup_insert_eq. eexists. split; [reflexivity|].
    rewrite E in Hk. injection Hk as ->. apply Hst, HP.
  - rewrite lookup_insert_ne by exact Hne. eauto.
Qed.

(** A deleted line closes the record of its key at the time of the commit,
    whether the record was open or closed. *)
Lemma deleteLine_closes (v : bool) (c : Commit) (path : string) (P : CodeLine -> Prop)
    (st : State) (line : string) :
  isBlank line = false ->
  stable (When c) P ->
  holds (key path line) P st ->
  holds (key path line) (fun cl => P cl /\ DeletedAt cl = Some (When c))
    (deleteLine v c path st line).
Proof.
  intros Hnb Hst [cl [Hk HP]]. unfold deleteLine, holds. rewrite Hnb, Hk. simpl.
  rewrite lookup_insert_eq. eexists. split; [reflexivity|].
  split; [apply Hst, HP | reflexivity].
Qed.

(** An added line whose key is tracked only refreshes [LastSeen]; no event
    is logged. *)
Lemma addLine_tracked (v : bool) (c : Commit) (path : string) (st : State)
    (line : string) (cl : CodeLine) :
  isBlank line = false ->
  codeLines st !! key path line = Some cl ->
  addLine v c path st line
  = {| codeLines := <[key path line := setLastSeen (When c) cl]> (codeLines st);
       timeline := timeline st |}.
Proof. intros Hnb Hk. unfold addLine. now rewrite Hnb, Hk. Qed.

(** *** The snapshot of the first commit *)

Lemma snapshotLine_holds (v : bool) (c : Commit) (name k : string) (P : CodeLine -> Prop)
    (st : State) (line : string) :
  (forall n l, P (newCodeLine c n l)) ->
  holds k P st -> holds k P (snapshotLine v c name st line).
Proof.
  intros Hnew [cl [Hk HP]]. unfold snapshotLine, holds.
  destruct (isBlank line); [eauto|]. simpl.
  destruct (decide (key name line = k)) as [<-|Hne].
  - rewrite lookup_insert_eq. eauto.
  - rewrite lookup_insert_ne by exact Hne. eauto.
Qed.

Lemma snapshotLine_records (v : bool) (c : Commit) (name : string) (P : CodeLine -> Prop)
    (st : State) (line : string) :
  isBlank line = false ->
  P (newCodeLine c name line) ->
  holds (key name line) P (snapshotLine v c name st line).
Proof.
  intros Hnb HP. unfold snapshotLine, holds. rewrite Hnb. simpl.
  rewrite lookup_insert_eq. eauto.
Qed.

(** *** The timeline *)

Lemma logEvent_keeps (v : bool) (ev ev' : TimelineEvent) (tl : list TimelineEvent) :
  In ev tl -> In ev (logEvent v ev' tl).
Proof.
  intros H. unfold logEvent. destruct v; [|exact H]. apply in_or_app. now left.
Qed.

Lemma snapshotLine_keeps (v : bool) (c : Commit) (name : string) (st : State)
    (line : string) (ev : TimelineEvent) :
  In ev (timeline st) -> In ev (timeline (snapshotLine v c name st line)).
Proof.
  intros H. unfold snapshotLine. destruct (isBlank line); [exact H|]. simpl.
  now apply logEvent_keeps.
Qed.

Lemma addLine_keeps (v : bool) (c : Commit) (path : string) (st : State)
    (line : string) (ev : TimelineEvent) :
  In ev (timeline st) -> In ev (timeline (addLine v c path st line)).
Proof.
  intros H. unfold addLine. destruct (isBlank line); [exact H|].
  destruct (codeLines st !! key path line); simpl; [exact H|].
  now apply logEvent_keeps.
Qed.

Lemma deleteLine_keeps (v : bool) (c : Commit) (path : string) (st : State)
    (line : string) (ev : TimelineEvent) :
  In ev (timeline st) -> In ev (timeline (deleteLine v c path st line)).
Proof.
  intros H. unfold deleteLine. destruct (isBlank line); [exact H|].
  destruct (codeLines st !! key path line); simpl; [|exact H].
  now apply logEvent_keeps.
Qed.

Lemma snapshotLine_logs (c : Commit) (name : string) (st : State) (line : string) :
  isBlank line = false ->
  logged (When c) name line (snapshotLine true c name st line).
Proof.
  intros Hnb. unfold snapshotLine, logged. rewrite Hnb. simpl.
  eexists. split; [apply in_or_app; right; left; reflexivity|].
  repeat split.
Qed.

Lemma snapshotLine_silent (c : Commit) (name : string) (st : State) (line : string) :
  timeline (snapshotLine false c name st line) = timeline st.
Proof. unfold snapshotLine. destruct (isBlank line); reflexivity. Qed.

Lemma addLine_silent (c : Commit) (path : string) (st : State) (line : string) :
  timeline (addLine false c path st line) = timeline st.
Proof.
  unfold addLine. destruct (isBlank line); [reflexivity|].
  destruct (codeLines st !! key path line); reflexivity.
Qed.

Lemma deleteLine_silent (c : Commit) (path : string) (st : State) (line : string) :
  timeline (deleteLine false c path st line) = timeline st.
Proof.
  unfold deleteLine. destruct (isBlank line); [reflexivity|].
  destruct (codeLines st !! key path line); reflexivity.
Qed.

Lemma applyChunk_keeps (v : bool) (c : Commit) (path : string) (st : State)
    (chunk : Chunk) (ev : TimelineEvent) :
  In ev (timeline st) -> In ev (timeline (applyChunk v c path st chunk)).
Proof.
  intros H. unfold applyChunk. destruct (GoGit.Type_ chunk); [exact H| |].
  - apply (fold_left_preserves _ (fun s => In ev (timeline s))); [|exact H].
    intros s x. apply addLine_keeps.
  - apply (fold_left_preserves _ (fun s => In ev (timeline s))); [|exact H].
    intros s x. apply deleteLine_keeps.
Qed.

Lemma applyChunk_silent (c : Commit) (path : string) (st : State) (chunk : Chunk) :
  timeline (applyChunk false c path st chunk) = timeline st.
Proof.
  unfold applyChunk. destruct (GoGit.Type_ chunk); [reflexivity| |].
  - apply (fold_left_preserves _ (fun s => timeline s = timeline st)); [|reflexivity].
    intros s x Hs. now rewrite addLine_silent.
  - apply (fold_left_preserves _ (fun s => timeline s = timeline st)); [|reflexivity].
    intros s x Hs. now rewrite deleteLine_silent.
Qed.

(** *** Chunks, file patches and commits *)

Lemma applyChunk_holds (v : bool) (c : Commit) (path k : string) (P : CodeLine -> Prop)
    (st : State) (chunk : Chunk) :
  stable (When c) P -> holds k P st -> holds k P (applyChunk v c path st chunk).
Proof.
  intros Hst H. unfold applyChunk. destruct (GoGit.Type_ chunk).
  - exact H.
  - apply fold_left_preserves; [|exact H]. intros s x. now apply addLine_holds.
  - apply fold_left_preserves; [|exact H]. intros s x. now apply deleteLine_holds.
Qed.

Section Patterns.

Variable filepath_Base : string -> string.
Variable filepath_Match : string -> string -> option bool.

Local Abbreviation matchesPattern := (matchesPattern filepath_Base filepath_Match).
Local Abbreviation applyFilePatch := (applyFilePatch filepath_Base filepath_Match).
Local Abbreviation laterCommit := (laterCommit filepath_Base filepath_Match).
Local Abbreviation firstCommit := (firstCommit filepath_Base filepath_Match).
Local Abbreviation snapshotFile := (snapshotFile filepath_Base filepath_Match).
Local Abbreviation replay := (replay filepath_Base filepath_Match).

Lemma applyFilePatch_holds (pattern : string) (v : bool) (c : Commit) (k : string)
    (P : CodeLine -> Prop) (st : State) (fp : FilePatch) :
  stable (When c) P -> holds k P st -> holds k P (applyFilePatch pattern v c st fp).
Proof.
  intros Hst H. unfold Tracker.applyFilePatch.
  destruct (patchPath fp) as [path|]; [|exact H].
  destruct (negb (matchesPattern path pattern)); [exact H|].
  apply fold_left_preserves; [|exact H]. intros s x. now apply applyChunk_holds.
Qed.

Lemma laterCommit_holds (pattern : string) (v : bool) (k : string)
    (P : CodeLine -> Prop) (st : State) (c : Commit) :
  stable (When c) P -> holds k P st -> holds k P (laterCommit pattern v st c).
Proof.
  intros Hst H. unfold Tracker.laterCommit.
  destruct (Patch c) as [patches|]; [|exact H].
  apply fold_left_preserves; [|exact H]. intros s x. now apply applyFilePatch_holds.
Qed.

Lemma laterCommits_hold (pattern : string) (v : bool) (k : string)
    (P : CodeLine -> Prop) (rest : list Commit) (st : State) :
  (forall t, stable t P) -> holds k P st ->
  holds k P (fold_left (laterCommit pattern v) rest st).
Proof.
  intros Hst H. apply fold_left_preserves; [|exact H].
  intros s c. apply laterCommit_holds, Hst.
Qed.

(** A commit that deletes a line of a tracked key leaves the record closed
    at the time of the commit. *)
Lemma laterCommit_closes (pattern : string) (v : bool) (st : State) (c : Commit)
    (patches : list FilePatch) (fp : FilePatch) (path : string) (chunk : Chunk)
    (line : string) (P : CodeLine -> Prop) :
  Patch c = Some patches -> In fp patches ->
  patchPath fp = Some path -> matchesPattern path pattern = true ->
  In chunk (Chunks fp) -> GoGit.Type_ chunk = Delete ->
  In line (Split (GoGit.Content chunk)) -> isBlank line = false ->
  stable (When c) P ->
  holds (key path line) P st ->
  holds (key path line) (fun cl => P cl /\ DeletedAt cl = Some (When c))
    (laterCommit pattern v st c).
Proof.
  intros HP Hfp Hpath Hmatch Hchunk Hty Hline Hnb Hst Hk.
  assert (Hst' : stable (When c) (fun cl => P cl /\ DeletedAt cl = Some (When c))).
  { intros cl [H1 H2]. destruct (Hst cl H1) as [H3 H4]. repeat split; assumption. }
  unfold Tracker.laterCommit. rewrite HP.
  apply (fold_left_hits _ (holds (key path line) P) _ patches fp Hfp); [| | |exact Hk].
  - intros s y. now apply applyFilePatch_holds.
  - intros s y. now apply applyFilePatch_holds.
  - intros s Hs. unfold Tracker.applyFilePatch. rewrite Hpath, Hmatch. simpl.
    apply (fold_left_hits _ (holds (key path line) P) _ (Chunks fp) chunk Hchunk);
      [| | |exact Hs].
    + intros s' y. now apply applyChunk_holds.
    + intros s' y. now apply applyChunk_holds.
    + intros s' Hs'. unfold applyChunk. rewrite Hty.
      apply (fold_left_hits _ (holds (key path line) P) _ _ line Hline);
        [| | |exact Hs'].
      * intros s'' y. now apply deleteLine_holds.
      * intros s'' y. now apply deleteLine_holds.
      * intros s'' Hs''. now apply deleteLine_closes.
Qed.

Lemma laterCommit_keeps (pattern : string) (v : bool) (st : State) (c : Commit)
    (ev : TimelineEvent) :
  In ev (timeline st) -> In ev (timeline (laterCommit pattern v st c)).
Proof.
  intros H. unfold Tracker.laterCommit. destruct (Patch c) as [patches|]; [|exact H].
  apply (fold_left_preserves _ (fun s => In ev (timeline s))); [|exact H].
  intros s fp Hs. unfold Tracker.applyFilePatch.
  destruct (patchPath fp) as [path|]; [|exact Hs].
  destruct (negb (matchesPattern path pattern)); [exact Hs|].
  apply (fold_left_preserves _ (fun s => In ev (timeline s))); [|exact Hs].
  intros s' x. apply applyChunk_keeps.
Qed.

Lemma laterCommit_silent (pattern : string) (st : State) (c : Commit) :
  timeline (laterCommit pattern false st c) = timeline st.
Proof.
  unfold Tracker.laterCommit. destruct (Patch c) as [patches|]; [|reflexivity].
  apply (fold_left_preserves _ (fun s => timeline s = timeline st)); [|reflexivity].
  intros s fp Hs. unfold Tracker.applyFilePatch.
  destruct (patchPath fp) as [path|]; [|exact Hs].
  destruct (negb (matchesPattern path pattern)); [exact Hs|].
  rewrite <- Hs.
  apply (fold_left_preserves _ (fun s' => timeline s' = timeline s)); [|reflexivity].
  intros s' x Hs'. now rewrite applyChunk_silent.
Qed.

Lemma firstCommit_silent (pattern : string) (st : State) (c : Commit) :
  timeline (firstCommit pattern false st c) = timeline st.
Proof.
  unfold Tracker.firstCommit. destruct (Tree c) as [files|]; [|reflexivity].
  apply (fold_left_preserves _ (fun s => timeline s = timeline st)); [|reflexivity].
  intros s f Hs. unfold Tracker.snapshotFile.
  destruct (negb (matchesPattern (Name f) pattern)); [exact Hs|].
  destruct (Contents f) as [content|]; [|exact Hs].
  rewrite <- Hs.
  apply (fold_left_preserves _ (fun s' => timeline s' = timeline s)); [|reflexivity].
  intros s' x Hs'. now rewrite snapshotLine_silent.
Qed.

(** Every non-blank line of a readable matching file of the first commit
    ends with a record that satisfies what new records of the commit
    satisfy, and with a create event in validation mode. *)
Lemma firstCommit_records (pattern : string) (v : bool) (st : State) (c : Commit)
    (files : list GoGit.File) (f : GoGit.File) (content line : string)
    (P : CodeLine -> Prop) :
  Tree c = Some files -> In f files ->
  matchesPattern (Name f) pattern = true ->
  Contents f = Some content ->
  In line (Split content) -> isBlank line = false ->
  (forall n l, P (newCodeLine c n l)) ->
  holds (key (Name f) line) P (firstCommit pattern v st c).
Proof.
  intros HT Hf Hm Hc Hline Hnb Hnew.
  unfold Tracker.firstCommit. rewrite HT.
  assert (Hfile : forall s y, holds (key (Name f) line) P s ->
                              holds (key (Name f) line) P (snapshotFile pattern v c s y)).
  { intros s y Hs. unfold Tracker.snapshotFile.
    destruct (negb (matchesPattern (Name y) pattern)); [exact Hs|].
    destruct (Contents y) as [cy|]; [|exact Hs].
    apply fold_left_preserves; [|exact Hs].
    intros s' x. now apply snapshotLine_holds. }
  apply (fold_left_hits _ (fun _ => True) _ files f Hf); [tauto|exact Hfile| |exact I].
  intros s _. unfold Tracker.snapshotFile. rewrite Hm, Hc. simpl.
  apply (fold_left_hits _ (fun _ => True) _ _ line Hline); [tauto| | |exact I].
  - intros s' x. now apply snapshotLine_holds.
  - intros s' _. apply snapshotLine_records; [exact Hnb | apply Hnew].
Qed.

Lemma firstCommit_logs (pattern : string) (st : State) (c : Commit)
    (files : list GoGit.File) (f : GoGit.File) (content line : string) :
  Tree c = Some files -> In f files ->
  matchesPattern (Name f) pattern = true ->
  Contents f = Some content ->
  In line (Split content) -> isBlank line = false ->
  logged (When c) (Name f) line (firstCommit pattern true st c).
Proof.
  intros HT Hf Hm Hc Hline Hnb.
  unfold Tracker.firstCommit. rewrite HT.
  assert (Hfile : forall s y, logged (When c) (Name f) line s ->
                              logged (When c) (Name f) line (snapshotFile pattern true c s y)).
  { intros s y [ev [Hin Hev]]. exists ev. split; [|exact Hev].
    unfold Tracker.snapshotFile.
    destruct (negb (matchesPattern (Name y) pattern)); [exact Hin|].
    destruct (Contents y) as [cy|]; [|exact Hin].
    apply (fold_left_preserves _ (fun s' => In ev (timeline s'))); [|exact Hin].
    intros s' x. apply snapshotLine_keeps. }
  apply (fold_left_hits _ (fun _ => True) _ files f Hf); [tauto|exact Hfile| |exact I].
  intros s _. unfold Tracker.snapshotFile. rewrite Hm, Hc. simpl.
  apply (fold_left_hits _ (fun _ => True) _ _ line Hline); [tauto| | |exact I].
  - intros s' x [ev [Hin Hev]]. exists ev. split; [|exact Hev]. now apply snapshotLine_keeps.
  - intros s' _. now apply snapshotLine_logs.
Qed.

Lemma fold_left_ext {S X : Type} (f g : S -> X -> S) (l : list X) (s : S) :
  (forall s x, f s x = g s x) -> fold_left f l s = fold_left g l s.
Proof.
  intros H. revert s. induction l as [|x l IH]; intros s; simpl; [reflexivity|].
  now rewrite H, IH.
Qed.

(** The first commit is processed without its patch. *)
Lemma firstCommit_withPatch (pattern : string) (v : bool) (st : State) (c : Commit)
    (p : option (list FilePatch)) :
  firstCommit pattern v st (withPatch p c) = firstCommit pattern v st c.
Proof.
  unfold Tracker.firstCommit. simpl. destruct (Tree c) as [files|]; [|reflexivity].
  apply fold_left_ext. intros s f. unfold Tracker.snapshotFile.
  destruct (negb (matchesPattern (Name f) pattern)); [reflexivity|].
  destruct (Contents f) as [content|]; [|reflexivity].
  apply fold_left_ext. intros s' x. reflexivity.
Qed.

End Patterns.

End TrackerReplay.

Module TrackerOutcome.

Import GoStrings GoTime GoSort GoGit Tracker GoFacts TrackerStats TrackerHalfLife.

Lemma tallyLine_no_survivor (now : Time) (a : Tally) (line : CodeLine) :
  ~ survivor now line -> oldestLine a = None ->
  oldestLine (tallyLine now a line) = None.
Proof.
  unfold survivor, tallyLine, tallySurviving, tallyDeleted, lifetimeDays.
  intros Hns Ha. destruct (DeletedAt line) as [d|]; simpl.
  - destruct (Qltb 0 (days (Sub d (CreatedAt line)))); exact Ha.
  - destruct (Qltb 0 (days (Sub now (CreatedAt line)))) eqn:E; simpl; [|exact Ha].
    exfalso. apply Hns. split; reflexivity.
Qed.

Lemma tally_no_survivor (now : Time) (lines : list CodeLine) :
  (forall line, In line lines -> ~ survivor now line) ->
  oldestLine (tally now lines) = None.
Proof.
  unfold tally. generalize emptyTally (eq_refl : oldestLine emptyTally = None).
  induction lines as [|line lines IH]; intros a Ha Hall; simpl; [exact Ha|].
  apply IH.
  - apply tallyLine_no_survivor; [apply Hall; now left | exact Ha].
  - intros l Hl. apply Hall. now right.
Qed.

Lemma tallyLine_keeps_survivor (now : Time) (a : Tally) (line : CodeLine) :
  hasSurvivor a -> hasSurvivor (tallyLine now a line).
Proof.
  unfold hasSurvivor, tallyLine, tallySurviving, tallyDeleted.
  intros (Ho & Hn & Hl).
  destruct (DeletedAt line) as [d|]; simpl.
  - destruct (Qltb 0 (days (Sub d (CreatedAt line)))); simpl;
      repeat split; try assumption. now destruct (lifetimes a).
  - destruct (Qltb 0 (days (Sub now (CreatedAt line)))); simpl;
      repeat split; try assumption.
    + now destruct (isNil (oldestLine a) || Qltb (oldestAge a) _).
    + now destruct (isNil (newestLine a) || Qltb _ (newestAge a)).
    + now destruct (lifetimes a).
Qed.

Lemma tallyLine_survivor (now : Time) (a : Tally) (line : CodeLine) :
  survivor now line -> hasSurvivor (tallyLine now a line).
Proof.
  unfold survivor, hasSurvivor, tallyLine, tallySurviving, lifetimeDays.
  intros [Hd Hage]. rewrite Hd in *. simpl in *. rewrite Hage. simpl.
  repeat split.
  - destruct (oldestLine a); simpl; [|discriminate].
    now destruct (Qltb (oldestAge a) _).
  - destruct (newestLine a); simpl; [|discriminate].
    now destruct (Qltb _ (newestAge a)).
  - now destruct (lifetimes a).
Qed.

Lemma tally_survivor (now : Time) (lines : list CodeLine) (line : CodeLine) :
  In line lines -> survivor now line -> hasSurvivor (tally now lines).
Proof.
  intros Hin Hs. unfold tally.
  apply (fold_left_hits _ (fun _ => True) hasSurvivor lines line Hin); [tauto| | |exact I].
  - intros a y. apply tallyLine_keeps_survivor.
  - intros a _. now apply tallyLine_survivor.
Qed.

Section Outcome.

Variable rangeLines : gmap string CodeLine -> list (string * CodeLine).
Variable rangeSurvivors : gmap string CodeLine -> list (string * CodeLine).

Local Abbreviation statistics := (statistics rangeLines rangeSurvivors).

(** When a line is alive and older than the time of the analysis, and there
    is a commit, the statistics are returned. *)
Lemma statistics_returns (validateMode : bool) (now : Time) (commits : list Commit)
    (st : State) (line : CodeLine) :
  In line (List.map snd (rangeLines (codeLines st))) ->
  survivor now line ->
  commits <> [] ->
  exists r, statistics validateMode now commits st = Ok r.
Proof.
  intros Hin Hs Hc.
  destruct (tally_survivor now _ line Hin Hs) as (Ho & Hn & Hl).
  unfold Tracker.statistics. cbv zeta.
  destruct (lifetimes (tally now _)) as [|x l] eqn:El; [congruence|]. simpl.
  destruct (oldestLine (tally now _)) as [oldest|]; [|congruence].
  destruct (newestLine (tally now _)) as [newest|]; [|congruence].
  destruct commits as [|first rest]; [congruence|].
  destruct (last (first :: rest)) as [lastc|] eqn:Elast.
  - destruct validateMode; simpl; eauto.
  - apply last_None in Elast. discriminate.
Qed.

(** When the sample is not empty and no line is alive and older than the
    time of the analysis (every line was deleted, say), building the report
    dereferences the nil pointer [oldestLine]. *)
Lemma statistics_panics (validateMode : bool) (now : Time) (commits : list Commit)
    (st : State) :
  length (lifetimes (tally now (List.map snd (rangeLines (codeLines st))))) <> 0%nat ->
  (forall line, In line (List.map snd (rangeLines (codeLines st))) -> ~ survivor now line) ->
  statistics validateMode now commits st = Panic "nil pointer dereference".
Proof.
  intros Hne Hnone. unfold Tracker.statistics. cbv zeta.
  rewrite (tally_no_survivor now _ Hnone).
  destruct (lifetimes (tally now _)) as [|x l]; [simpl in Hne; lia|]. reflexivity.
Qed.

End Outcome.

Import TrackerExamples.

Example deleted_history_panics :
  analyzeRepository unusedBase unusedMatch map_to_list map_to_list
    (inr goneRepo) "*" false now
  = Panic "nil pointer dereference".
Proof. vm_compute. reflexivity. Qed.

(** The median of this analyzer is the element at index [len/2]: for an even
    count it is the upper of the two middle values, where the other analyzer
    takes their mean. *)
Example median_of_two_values :
  middle [1; 3]%Q = 3%Q /\ MainGo.medianOf [1; 3]%Q = ((1 + 3) / 2)%Q.
Proof. split; reflexivity. Qed.

End TrackerOutcome.

(** ** The claims about the analyzer with the survival curve *)

Module TrackerClaims.

Import GoStrings GoTime GoSort GoGit Tracker GoFacts.
Import TrackerStats TrackerHalfLife TrackerReplay.

Lemma days_exact (d : Duration) : (days d == inject_Z d / inject_Z (24 * Hour))%Q.
Proof.
  unfold days. rewrite Hours_exact, inject_Z_mult. field.
  intros H0. unfold Qeq in H0. simpl in H0. unfold Hour in H0. lia.
Qed.

Section Claims.

Variable filepath_Base : string -> string.
Variable filepath_Match : string -> string -> option bool.
Variable rangeLines : gmap string CodeLine -> list (string * CodeLine).
Variable rangeSurvivors : gmap string CodeLine -> list (string * CodeLine).

(** A loop over the map visits every entry once. *)
Hypothesis rangeLines_visits : forall m, rangeLines m ≡ₚ map_to_list m.

Local Abbreviation matchesPattern := (matchesPattern filepath_Base filepath_Match).
Local Abbreviation laterCommit := (laterCommit filepath_Base filepath_Match).
Local Abbreviation replay := (replay filepath_Base filepath_Match).
Local Abbreviation statistics := (statistics rangeLines rangeSurvivors).
Local Abbreviation analyzeRepository :=
  (analyzeRepository filepath_Base filepath_Match rangeLines rangeSurvivors).

Lemma rangeLines_length (m : gmap string CodeLine) : length (rangeLines m) = size m.
Proof.
  rewrite (Permutation_length (rangeLines_visits m)). apply length_map_to_list.
Qed.

Lemma rangeLines_lookup (m : gmap string CodeLine) (line : CodeLine) :
  In line (List.map snd (rangeLines m)) -> exists k, m !! k = Some line.
Proof.
  intros H. apply in_map_iff in H as [[k cl] [Heq Hin]]. simpl in Heq. subst cl.
  exists k. apply elem_of_map_to_list. apply list_elem_of_In.
  eapply Permutation_in; [apply rangeLines_visits | exact Hin].
Qed.

(** C4. When every record has a non-positive lifetime (so that the sample is
    empty after filtering, also when there is no record at all), the analysis
    of an opened repository with a resolved branch and a readable log ends
    with the error "no valid lifetimes found" and no report. *)
Theorem empty_sample_is_an_error (r : Repository) (filePattern : string)
    (validateMode : bool) (now : Time) (mainRef : string) (newestFirst : list Commit) :
  firstSome (Reference r "main") (Reference r "master") = Some mainRef ->
  Log r mainRef = Commits newestFirst ->
  (forall k cl,
     codeLines (replay filePattern validateMode (rev newestFirst)) !! k = Some cl ->
     (lifetimeDays now cl <= 0)%Q) ->
  analyzeRepository (inr r) filePattern validateMode now
  = Err "no valid lifetimes found".
Proof.
  intros Href Hlog Hall. unfold Tracker.analyzeRepository. rewrite Href, Hlog.
  unfold Tracker.statistics.
  set (st := replay filePattern validateMode (rev newestFirst)) in *.
  rewrite tally_lifetimes.
  assert (Hnil : List.filter (fun x => Qltb 0 x)
                   (List.map (lifetimeDays now) (List.map snd (rangeLines (codeLines st))))
                 = []).
  { apply filter_none. intros x Hx.
    apply in_map_iff in Hx as [line [<- Hin]].
    apply rangeLines_lookup in Hin as [k Hk].
    apply Hall in Hk. apply not_true_iff_false. intros Hlt.
    apply Qltb_lt in Hlt. exact (Qlt_not_le _ _ Hlt Hk). }
  rewrite Hnil. reflexivity.
Qed.

(** C5. The lifetime of a record is the time from [createdAt] to [deletedAt]
    when that is set, and to [now] otherwise, in days; the sample holds the
    positive lifetimes only, in the order the records are visited; and every
    record, in the sample or not, is counted in the total, which is the
    [TotalLines] of the report. *)
Theorem lifetime_sample_and_total (now : Time) (st : State) :
  let lines := List.map snd (rangeLines (codeLines st)) in
  let t := tally now lines in
  (forall line,
     (lifetimeDays now line
      == inject_Z (Sub (match DeletedAt line with
                        | Some deletedAt => deletedAt
                        | None => now
                        end) (CreatedAt line))
         / inject_Z (24 * Hour))%Q)
  /\ lifetimes t = List.filter (fun x => Qltb 0 x) (List.map (lifetimeDays now) lines)
  /\ List.Forall (fun x => (0 < x)%Q) (lifetimes t)
  /\ totalLines t = size (codeLines st)
  /\ (forall validateMode commits r,
        statistics validateMode now commits st = Ok r ->
        TotalLines (statsOf r) = size (codeLines st)
        /\ HalfLife (statsOf r) = halfLifeOf (Float64s (lifetimes t))
        /\ MedianAge (statsOf r) = middle (Float64s (lifetimes t))).
Proof.
  intros lines t.
  assert (Htotal : totalLines t = size (codeLines st)).
  { unfold t, lines. rewrite tally_totalLines, length_map. apply rangeLines_length. }
  repeat split.
  - intros line. unfold lifetimeDays. cbv zeta. apply days_exact.
  - apply tally_lifetimes.
  - apply tally_positive.
  - exact Htotal.
  - apply statistics_fields in H. cbv zeta in H.
    destruct H as (_ & _ & _ & _ & H). rewrite H. exact Htotal.
  - apply statistics_fields in H. cbv zeta in H. tauto.
  - apply statistics_fields in H. cbv zeta in H. tauto.
Qed.

Lemma stable_origin (cl : CodeLine) (t : Time) :
  stable t (fun x => Content x = Content cl /\ File x = File cl
                     /\ CreatedAt x = CreatedAt cl /\ CommitHash x = CommitHash cl).
Proof. intros x Hx. split; exact Hx. Qed.

Lemma stable_closed (t : Time) : stable t (fun x => DeletedAt x <> None).
Proof. intros x Hx. split; [exact Hx | discriminate]. Qed.

Lemma stable_and (t : Time) (P Q : CodeLine -> Prop) :
  stable t P -> stable t Q -> stable t (fun x => P x /\ Q x).
Proof.
  intros HP HQ x [Hx1 Hx2]. destruct (HP x Hx1), (HQ x Hx2). repeat split; assumption.
Qed.

(** C2, as the analyzer has it. When the key of a line has a closed record
    after a prefix of the history, no later commit replaces it: after any
    continuation of the history the key still holds a record with the
    content, file, creation time and creating commit of the old one, and its
    [DeletedAt] is still set. A line added under a tracked key only refreshes
    [LastSeen] and logs no event. *)
Theorem readded_line_keeps_closed_record (filePattern : string) (validateMode : bool)
    (c0 : Commit) (pre rest : list Commit) (path line : string) (cl : CodeLine) :
  codeLines (replay filePattern validateMode (c0 :: pre)) !! key path line = Some cl ->
  DeletedAt cl <> None ->
  (exists cl',
      codeLines (replay filePattern validateMode (c0 :: pre ++ rest)) !! key path line
      = Some cl'
      /\ Content cl' = Content cl /\ File cl' = File cl
      /\ CreatedAt cl' = CreatedAt cl /\ CommitHash cl' = CommitHash cl
      /\ DeletedAt cl' <> None)
  /\ (forall (c : Commit) (st : State) (old : CodeLine),
        isBlank line = false ->
        codeLines st !! key path line = Some old ->
        addLine validateMode c path st line
        = {| codeLines := <[key path line := setLastSeen (When c) old]> (codeLines st);
             timeline := timeline st |}).
Proof.
  intros Hk Hclosed. split.
  - unfold Tracker.replay in *. rewrite fold_left_app.
    set (st := fold_left _ pre _) in *.
    assert (H : holds (key path line)
                  (fun x => (Content x = Content cl /\ File x = File cl
                             /\ CreatedAt x = CreatedAt cl
                             /\ CommitHash x = CommitHash cl)
                            /\ DeletedAt x <> None)
                  (fold_left (laterCommit filePattern validateMode) rest st)).
    { apply laterCommits_hold.
      - intros t. apply stable_and; [apply stable_origin | apply stable_closed].
      - exists cl. split; [exact Hk|]. repeat split. exact Hclosed. }
    destruct H as [cl' [Hk' H]]. exists cl'. tauto.
  - intros c st old Hnb Hold. now apply addLine_tracked.
Qed.

(** C3, as the analyzer has it. Every non-blank line of every readable file
    of the tree of the first commit that matches the pattern has, at the end
    of the replay, a record created at the time of that commit. A create
    event at that time is in the timeline in validation mode; without
    validation mode the timeline stays empty. The patch of the first commit
    is not read: replacing it changes nothing. *)
Theorem first_commit_is_a_snapshot (filePattern : string) (validateMode : bool)
    (c0 : Commit) (rest : list Commit) (files : list GoGit.File) (f : GoGit.File)
    (content line : string) :
  Tree c0 = Some files -> In f files ->
  matchesPattern (Name f) filePattern = true ->
  Contents f = Some content ->
  In line (Split content) -> isBlank line = false ->
  let st := replay filePattern validateMode (c0 :: rest) in
  (exists cl, codeLines st !! key (Name f) line = Some cl /\ CreatedAt cl = When c0)
  /\ (validateMode = true -> logged (When c0) (Name f) line st)
  /\ (validateMode = false -> timeline st = [])
  /\ (forall p, replay filePattern validateMode (withPatch p c0 :: rest) = st).
Proof.
  intros HT Hf Hm Hc Hline Hnb st. unfold st, Tracker.replay.
  split; [|split; [|split]].
  - apply (laterCommits_hold _ _ filePattern validateMode _
             (fun x => CreatedAt x = When c0)).
    + intros t x Hx. split; exact Hx.
    + eapply firstCommit_records; try eassumption. reflexivity.
  - intros ->.
    apply (fold_left_preserves _ (logged (When c0) (Name f) line)).
    + intros s c [ev [Hin Hev]]. exists ev. split; [|exact Hev].
      now apply laterCommit_keeps.
    + eapply firstCommit_logs; eassumption.
  - intros ->.
    apply (fold_left_preserves _ (fun s => timeline s = [])).
    + intros s c Hs. now rewrite laterCommit_silent.
    + now rewrite firstCommit_silent.
  - intros p. now rewrite firstCommit_withPatch.
Qed.

(** C10. When the key of a non-blank line has a closed record and the line
    is in a deleted chunk of a later commit (of a file that matches the
    pattern), the record leaves that commit with [DeletedAt] equal to the time
    of the commit: the last deletion wins, and the lifetime of the record is
    measured from its creation to that commit. *)
Theorem redeletion_overwrites_deletedAt (filePattern : string) (validateMode : bool)
    (now : Time) (st : State) (c : Commit) (patches : list FilePatch) (fp : FilePatch)
    (path : string) (chunk : Chunk) (line : string) (cl : CodeLine) (d : Time) :
  codeLines st !! key path line = Some cl ->
  DeletedAt cl = Some d ->
  Patch c = Some patches -> In fp patches ->
  patchPath fp = Some path -> matchesPattern path filePattern = true ->
  In chunk (Chunks fp) -> GoGit.Type_ chunk = Delete ->
  In line (Split (GoGit.Content chunk)) -> isBlank line = false ->
  exists cl',
    codeLines (laterCommit filePattern validateMode st c) !! key path line = Some cl'
    /\ DeletedAt cl' = Some (When c)
    /\ CreatedAt cl' = CreatedAt cl
    /\ lifetimeDays now cl' = days (Sub (When c) (CreatedAt cl)).
Proof.
  intros Hk Hd HP Hfp Hpath Hm Hchunk Hty Hline Hnb.
  destruct (laterCommit_closes filepath_Base filepath_Match filePattern validateMode
              st c patches fp path chunk line (fun x => CreatedAt x = CreatedAt cl)
              HP Hfp Hpath Hm Hchunk Hty Hline Hnb)
    as [cl' [Hk' [Hc' Hd']]].
  - intros x Hx. split; exact Hx.
  - exists cl. split; [exact Hk | reflexivity].
  - exists cl'. split; [exact Hk'|]. split; [exact Hd'|]. split; [exact Hc'|].
    unfold lifetimeDays. rewrite Hd', Hc'. reflexivity.
Qed.

End Claims.

(** C9. The fractions of a survival curve do not increase with the sampled
    age: of two points of the curve, the one at the greater age has the
    smaller or equal fraction. *)
Theorem survival_curve_non_increasing (lifetimes : list Q) (maxAge : Q)
    (i j : nat) (a b : Q) :
  survivalCurve lifetimes maxAge !! i = Some a ->
  survivalCurve lifetimes maxAge !! j = Some b ->
  (timePoint maxAge i < timePoint maxAge j)%Q ->
  (b <= a)%Q.
Proof.
  intros Hi Hj Hlt.
  apply survivalCurve_lookup in Hi as [_ ->].
  apply survivalCurve_lookup in Hj as [_ ->].
  apply survivalAt_antitone, Qlt_le_weak, Hlt.
Qed.

(** *** The claims on the example history *)

Import TrackerExamples.

Lemma empty_sample_is_an_error_witness :
  analyzeRepository unusedBase unusedMatch map_to_list map_to_list
    (inr youngRepo) "*" false now
  = Err "no valid lifetimes found".
Proof.
  apply (empty_sample_is_an_error unusedBase unusedMatch map_to_list map_to_list
           (fun m => Permutation_refl _) youngRepo "*" false now "y0" [young]).
  - reflexivity.
  - reflexivity.
  - intros k cl Hk.
    assert (Hmap : codeLines (replay unusedBase unusedMatch "*" false (rev [young]))
                   = {[ key "a.go" "x" := newCodeLine young "a.go" "x" ]})
      by (vm_compute; reflexivity).
    rewrite Hmap in Hk. apply lookup_singleton_Some in Hk as [_ <-].
    vm_compute. discriminate.
Defined.

Lemma lifetime_sample_and_total_witness :
  let st := run false [c0; c1; c2; c3; c4] in
  let t := tally now (List.map snd (map_to_list (codeLines st))) in
  List.Forall (fun x => (0 < x)%Q) (lifetimes t) /\ totalLines t = size (codeLines st).
Proof.
  pose proof (lifetime_sample_and_total map_to_list map_to_list
                (fun m => Permutation_refl _) now (run false [c0; c1; c2; c3; c4])) as H.
  cbv zeta in *. tauto.
Defined.

Lemma survival_curve_non_increasing_witness :
  (survivalAt [10; 20]%Q (timePoint 20 51) <= survivalAt [10; 20]%Q (timePoint 20 50))%Q.
Proof.
  apply (survival_curve_non_increasing [10; 20]%Q 20 50 51).
  - reflexivity.
  - reflexivity.
  - vm_compute. reflexivity.
Defined.

Lemma readded_line_keeps_closed_record_witness :
  exists cl',
    codeLines (run true ([c0; c1; c2] ++ [c3])) !! key "a.go" "z" = Some cl'
    /\ Content cl' = "z" /\ File cl' = "a.go"
    /\ CreatedAt cl' = When c1 /\ CommitHash cl' = "h1"
    /\ DeletedAt cl' <> None.
Proof.
  apply (readded_line_keeps_closed_record unusedBase unusedMatch "*" true
           c0 [c1; c2] [c3] "a.go" "z" closedZ).
  - vm_compute. reflexivity.
  - simpl. discriminate.
Defined.

(** C2 fails as stated: the commit [c3] adds the line [z] again after [c2]
    deleted it, and no record is created. The map has as many records as
    before, the record of the key is the one created by [c1] and closed by
    [c2] with [LastSeen] refreshed, the timeline has no new event, and no
    record is created at the time of [c3]. *)
Lemma readded_line_counterexample :
  let before := run true [c0; c1; c2] in
  let after := run true [c0; c1; c2; c3] in
  size (codeLines after) = size (codeLines before)
  /\ codeLines after !! key "a.go" "z" = Some (setLastSeen (When c3) closedZ)
  /\ timeline after = timeline before
  /\ List.Forall (fun kv => CreatedAt (snd kv) <> When c3) (map_to_list (codeLines after)).
Proof.
  split; [vm_compute; reflexivity|].
  split; [vm_compute; reflexivity|].
  split; [vm_compute; reflexivity|].
  vm_compute. repeat constructor; discriminate.
Qed.

Lemma first_commit_is_a_snapshot_witness :
  (exists cl, codeLines (run true [c0; c1]) !! key "a.go" "x" = Some cl
              /\ CreatedAt cl = When c0)
  /\ logged (When c0) "a.go" "x" (run true [c0; c1]).
Proof.
  destruct (first_commit_is_a_snapshot unusedBase unusedMatch "*" true c0 [c1]
              [ {| Name := "a.go"; Contents := Some ("x" +:+ nl +:+ "y") |} ]
              {| Name := "a.go"; Contents := Some ("x" +:+ nl +:+ "y") |}
              ("x" +:+ nl +:+ "y") "x")
    as (H1 & H2 & _).
  - reflexivity.
  - simpl. left. reflexivity.
  - reflexivity.
  - reflexivity.
  - vm_compute. left. reflexivity.
  - reflexivity.
  - split; [exact H1 | apply H2; reflexivity].
Defined.

(** C3 fails as stated: without validation mode the first commit records
    its lines and no create event. *)
Lemma first_commit_counterexample :
  let st := run false [c0] in
  (exists cl, codeLines st !! key "a.go" "x" = Some cl /\ CreatedAt cl = When c0)
  /\ timeline st = []
  /\ ~ logged (When c0) "a.go" "x" st.
Proof.
  split; [|split].
  - eexists. split; [vm_compute; reflexivity | reflexivity].
  - reflexivity.
  - intros [ev [Hin _]]. exact Hin.
Qed.

Lemma redeletion_overwrites_deletedAt_witness :
  exists cl',
    codeLines (laterCommit unusedBase unusedMatch "*" false
                 (run false [c0; c1; c2; c3]) c4) !! key "a.go" "z" = Some cl'
    /\ DeletedAt cl' = Some (When c4)
    /\ CreatedAt cl' = When c1
    /\ lifetimeDays now cl' = days (Sub (When c4) (When c1)).
Proof.
  apply (redeletion_overwrites_deletedAt unusedBase unusedMatch "*" false now
           (run false [c0; c1; c2; c3]) c4
           [ {| From := Some "a.go"; To := Some "a.go";
                Chunks := [ {| GoGit.Type_ := Delete; GoGit.Content := "z" |} ] |} ]
           {| From := Some "a.go"; To := Some "a.go";
              Chunks := [ {| GoGit.Type_ := Delete; GoGit.Content := "z" |} ] |}
           "a.go" {| GoGit.Type_ := Delete; GoGit.Content := "z" |} "z"
           (setLastSeen (When c3) closedZ) (When c2)).
  - vm_compute. reflexivity.
  - reflexivity.
  - reflexivity.
  - simpl. left. reflexivity.
  - reflexivity.
  - reflexivity.
  - simpl. left. reflexivity.
  - reflexivity.
  - simpl. left. reflexivity.
  - reflexivity.
Defined.

End TrackerClaims.

(** ** The claims about the analyzer with change events *)

Module MainGoClaims.

Import GoStrings GoTime GoSort GoGit MainGo GoFacts.

(** *** The event list of a history *)

Lemma newHistory_inOrder (c : Commit) (path line : string) :
  eventsInOrder (newHistory c path line).
Proof.
  eexists _, [], []. simpl. repeat split; constructor.
Qed.

Lemma markDeleted_inOrder (c : Commit) (history : LineHistory) :
  eventsInOrder history -> eventsInOrder (markDeleted c history).
Proof.
  intros (first & mods & dels & Hc & Hf & Hm & Hd & _).
  exists first, mods,
    (dels ++ [ {| Timestamp := When c; Type_ := Deleted; NewValue := ""; Distance := 0 |} ]).
  simpl. rewrite Hc. split; [simpl; now rewrite <- app_assoc|].
  split; [exact Hf|]. split; [exact Hm|]. split.
  - apply List.Forall_app. split; [exact Hd|]. constructor; [reflexivity | constructor].
  - split; [discriminate|]. intros H. destruct dels; discriminate.
Qed.

Lemma markSeen_inOrder (c : Commit) (line : string) (history : LineHistory) :
  eventsInOrder history -> eventsInOrder (markSeen c line history).
Proof.
  intros (first & mods & dels & Hc & Hf & Hm & Hd & Hopen).
  unfold markSeen. destruct (DeletedAt history) as [d|] eqn:E; simpl.
  - exists first, mods, dels. simpl. repeat split; try assumption; apply Hopen.
  - assert (dels = []) as -> by (now apply Hopen).
    exists first,
      (mods ++ [ {| Timestamp := When c; Type_ := Modified; NewValue := line;
                    Distance := 0 |} ]), [].
    simpl. rewrite Hc, !app_nil_r. repeat split.
    + exact Hf.
    + apply List.Forall_app. split; [exact Hm|]. constructor; [reflexivity | constructor].
    + constructor.
Qed.

Lemma addLine_inOrder (c : Commit) (path : string) (h : gmap string LineHistory)
    (line : string) :
  allInOrder h -> allInOrder (addLine c path h line).
Proof.
  intros H. unfold addLine. destruct (isBlank line); [exact H|].
  destruct (h !! key path line); [exact H|].
  apply map_Forall_insert_2; [apply newHistory_inOrder | exact H].
Qed.

Lemma deleteLine_inOrder (c : Commit) (path : string) (h : gmap string LineHistory)
    (line : string) :
  allInOrder h -> allInOrder (deleteLine c path h line).
Proof.
  intros H. unfold deleteLine. destruct (isBlank line); [exact H|].
  destruct (h !! key path line) as [history|] eqn:E; [|exact H].
  apply map_Forall_insert_2; [|exact H].
  apply markDeleted_inOrder. exact (H _ _ E).
Qed.

Lemma equalLine_inOrder (c : Commit) (path : string) (h : gmap string LineHistory)
    (line : string) :
  allInOrder h -> allInOrder (equalLine c path h line).
Proof.
  intros H. unfold equalLine. destruct (isBlank line); [exact H|].
  destruct (h !! key path line) as [history|] eqn:E; [|exact H].
  apply map_Forall_insert_2; [|exact H].
  apply markSeen_inOrder. exact (H _ _ E).
Qed.

Lemma applyChunk_inOrder (c : Commit) (path : string) (st : State) (chunk : Chunk) :
  allInOrder (lineHistories st) -> allInOrder (lineHistories (applyChunk c path st chunk)).
Proof.
  intros H. unfold applyChunk. destruct (GoGit.Type_ chunk); simpl.
  - apply fold_left_preserves; [|exact H]. intros h x. apply equalLine_inOrder.
  - apply fold_left_preserves; [|exact H]. intros h x. apply addLine_inOrder.
  - apply fold_left_preserves; [|exact H]. intros h x. apply deleteLine_inOrder.
Qed.

Lemma applyFilePatch_inOrder (pattern : string) (c : Commit) (st : State) (fp : FilePatch) :
  allInOrder (lineHistories st) ->
  allInOrder (lineHistories (applyFilePatch pattern c st fp)).
Proof.
  intros H. unfold applyFilePatch. destruct (To fp) as [path|]; [|exact H].
  destruct (negb (matches path pattern)); [exact H|].
  apply (fold_left_preserves _ (fun s => allInOrder (lineHistories s))); [|exact H].
  intros s x. apply applyChunk_inOrder.
Qed.

Lemma odd_count (k : nat) :
  Z.of_nat (2 * k + 1) mod 2 = 1 /\ Z.of_nat (2 * k + 1) / 2 = Z.of_nat k.
Proof. split; Z.div_mod_to_equations; lia. Qed.

Lemma even_count (k : nat) :
  Z.of_nat (2 * k) mod 2 = 0 /\ Z.of_nat (2 * k) / 2 = Z.of_nat k.
Proof. split; Z.div_mod_to_equations; lia. Qed.

Section Claims.

Variable math_Sqrt : Q -> Q.
Variable math_Log : Q -> Q.
Variable range : gmap string LineHistory -> list (string * LineHistory).

Local Abbreviation processCommit := (processCommit range).
Local Abbreviation calculateStats := (calculateStats math_Sqrt math_Log range).

Lemma processCommit_inOrder (pattern : string) (st : State) (c : Commit) :
  allInOrder (lineHistories st) ->
  allInOrder (lineHistories (processCommit pattern st c)).
Proof.
  intros H. unfold MainGo.processCommit.
  destruct (Tree c) as [files|]; [|exact H].
  destruct (0 <? NumParents c)%nat; [|exact H].
  destruct (negb (Parent c)); [exact H|].
  destruct (Patch c) as [patches|]; [|exact H]. simpl.
  apply (fold_left_preserves _ (fun s => allInOrder (lineHistories s))); [|exact H].
  intros s x. apply applyFilePatch_inOrder.
Qed.

(** C7, as the analyzer has it. The events of every history reached by
    visiting any sequence of commits are one [Created] event, then
    [Modified] events, then [Deleted] events: no [Modified] event follows a
    [Deleted] one, and there are [Deleted] events exactly when [DeletedAt] is
    set. Their number is not bounded by one. *)
Theorem events_created_modified_deleted (filePattern : string) (commits : list Commit)
    (k : string) (history : LineHistory) :
  lineHistories (fold_left (processCommit filePattern) commits emptyState) !! k
  = Some history ->
  exists first mods dels,
    Changes history = first :: mods ++ dels
    /\ Type_ first = Created
    /\ List.Forall (fun change => Type_ change = Modified) mods
    /\ List.Forall (fun change => Type_ change = Deleted) dels
    /\ (DeletedAt history = None <-> dels = []).
Proof.
  intros Hk.
  assert (H : allInOrder
                (lineHistories (fold_left (processCommit filePattern) commits emptyState))).
  { apply (fold_left_preserves _ (fun s => allInOrder (lineHistories s))).
    - intros s c. apply processCommit_inOrder.
    - apply map_Forall_empty. }
  exact (H _ _ Hk).
Qed.

(** The fields of the statistics of a non-empty sample. *)
Lemma calculateStats_nonempty (now : Time) (histories : gmap string LineHistory) :
  let sample := fold_left (gatherLifetime now) (List.map snd (range histories)) [] in
  length sample <> 0%nat ->
  MedianLifetime (calculateStats now histories) = medianOf (Float64s sample)
  /\ HalfLife (calculateStats now histories)
     = (medianOf (Float64s sample) * math_Log 2)%Q.
Proof.
  intros sample Hne. unfold MainGo.calculateStats. fold sample.
  destruct (len sample =? 0)%Z eqn:E.
  - apply Z.eqb_eq in E. unfold len in E. lia.
  - simpl. split; reflexivity.
Qed.

(** C6. The median of a non-empty sample is the middle value of the sorted
    sample when the count is odd, and the mean of the two middle values when
    the count is even. *)
Theorem median_is_middle_or_mean_of_middles (now : Time)
    (histories : gmap string LineHistory) :
  let sample := fold_left (gatherLifetime now) (List.map snd (range histories)) [] in
  let sorted := Float64s sample in
  let median := MedianLifetime (calculateStats now histories) in
  length sample <> 0%nat ->
  StronglySorted Qle sorted
  /\ Permutation sample sorted
  /\ forall k : nat,
       (length sorted = (2 * k + 1)%nat -> median = nth k sorted 0%Q)
       /\ (length sorted = (2 * k)%nat ->
           median = ((nth (k - 1) sorted 0 + nth k sorted 0) / 2)%Q).
Proof.
  intros sample sorted median Hne.
  split; [apply Float64s_sorted|]. split; [apply Float64s_perm|].
  unfold median. rewrite (proj1 (calculateStats_nonempty now histories Hne)).
  fold sample. fold sorted. unfold medianOf, index, len.
  intros k. split; intros Hlen; rewrite Hlen.
  - destruct (odd_count k) as [Hmod Hdiv]. rewrite Hmod, Hdiv. simpl.
    now rewrite Nat2Z.id.
  - destruct (even_count k) as [Hmod Hdiv]. rewrite Hmod, Hdiv. simpl.
    replace (Z.to_nat (Z.of_nat k - 1)) with (k - 1)%nat by lia.
    now rewrite Nat2Z.id.
Qed.

End Claims.

(** *** The claims on the example histories *)

Import MainGoExamples.

Lemma events_created_modified_deleted_witness :
  exists first mods dels,
    Changes braceHistory = first :: mods ++ dels
    /\ Type_ first = Created
    /\ List.Forall (fun change => Type_ change = Modified) mods
    /\ List.Forall (fun change => Type_ change = Deleted) dels
    /\ (DeletedAt braceHistory = None <-> dels = []).
Proof.
  apply (events_created_modified_deleted map_to_list "*.go" [addBraces; deleteBraces]
           (key "a.go" "}") braceHistory).
  vm_compute. reflexivity.
Defined.

(** C7 fails as stated: a deleted chunk with two closing braces appends two
    [Deleted] events to the one history of that line. *)
Lemma two_deleted_events_counterexample :
  lineHistories (visit [addBraces; deleteBraces]) !! key "a.go" "}" = Some braceHistory
  /\ List.map Type_ (Changes braceHistory) = [Created; Deleted; Deleted].
Proof. split; [vm_compute; reflexivity | reflexivity]. Qed.

Lemma median_is_middle_or_mean_of_middles_witness :
  let histories := lineHistories (visit [c2; c1; root]) in
  let sorted := Float64s (fold_left (gatherLifetime now)
                            (List.map snd (map_to_list histories)) []) in
  MedianLifetime (calculateStats anySqrt anyLog map_to_list now histories)
  = ((nth 0 sorted 0 + nth 1 sorted 0) / 2)%Q.
Proof.
  pose proof (median_is_middle_or_mean_of_middles anySqrt anyLog map_to_list now
                (lineHistories (visit [c2; c1; root]))) as H.
  cbv zeta in H. destruct H as (_ & _ & H); [vm_compute; lia|].
  apply (proj2 (H 1%nat)). vm_compute. reflexivity.
Defined.

(** C8 on the example history: two lines are tracked and the tree of HEAD
    has two lines, and the tally of [Created] is 5, because the event of the
    line [y] is counted after each of the three commits and that of the line
    [x] after two of them. *)
Lemma created_tally_counts_each_commit :
  exists stats histories,
    analyzeRepository anySqrt anyLog map_to_list (inr repo) "*.go" now now
    = Ok (stats, histories)
    /\ ChangeFrequency stats !! "Created" = Some 5
    /\ TotalLinesTracked stats = 2
    /\ size histories = 2%nat.
Proof.
  eexists _, _. split; [reflexivity|].
  split; [vm_compute; reflexivity|]. split; vm_compute; reflexivity.
Qed.

End MainGoClaims.

Module MainGoRemarks.

Import GoStrings GoTime GoSort GoGit MainGo GoFacts MainGoClaims.

(** *** What this analyzer does where the other differs *)

(** A commit without parents leaves the histories as they are: the oldest
    commit is not recorded as a snapshot. *)
Lemma root_commit_is_not_tracked
    (range : gmap string LineHistory -> list (string * LineHistory))
    (filePattern : string) (st : State) (c : Commit) :
  NumParents c = 0%nat ->
  lineHistories (processCommit range filePattern st c) = lineHistories st.
Proof.
  intros H0. unfold processCommit. rewrite H0.
  destruct (Tree c); reflexivity.
Qed.

(** An added line whose key is tracked, open or closed, changes nothing. *)
Lemma added_line_of_tracked_key (c : Commit) (path line : string)
    (h : gmap string LineHistory) (history : LineHistory) :
  h !! key path line = Some history -> addLine c path h line = h.
Proof.
  intros Hk. unfold addLine. rewrite Hk. now destruct (isBlank line).
Qed.

(** A deleted line whose key is tracked, open or closed, sets [DeletedAt] to
    the time of the commit and appends a [Deleted] event. *)
Lemma deleted_line_of_tracked_key (c : Commit) (path line : string)
    (h : gmap string LineHistory) (history : LineHistory) :
  isBlank line = false ->
  h !! key path line = Some history ->
  deleteLine c path h line !! key path line = Some (markDeleted c history).
Proof.
  intros Hnb Hk. unfold deleteLine. rewrite Hnb, Hk. apply lookup_insert_eq.
Qed.

(** A history with a lifetime of zero is in the sample: the test is
    [lifetime >= 0]. *)
Lemma zero_lifetime_is_sampled (now : Time) (acc : list Q) (history : LineHistory) :
  DeletedAt history = Some (FirstSeen history) ->
  gatherLifetime now acc history = acc ++ [days (Sub (FirstSeen history) (FirstSeen history))].
Proof.
  intros Hd. unfold gatherLifetime, endTimeOf. rewrite Hd.
  replace (Sub (FirstSeen history) (FirstSeen history)) with 0
    by (unfold Sub; rewrite Z.sub_diag; reflexivity).
  reflexivity.
Qed.

Section Statistics.

Variable math_Sqrt : Q -> Q.
Variable math_Log : Q -> Q.
Variable range : gmap string LineHistory -> list (string * LineHistory).
Hypothesis range_visits : forall m, range m ≡ₚ map_to_list m.

Local Abbreviation calculateStats := (calculateStats math_Sqrt math_Log range).
Local Abbreviation calculateSurvivalRate := (calculateSurvivalRate range).
Local Abbreviation updateFrequency := (updateFrequency range).

(** An empty sample gives the zero statistics, not an error. *)
Lemma empty_sample_gives_zero_stats (now : Time) (histories : gmap string LineHistory) :
  fold_left (gatherLifetime now) (List.map snd (range histories)) [] = [] ->
  calculateStats now histories = zeroStats.
Proof. intros H. unfold MainGo.calculateStats. rewrite H. reflexivity. Qed.

(** The half-life of this analyzer is the median scaled by [math.Log(2)]. *)
Lemma half_life_is_scaled_median (now : Time) (histories : gmap string LineHistory) :
  let sample := fold_left (gatherLifetime now) (List.map snd (range histories)) [] in
  length sample <> 0%nat ->
  HalfLife (calculateStats now histories)
  = (MedianLifetime (calculateStats now histories) * math_Log 2)%Q.
Proof.
  intros sample Hne.
  destruct (calculateStats_nonempty math_Sqrt math_Log range now histories Hne) as [-> ->].
  reflexivity.
Qed.

(** *** The survival map *)

Lemma gather_nonneg (now : Time) (l : list LineHistory) (acc : list Q) :
  List.Forall (fun x => (0 <= x)%Q) acc ->
  List.Forall (fun x => (0 <= x)%Q) (fold_left (gatherLifetime now) l acc).
Proof.
  revert acc. induction l as [|h l IH]; intros acc Hacc; simpl; [exact Hacc|].
  apply IH. unfold gatherLifetime.
  destruct (Qleb 0 _) eqn:E; [|exact Hacc].
  apply List.Forall_app. split; [exact Hacc|].
  constructor; [now apply Qleb_le | constructor].
Qed.

Lemma int_floor (t : Q) : (0 <= t)%Q -> int t = Qfloor t.
Proof.
  intros Ht. unfold int. destruct t as [n d]. simpl.
  apply Z.quot_div_nonneg; [|lia].
  unfold Qle in Ht. simpl in Ht. lia.
Qed.

Lemma int_mono (t1 t2 : Q) : (0 <= t1)%Q -> (t1 <= t2)%Q -> int t1 <= int t2.
Proof.
  intros H1 H12. rewrite !int_floor; [|eapply Qle_trans; eassumption|exact H1].
  apply Qfloor_resp_le, H12.
Qed.

Lemma aliveAt_antitone (now : Time) (t1 t2 : Q) (history : LineHistory) :
  (t1 <= t2)%Q -> aliveAt now t2 history = true -> aliveAt now t1 history = true.
Proof.
  intros Ht. unfold aliveAt. rewrite !andb_true_iff. intros [Ha Hd]. split.
  - apply Qleb_le. apply Qleb_le in Ha. eapply Qle_trans; eassumption.
  - destruct (DeletedAt history) as [d|]; [|reflexivity].
    apply Qltb_lt. apply Qltb_lt in Hd. eapply Qle_lt_trans; eassumption.
Qed.

Lemma filter_length_le {A : Type} (f g : A -> bool) (l : list A) :
  (forall x, f x = true -> g x = true) ->
  (length (List.filter f l) <= length (List.filter g l))%nat.
Proof.
  intros Hfg. induction l as [|x l IH]; simpl; [lia|].
  destruct (f x) eqn:E.
  - rewrite (Hfg x E). simpl. lia.
  - destruct (g x); simpl; lia.
Qed.

Lemma fractionAt_antitone (now : Time) (histories : gmap string LineHistory) (t1 t2 : Q) :
  (t1 <= t2)%Q ->
  (fractionAt range now histories t2 <= fractionAt range now histories t1)%Q.
Proof.
  intros Ht. unfold fractionAt, Qdiv. cbv zeta. apply Qmult_le_compat_r.
  - unfold float64, len. rewrite <- Zle_Qle. apply inj_le.
    apply filter_length_le. intros x. now apply aliveAt_antitone.
  - apply Qinv_le_0_compat. unfold float64. change 0%Q with (inject_Z 0).
    rewrite <- Zle_Qle. lia.
Qed.

Lemma survival_entries (now : Time) (histories : gmap string LineHistory)
    (l : list Q) (m : gmap Z Q) (a : Z) (v : Q) :
  fold_left (fun survival t => <[int t := fractionAt range now histories t]> survival) l m
  !! a
  = Some v ->
  m !! a = Some v
  \/ exists t, In t l /\ int t = a /\ v = fractionAt range now histories t.
Proof.
  revert m. induction l as [|t l IH]; intros m; simpl; [now left|].
  intros H. apply IH in H as [H|[t' [Hin [Hint Hv]]]].
  - destruct (decide (int t = a)) as [Heq|Hne].
    + rewrite Heq, lookup_insert_eq in H. injection H as <-.
      right. exists t. repeat split; [now left | exact Heq].
    + rewrite lookup_insert_ne in H by exact Hne. now left.
  - right. exists t'. repeat split; [now right | exact Hint | exact Hv].
Qed.

(** The survival map does not increase with the day: of two entries, the
    one at the greater day has the smaller or equal fraction. *)
Lemma survival_rate_non_increasing (now : Time) (histories : gmap string LineHistory)
    (a1 a2 : Z) (v1 v2 : Q) :
  calculateSurvivalRate now histories !! a1 = Some v1 ->
  calculateSurvivalRate now histories !! a2 = Some v2 ->
  a1 < a2 ->
  (v2 <= v1)%Q.
Proof.
  unfold MainGo.calculateSurvivalRate.
  set (timePoints := Float64s _).
  assert (Hpos : List.Forall (fun x => (0 <= x)%Q) timePoints).
  { apply Float64s_Forall, gather_nonneg. constructor. }
  rewrite List.Forall_forall in Hpos.
  intros H1 H2 Hlt.
  apply (survival_entries now histories) in H1 as [H1|[t1 [Hin1 [Hint1 ->]]]];
    [rewrite lookup_empty in H1; discriminate|].
  apply (survival_entries now histories) in H2 as [H2|[t2 [Hin2 [Hint2 ->]]]];
    [rewrite lookup_empty in H2; discriminate|].
  apply fractionAt_antitone.
  destruct (Qlt_le_dec t2 t1) as [Hgt|Hle]; [|exact Hle].
  exfalso. assert (int t2 <= int t1).
  { apply int_mono; [apply Hpos, Hin2 | apply Qlt_le_weak, Hgt]. }
  lia.
Qed.

(** *** The tally of [Created] events *)

Lemma tallyChange_created (freq : gmap string Z) (change : ChangeEvent) :
  createdCount (tallyChange freq change)
  = createdCount freq + (match Type_ change with Created => 1 | _ => 0 end).
Proof.
  unfold tallyChange, bump, createdCount. destruct (Type_ change).
  - rewrite lookup_insert_eq. reflexivity.
  - rewrite lookup_insert_ne by discriminate. lia.
  - rewrite lookup_insert_ne by discriminate. lia.
Qed.

Lemma tally_not_created (freq : gmap string Z) (l : list ChangeEvent) :
  List.Forall (fun change => Type_ change <> Created) l ->
  createdCount (fold_left tallyChange l freq) = createdCount freq.
Proof.
  revert freq. induction l as [|e l IH]; intros freq Hall; simpl; [reflexivity|].
  apply List.Forall_cons_iff in Hall as [He Hl].
  rewrite IH by exact Hl. rewrite tallyChange_created.
  destruct (Type_ e); [congruence | lia | lia].
Qed.

(** A history with its events in order adds one to the tally of [Created]. *)
Lemma tallyHistory_created (freq : gmap string Z) (history : LineHistory) :
  eventsInOrder history ->
  createdCount (tallyHistory freq history) = createdCount freq + 1.
Proof.
  intros (first & mods & dels & Hc & Hf & Hm & Hd & _).
  unfold tallyHistory. rewrite Hc. simpl.
  rewrite tally_not_created.
  - rewrite tallyChange_created, Hf. reflexivity.
  - apply List.Forall_app. split.
    + eapply List.Forall_impl; [|exact Hm]. simpl. intros e He. congruence.
    + eapply List.Forall_impl; [|exact Hd]. simpl. intros e He. congruence.
Qed.

Lemma tally_histories_created (freq : gmap string Z) (l : list LineHistory) :
  List.Forall eventsInOrder l ->
  createdCount (fold_left tallyHistory l freq) = createdCount freq + Z.of_nat (length l).
Proof.
  revert freq. induction l as [|h l IH]; intros freq Hall; simpl; [lia|].
  apply List.Forall_cons_iff in Hall as [Hh Hl].
  rewrite IH by exact Hl. rewrite tallyHistory_created by exact Hh. lia.
Qed.

(** Every commit that reaches the tally adds the number of histories tracked
    so far to the count of [Created]: an event is counted once for each
    commit visited since. *)
Lemma created_tally_grows_by_size (st : State) :
  allInOrder (lineHistories st) ->
  createdCount (changeFrequency (updateFrequency st))
  = createdCount (changeFrequency st) + Z.of_nat (size (lineHistories st)).
Proof.
  intros Hall. unfold MainGo.updateFrequency. simpl.
  rewrite tally_histories_created.
  - rewrite length_map, (Permutation_length (range_visits _)), length_map_to_list.
    reflexivity.
  - apply List.Forall_forall. intros h Hin.
    apply in_map_iff in Hin as [[k h'] [Heq Hin]]. simpl in Heq. subst h'.
    apply (Hall k). apply elem_of_map_to_list, list_elem_of_In.
    eapply Permutation_in; [apply range_visits | exact Hin].
Qed.

End Statistics.

End MainGoRemarks.

(** ** More about the replay of the analyzer with the survival curve *)

Module TrackerReplayMore.

Import GoStrings GoTime GoSort GoGit Tracker TrackerNotions GoFacts TrackerReplay.

(** Two loops over the same list that keep a relation between their
    states. *)
Lemma fold_left_rel {S1 S2 X : Type} (f : S1 -> X -> S1) (g : S2 -> X -> S2)
    (R : S1 -> S2 -> Prop) (l : list X) :
  (forall s1 s2 x, R s1 s2 -> R (f s1 x) (g s2 x)) ->
  forall s1 s2, R s1 s2 -> R (fold_left f l s1) (fold_left g l s2).
Proof.
  intros Hstep. induction l as [|x l IH]; simpl; intros s1 s2 H; [exact H|].
  apply IH, Hstep, H.
Qed.

Lemma snapshotLine_sameRecords (c : Commit) (name : string) (s1 s2 : State) (line : string) :
  sameRecords s1 s2 ->
  sameRecords (snapshotLine true c name s1 line) (snapshotLine false c name s2 line).
Proof.
  unfold sameRecords, snapshotLine. intros H. destruct (isBlank line); simpl; congruence.
Qed.

Lemma addLine_sameRecords (c : Commit) (path : string) (s1 s2 : State) (line : string) :
  sameRecords s1 s2 ->
  sameRecords (addLine true c path s1 line) (addLine false c path s2 line).
Proof.
  unfold sameRecords, addLine. intros H. destruct (isBlank line); [exact H|].
  rewrite H. destruct (codeLines s2 !! key path line); simpl; congruence.
Qed.

Lemma deleteLine_sameRecords (c : Commit) (path : string) (s1 s2 : State) (line : string) :
  sameRecords s1 s2 ->
  sameRecords (deleteLine true c path s1 line) (deleteLine false c path s2 line).
Proof.
  unfold sameRecords, deleteLine. intros H. destruct (isBlank line); [exact H|].
  rewrite H. destruct (codeLines s2 !! key path line); simpl; congruence.
Qed.

Lemma applyChunk_sameRecords (c : Commit) (path : string) (s1 s2 : State) (chunk : Chunk) :
  sameRecords s1 s2 ->
  sameRecords (applyChunk true c path s1 chunk) (applyChunk false c path s2 chunk).
Proof.
  intros H. unfold applyChunk. destruct (GoGit.Type_ chunk); [exact H| |].
  - apply fold_left_rel; [|exact H]. intros. now apply addLine_sameRecords.
  - apply fold_left_rel; [|exact H]. intros. now apply deleteLine_sameRecords.
Qed.

(** *** Keys and blank lines *)

Lemma setLastSeen_keyed (t : Time) (k : string) (cl : CodeLine) :
  keyed k cl -> keyed k (setLastSeen t cl).
Proof. intros H. exact H. Qed.

Lemma snapshotLine_keyed (v : bool) (c : Commit) (name : string) (st : State) (line : string) :
  allKeyed (codeLines st) -> allKeyed (codeLines (snapshotLine v c name st line)).
Proof.
  intros H. unfold snapshotLine. destruct (isBlank line) eqn:E; [exact H|]. simpl.
  apply map_Forall_insert_2; [|exact H]. split; [reflexivity | exact E].
Qed.

Lemma addLine_keyed (v : bool) (c : Commit) (path : string) (st : State) (line : string) :
  allKeyed (codeLines st) -> allKeyed (codeLines (addLine v c path st line)).
Proof.
  intros H. unfold addLine. destruct (isBlank line) eqn:E; [exact H|].
  destruct (codeLines st !! key path line) as [cl|] eqn:Ek; simpl.
  - apply map_Forall_insert_2; [|exact H]. exact (H _ _ Ek).
  - apply map_Forall_insert_2; [|exact H]. split; [reflexivity | exact E].
Qed.

Lemma deleteLine_keyed (v : bool) (c : Commit) (path : string) (st : State) (line : string) :
  allKeyed (codeLines st) -> allKeyed (codeLines (deleteLine v c path st line)).
Proof.
  intros H. unfold deleteLine. destruct (isBlank line) eqn:E; [exact H|].
  destruct (codeLines st !! key path line) as [cl|] eqn:Ek; simpl; [|exact H].
  apply map_Forall_insert_2; [|exact H]. exact (H _ _ Ek).
Qed.

(** *** Times *)

Lemma timely_later (t t' : Time) (cl : CodeLine) :
  t <= t' -> timely t cl -> timely t' cl.
Proof.
  intros Ht (H1 & H2 & H3). repeat split; try lia.
  - now apply H3.
  - destruct (H3 d H). lia.
Qed.

Lemma snapshotLine_timely (v : bool) (c : Commit) (name : string) (st : State) (line : string) :
  allTimely (When c) (codeLines st) ->
  allTimely (When c) (codeLines (snapshotLine v c name st line)).
Proof.
  intros H. unfold snapshotLine. destruct (isBlank line); [exact H|]. simpl.
  apply map_Forall_insert_2; [|exact H].
  unfold timely. simpl. repeat split; try lia; discriminate.
Qed.

Lemma addLine_timely (v : bool) (c : Commit) (path : string) (st : State) (line : string) :
  allTimely (When c) (codeLines st) ->
  allTimely (When c) (codeLines (addLine v c path st line)).
Proof.
  intros H. unfold addLine. destruct (isBlank line); [exact H|].
  destruct (codeLines st !! key path line) as [cl|] eqn:Ek; simpl.
  - apply map_Forall_insert_2; [|exact H].
    destruct (H _ _ Ek) as (H1 & H2 & H3). unfold timely. simpl.
    repeat split; try lia; now apply H3.
  - apply map_Forall_insert_2; [|exact H].
    unfold timely. simpl. repeat split; try lia; discriminate.
Qed.

Lemma deleteLine_timely (v : bool) (c : Commit) (path : string) (st : State) (line : string) :
  allTimely (When c) (codeLines st) ->
  allTimely (When c) (codeLines (deleteLine v c path st line)).
Proof.
  intros H. unfold deleteLine. destruct (isBlank line); [exact H|].
  destruct (codeLines st !! key path line) as [cl|] eqn:Ek; simpl; [|exact H].
  apply map_Forall_insert_2; [|exact H].
  destruct (H _ _ Ek) as (H1 & H2 & H3). unfold timely. simpl.
  repeat split; try lia; injection H0 as <-; lia.
Qed.

Section Patterns.

Variable filepath_Base : string -> string.
Variable filepath_Match : string -> string -> option bool.

Local Abbreviation matchesPattern := (matchesPattern filepath_Base filepath_Match).
Local Abbreviation laterCommit := (laterCommit filepath_Base filepath_Match).
Local Abbreviation firstCommit := (firstCommit filepath_Base filepath_Match).
Local Abbreviation replay := (replay filepath_Base filepath_Match).

Lemma firstCommit_sameRecords (pattern : string) (s1 s2 : State) (c : Commit) :
  sameRecords s1 s2 ->
  sameRecords (firstCommit pattern true s1 c) (firstCommit pattern false s2 c).
Proof.
  intros H. unfold Tracker.firstCommit. destruct (Tree c) as [files|]; [|exact H].
  apply fold_left_rel; [|exact H]. intros a b f Hab. unfold Tracker.snapshotFile.
  destruct (negb (matchesPattern (Name f) pattern)); [exact Hab|].
  destruct (Contents f) as [content|]; [|exact Hab].
  apply fold_left_rel; [|exact Hab]. intros. now apply snapshotLine_sameRecords.
Qed.

Lemma laterCommit_sameRecords (pattern : string) (s1 s2 : State) (c : Commit) :
  sameRecords s1 s2 ->
  sameRecords (laterCommit pattern true s1 c) (laterCommit pattern false s2 c).
Proof.
  intros H. unfold Tracker.laterCommit. destruct (Patch c) as [patches|]; [|exact H].
  apply fold_left_rel; [|exact H]. intros a b fp Hab. unfold Tracker.applyFilePatch.
  destruct (patchPath fp) as [path|]; [|exact Hab].
  destruct (negb (matchesPattern path pattern)); [exact Hab|].
  apply fold_left_rel; [|exact Hab]. intros. now apply applyChunk_sameRecords.
Qed.

(** The records do not depend on the validation mode. *)
Lemma replay_sameRecords (pattern : string) (commits : list Commit) :
  codeLines (replay pattern true commits) = codeLines (replay pattern false commits).
Proof.
  unfold Tracker.replay. destruct commits as [|c0 rest]; [reflexivity|].
  apply (fold_left_rel _ _ sameRecords).
  - intros. now apply laterCommit_sameRecords.
  - now apply firstCommit_sameRecords.
Qed.

Lemma firstCommit_keyed (pattern : string) (v : bool) (st : State) (c : Commit) :
  allKeyed (codeLines st) -> allKeyed (codeLines (firstCommit pattern v st c)).
Proof.
  intros H. unfold Tracker.firstCommit. destruct (Tree c) as [files|]; [|exact H].
  apply (fold_left_preserves _ (fun s => allKeyed (codeLines s))); [|exact H].
  intros s f Hs. unfold Tracker.snapshotFile.
  destruct (negb (matchesPattern (Name f) pattern)); [exact Hs|].
  destruct (Contents f) as [content|]; [|exact Hs].
  apply (fold_left_preserves _ (fun s => allKeyed (codeLines s))); [|exact Hs].
  intros s' x. apply snapshotLine_keyed.
Qed.

Lemma laterCommit_keyed (pattern : string) (v : bool) (st : State) (c : Commit) :
  allKeyed (codeLines st) -> allKeyed (codeLines (laterCommit pattern v st c)).
Proof.
  intros H. unfold Tracker.laterCommit. destruct (Patch c) as [patches|]; [|exact H].
  apply (fold_left_preserves _ (fun s => allKeyed (codeLines s))); [|exact H].
  intros s fp Hs. unfold Tracker.applyFilePatch.
  destruct (patchPath fp) as [path|]; [|exact Hs].
  destruct (negb (matchesPattern path pattern)); [exact Hs|].
  apply (fold_left_preserves _ (fun s => allKeyed (codeLines s))); [|exact Hs].
  intros s' chunk Hs'. unfold applyChunk. destruct (GoGit.Type_ chunk); [exact Hs'| |].
  - apply (fold_left_preserves _ (fun s => allKeyed (codeLines s))); [|exact Hs'].
    intros s'' x. apply addLine_keyed.
  - apply (fold_left_preserves _ (fun s => allKeyed (codeLines s))); [|exact Hs'].
    intros s'' x. apply deleteLine_keyed.
Qed.

Lemma firstCommit_timely (pattern : string) (v : bool) (st : State) (c : Commit) :
  allTimely (When c) (codeLines st) ->
  allTimely (When c) (codeLines (firstCommit pattern v st c)).
Proof.
  intros H. unfold Tracker.firstCommit. destruct (Tree c) as [files|]; [|exact H].
  apply (fold_left_preserves _ (fun s => allTimely (When c) (codeLines s))); [|exact H].
  intros s f Hs. unfold Tracker.snapshotFile.
  destruct (negb (matchesPattern (Name f) pattern)); [exact Hs|].
  destruct (Contents f) as [content|]; [|exact Hs].
  apply (fold_left_preserves _ (fun s => allTimely (When c) (codeLines s))); [|exact Hs].
  intros s' x. apply snapshotLine_timely.
Qed.

Lemma laterCommit_timely (pattern : string) (v : bool) (st : State) (c : Commit) :
  allTimely (When c) (codeLines st) ->
  allTimely (When c) (codeLines (laterCommit pattern v st c)).
Proof.
  intros H. unfold Tracker.laterCommit. destruct (Patch c) as [patches|]; [|exact H].
  apply (fold_left_preserves _ (fun s => allTimely (When c) (codeLines s))); [|exact H].
  intros s fp Hs. unfold Tracker.applyFilePatch.
  destruct (patchPath fp) as [path|]; [|exact Hs].
  destruct (negb (matchesPattern path pattern)); [exact Hs|].
  apply (fold_left_preserves _ (fun s => allTimely (When c) (codeLines s))); [|exact Hs].
  intros s' chunk Hs'. unfold applyChunk. destruct (GoGit.Type_ chunk); [exact Hs'| |].
  - apply (fold_left_preserves _ (fun s => allTimely (When c) (codeLines s))); [|exact Hs'].
    intros s'' x. apply addLine_timely.
  - apply (fold_left_preserves _ (fun s => allTimely (When c) (codeLines s))); [|exact Hs'].
    intros s'' x. apply deleteLine_timely.
Qed.

Lemma laterCommits_timely (pattern : string) (v : bool) (rest : list Commit)
    (t : Time) (st : State) :
  allTimely t (codeLines st) ->
  StronglySorted Z.le (t :: List.map When rest) ->
  exists t', allTimely t' (codeLines (fold_left (laterCommit pattern v) rest st)).
Proof.
  revert t st. induction rest as [|c rest IH]; intros t st H Hs; simpl; [eauto|].
  apply StronglySorted_inv in Hs as [Hs Hall]. simpl in Hs, Hall.
  apply (IH (When c)); [|exact Hs].
  apply laterCommit_timely.
  apply List.Forall_inv in Hall.
  intros k cl Hk. eapply timely_later; [exact Hall | exact (H k cl Hk)].
Qed.

End Patterns.

End TrackerReplayMore.

(** ** What the replay keeps *)

Module TrackerExtras.

Import GoStrings GoTime GoSort GoGit Tracker TrackerNotions GoFacts.
Import TrackerReplay TrackerReplayMore.

Section Replay.

Variable filepath_Base : string -> string.
Variable filepath_Match : string -> string -> option bool.
Variable rangeLines : gmap string CodeLine -> list (string * CodeLine).
Variable rangeSurvivors : gmap string CodeLine -> list (string * CodeLine).

Local Abbreviation laterCommit := (laterCommit filepath_Base filepath_Match).
Local Abbreviation firstCommit := (firstCommit filepath_Base filepath_Match).
Local Abbreviation replay := (replay filepath_Base filepath_Match).
Local Abbreviation statistics := (statistics rangeLines rangeSurvivors).
Local Abbreviation analyzeRepository :=
  (analyzeRepository filepath_Base filepath_Match rangeLines rangeSurvivors).

Lemma statistics_sameOutcome (now : Time) (commits : list Commit) (s1 s2 : State) :
  sameRecords s1 s2 ->
  sameOutcome (statistics true now commits s1) (statistics false now commits s2).
Proof.
  unfold sameRecords, Tracker.statistics. intros ->. cbv zeta.
  destruct (lifetimes _) as [|x l]; simpl; [reflexivity|].
  destruct (oldestLine _) as [oldest|]; [|reflexivity].
  destruct (newestLine _) as [newest|]; [|reflexivity].
  destruct commits as [|first rest]; [reflexivity|].
  destruct (last (first :: rest)) as [lastc|]; reflexivity.
Qed.

(** X1. The validation mode changes neither the records nor the outcome of
    the analysis: the two modes end with the same statistics, or with the
    same error or panic. *)
Theorem validation_mode_keeps_statistics (repo : string + Repository)
    (filePattern : string) (now : Time) (commits : list Commit) :
  codeLines (replay filePattern true commits) = codeLines (replay filePattern false commits)
  /\ sameOutcome (analyzeRepository repo filePattern true now)
                 (analyzeRepository repo filePattern false now).
Proof.
  split; [apply replay_sameRecords|].
  unfold Tracker.analyzeRepository. destruct repo as [err|r]; [reflexivity|].
  destruct (firstSome _ _) as [mainRef|]; [|reflexivity].
  destruct (Log r mainRef) as [err|err|newestFirst]; [reflexivity|reflexivity|].
  apply statistics_sameOutcome. apply replay_sameRecords.
Qed.

Lemma replay_keyed (filePattern : string) (validateMode : bool) (commits : list Commit) :
  allKeyed (codeLines (replay filePattern validateMode commits)).
Proof.
  unfold Tracker.replay. destruct commits as [|c0 rest]; [apply map_Forall_empty|].
  apply (fold_left_preserves _ (fun s => allKeyed (codeLines s))).
  - intros s c. apply laterCommit_keyed.
  - apply firstCommit_keyed, map_Forall_empty.
Qed.

(** X2. Every record of a replay is filed under the key made of its own file
    and content, and its content is not blank: a blank line is never
    tracked. *)
Theorem only_non_blank_lines_are_tracked (filePattern : string) (validateMode : bool)
    (commits : list Commit) (k : string) (cl : CodeLine) :
  codeLines (replay filePattern validateMode commits) !! k = Some cl ->
  k = key (File cl) (Content cl) /\ isBlank (Content cl) = false.
Proof. intros Hk. exact (replay_keyed filePattern validateMode commits k cl Hk). Qed.

Lemma origin_kept (filePattern : string) (validateMode : bool) (rest : list Commit)
    (st : State) (k : string) (cl : CodeLine) :
  codeLines st !! k = Some cl ->
  exists cl',
    codeLines (fold_left (laterCommit filePattern validateMode) rest st) !! k = Some cl'
    /\ Content cl' = Content cl /\ File cl' = File cl
    /\ CreatedAt cl' = CreatedAt cl /\ CommitHash cl' = CommitHash cl.
Proof.
  intros Hk.
  assert (H : holds k (fun x => Content x = Content cl /\ File x = File cl
                                /\ CreatedAt x = CreatedAt cl
                                /\ CommitHash x = CommitHash cl)
                (fold_left (laterCommit filePattern validateMode) rest st)).
  { apply laterCommits_hold.
    - intros t x Hx. split; exact Hx.
    - exists cl. split; [exact Hk|]. repeat split. }
  exact H.
Qed.

(** X3. Tracking only grows: a record that exists after a prefix of the
    history exists after every continuation, with the same content, file,
    creation time and creating commit, and the number of records does not
    go down. *)
Theorem records_are_never_dropped (filePattern : string) (validateMode : bool)
    (c0 : Commit) (pre rest : list Commit) :
  let before := codeLines (replay filePattern validateMode (c0 :: pre)) in
  let after := codeLines (replay filePattern validateMode (c0 :: pre ++ rest)) in
  (forall k cl, before !! k = Some cl ->
     exists cl', after !! k = Some cl'
       /\ Content cl' = Content cl /\ File cl' = File cl
       /\ CreatedAt cl' = CreatedAt cl /\ CommitHash cl' = CommitHash cl)
  /\ (size before <= size after)%nat.
Proof.
  intros before after.
  assert (Hkeep : forall k cl, before !! k = Some cl ->
            exists cl', after !! k = Some cl'
              /\ Content cl' = Content cl /\ File cl' = File cl
              /\ CreatedAt cl' = CreatedAt cl /\ CommitHash cl' = CommitHash cl).
  { intros k cl Hk. unfold after, before, Tracker.replay in *.
    rewrite fold_left_app. now apply origin_kept. }
  split; [exact Hkeep|].
  rewrite <- !size_dom. apply subseteq_size.
  intros k Hk. apply elem_of_dom in Hk as [cl Hk]. apply elem_of_dom.
  destruct (Hkeep k cl Hk) as [cl' [Hk' _]]. eauto.
Qed.

(** X4. When the commits are replayed in the order of their times, every
    record is created no later than it is last seen, and no later than it is
    deleted. *)
Theorem chronological_history_orders_the_times (filePattern : string)
    (validateMode : bool) (commits : list Commit) (k : string) (cl : CodeLine) :
  StronglySorted Z.le (List.map When commits) ->
  codeLines (replay filePattern validateMode commits) !! k = Some cl ->
  CreatedAt cl <= LastSeen cl
  /\ forall d, DeletedAt cl = Some d -> CreatedAt cl <= d.
Proof.
  intros Hs Hk. unfold Tracker.replay in Hk.
  destruct commits as [|c0 rest]; [simpl in Hk; rewrite lookup_empty in Hk; discriminate|].
  destruct (laterCommits_timely filepath_Base filepath_Match filePattern validateMode
              rest (When c0) (firstCommit filePattern validateMode emptyState c0))
    as [t Ht].
  - apply firstCommit_timely, map_Forall_empty.
  - exact Hs.
  - destruct (Ht k cl Hk) as (H1 & _ & H3). split; [exact H1|].
    intros d Hd. now apply H3.
Qed.

End Replay.

Import TrackerExamples.

Lemma only_non_blank_lines_are_tracked_witness :
  key "a.go" "z" = key (File (setDeletedAt (When c4) (setLastSeen (When c3) closedZ)))
                       (Content (setDeletedAt (When c4) (setLastSeen (When c3) closedZ)))
  /\ isBlank (Content (setDeletedAt (When c4) (setLastSeen (When c3) closedZ))) = false.
Proof.
  apply (only_non_blank_lines_are_tracked unusedBase unusedMatch "*" true
           [c0; c1; c2; c3; c4] (key "a.go" "z")).
  vm_compute. reflexivity.
Defined.

Lemma chronological_history_orders_the_times_witness :
  CreatedAt (setLastSeen (When c3) closedZ) <= LastSeen (setLastSeen (When c3) closedZ)
  /\ forall d, DeletedAt (setLastSeen (When c3) closedZ) = Some d ->
               CreatedAt (setLastSeen (When c3) closedZ) <= d.
Proof.
  apply (chronological_history_orders_the_times unusedBase unusedMatch "*" true
           [c0; c1; c2; c3] (key "a.go" "z")).
  - repeat (constructor; [|repeat (constructor; try (vm_compute; discriminate))]).
    constructor.
  - vm_compute. reflexivity.
Defined.

End TrackerExtras.

(** ** More about the statistics of the analyzer with the survival curve *)

Module TrackerStatsMore.

Import GoStrings GoTime GoSort GoGit Tracker TrackerNotions GoFacts.
Import TrackerStats TrackerHalfLife.

Lemma Qltb_ge (x y : Q) : Qltb x y = false <-> (y <= x)%Q.
Proof.
  unfold Qltb. rewrite negb_false_iff. apply Qle_bool_iff.
Qed.

Lemma sorted_nth_le (l : list Q) (i j : nat) :
  StronglySorted Qle l -> (i <= j)%nat -> (j < length l)%nat ->
  (nth i l 0 <= nth j l 0)%Q.
Proof.
  intros Hs. revert i j. induction Hs as [|x l Hs IH Hall]; intros i j Hij Hj.
  - simpl in Hj. lia.
  - destruct i as [|i], j as [|j]; simpl in *.
    + apply Qle_refl.
    + rewrite List.Forall_forall in Hall. apply Hall. apply nth_In. lia.
    + lia.
    + apply IH; lia.
Qed.

(** The last element of a sorted list is its greatest. *)
Lemma maxAgeOf_greatest (sorted : list Q) (x : Q) :
  StronglySorted Qle sorted -> In x sorted -> (x <= maxAgeOf sorted)%Q.
Proof.
  intros Hs Hin. apply (In_nth _ _ 0%Q) in Hin as [i [Hi <-]].
  unfold maxAgeOf. apply sorted_nth_le; [exact Hs | lia | lia].
Qed.

Lemma survived_le_length (l : list Q) (t : Q) : (survived l t <= length l)%nat.
Proof.
  unfold survived. induction l as [|x l IH]; simpl; [lia|].
  destruct (Qleb t x); simpl; lia.
Qed.

Lemma survived_pos (l : list Q) (t x : Q) :
  In x l -> (t <= x)%Q -> (1 <= survived l t)%nat.
Proof.
  unfold survived. induction l as [|y l IH]; intros Hin Hle; [destruct Hin|].
  simpl. destruct Hin as [->|Hin].
  - apply Qleb_le in Hle. rewrite Hle. simpl. lia.
  - destruct (Qleb t y); simpl; [lia | now apply IH].
Qed.

Lemma timePoint_below (maxAge : Q) (i : nat) :
  (0 <= maxAge)%Q -> (i < timePoints)%nat -> (timePoint maxAge i <= maxAge)%Q.
Proof.
  intros Hm Hi. unfold timePoint. apply Qle_shift_div_r.
  - apply float64_pos. unfold timePoints. lia.
  - rewrite !(Qmult_comm maxAge). apply Qmult_le_compat_r; [|exact Hm].
    apply float64_le. lia.
Qed.

(** The fraction at a sampled age of a sample of positive lifetimes. *)
Lemma fraction_bounds (l : list Q) (i : nat) :
  l <> [] -> List.Forall (fun x => (0 < x)%Q) l -> (i < timePoints)%nat ->
  (0 < survivalAt l (timePoint (maxAgeOf l) i))%Q
  /\ (survivalAt l (timePoint (maxAgeOf l) i) <= 1)%Q.
Proof.
  intros Hne Hpos Hi.
  assert (Hlen : (0 < float64 (length l))%Q).
  { apply float64_pos. destruct l; [congruence | simpl; lia]. }
  unfold survivalAt. split.
  - apply Qlt_shift_div_l; [exact Hlen|]. rewrite Qmult_0_l.
    apply float64_pos.
    apply (survived_pos l _ (maxAgeOf l)).
    + now apply maxAgeOf_In.
    + apply timePoint_below; [|exact Hi].
      apply Qlt_le_weak. now apply maxAgeOf_pos.
  - apply Qle_shift_div_r; [exact Hlen|]. rewrite Qmult_1_l.
    apply float64_le, survived_le_length.
Qed.

Lemma survivalCurve_length (l : list Q) (maxAge : Q) :
  length (survivalCurve l maxAge) = timePoints.
Proof. unfold survivalCurve. now rewrite length_map, length_seq. Qed.

(** *** The counters *)

Lemma tallyLine_survivingLines (now : Time) (a : Tally) (line : CodeLine) :
  survivingLines (tallyLine now a line)
  = (survivingLines a + (if isNil (DeletedAt line) then 1 else 0))%nat.
Proof.
  unfold tallyLine, tallySurviving, tallyDeleted.
  destruct (DeletedAt line) as [d|]; simpl.
  - destruct (Qltb 0 (days (Sub d (CreatedAt line)))); simpl; lia.
  - destruct (Qltb 0 (days (Sub now (CreatedAt line)))); simpl; lia.
Qed.

Lemma fold_survivingLines (now : Time) (lines : list CodeLine) (a : Tally) :
  survivingLines (fold_left (tallyLine now) lines a)
  = (survivingLines a
     + length (List.filter (fun line => isNil (DeletedAt line)) lines))%nat.
Proof.
  revert a. induction lines as [|line lines IH]; intros a; simpl; [lia|].
  rewrite IH, tallyLine_survivingLines.
  destruct (isNil (DeletedAt line)); simpl; lia.
Qed.

Lemma filter_split_length {A : Type} (f : A -> bool) (l : list A) :
  (length (List.filter f l) + length (List.filter (fun x => negb (f x)) l))%nat = length l.
Proof.
  induction l as [|x l IH]; simpl; [reflexivity|].
  destruct (f x); simpl; lia.
Qed.

Lemma filter_length_perm {A : Type} (f : A -> bool) (l l' : list A) :
  Permutation l l' -> length (List.filter f l) = length (List.filter f l').
Proof.
  induction 1 as [|x l l' _ IH|x y l|l l' l'' _ IH1 _ IH2]; simpl.
  - reflexivity.
  - destruct (f x); simpl; congruence.
  - destruct (f x), (f y); reflexivity.
  - congruence.
Qed.

Lemma filter_map_length {A B : Type} (f : B -> bool) (g : A -> B) (l : list A) :
  length (List.filter f (List.map g l)) = length (List.filter (fun x => f (g x)) l).
Proof.
  induction l as [|x l IH]; simpl; [reflexivity|].
  destruct (f (g x)); simpl; congruence.
Qed.

(** *** The oldest and the newest surviving line *)

Lemma tallyLine_extremes (now : Time) (seen : list CodeLine) (a : Tally) (line : CodeLine) :
  extremes now seen a -> extremes now (seen ++ [line]) (tallyLine now a line).
Proof.
  intros (Hall & Hold & Hnew).
  assert (Hin : forall x, In x seen -> In x (seen ++ [line])).
  { intros x Hx. apply in_or_app. now left. }
  assert (Hlast : In line (seen ++ [line])).
  { apply in_or_app. right. now left. }
  unfold tallyLine, tallySurviving, tallyDeleted.
  destruct (DeletedAt line) as [d|] eqn:Ed.
  - (* a deleted line leaves the pointers alone *)
    assert (Hns : ~ survivor now line) by (unfold survivor; rewrite Ed; intros [H _]; discriminate).
    destruct (Qltb 0 (days (Sub d (CreatedAt line)))); simpl;
      (split; [|split]).
    all: try (intros s Hs Hsv; apply in_app_or in Hs as [Hs|[<-|[]]];
              [now apply Hall | contradiction]).
    all: try (intros o Ho; destruct (Hold o Ho) as (H1 & H2 & H3); auto).
    all: try (intros n Hn; destruct (Hnew n Hn) as (H1 & H2 & H3); auto).
  - set (age := days (Sub now (CreatedAt line))).
    assert (Hage : lifetimeDays now line = age).
    { unfold lifetimeDays. rewrite Ed. reflexivity. }
    destruct (Qltb 0 age) eqn:Epos; simpl.
    + assert (Hsv : survivor now line).
      { split; [exact Ed | now rewrite Hage]. }
      split; [|split].
      * intros s Hs Hss. apply in_app_or in Hs as [Hs|[<-|[]]].
        -- destruct (Hall s Hs Hss) as (Ho & Hn & Hlo & Hhi).
           destruct (oldestLine a) as [o|] eqn:Eo; [|congruence].
           destruct (newestLine a) as [n|] eqn:En; [|congruence].
           simpl. split; [|split; [|split]].
           ++ now destruct (Qltb (oldestAge a) age).
           ++ now destruct (Qltb age (newestAge a)).
           ++ destruct (Qltb age (newestAge a)) eqn:E; [|exact Hlo].
              apply Qltb_lt in E. apply Qlt_le_weak.
              eapply Qlt_le_trans; eassumption.
           ++ destruct (Qltb (oldestAge a) age) eqn:E; [|exact Hhi].
              apply Qltb_lt in E. apply Qlt_le_weak.
              eapply Qle_lt_trans; eassumption.
        -- rewrite Hage. split; [|split; [|split]].
           ++ destruct (isNil (oldestLine a) || Qltb (oldestAge a) age) eqn:E;
                [discriminate|].
              apply orb_false_iff in E as [E _]. now destruct (oldestLine a).
           ++ destruct (isNil (newestLine a) || Qltb age (newestAge a)) eqn:E;
                [discriminate|].
              apply orb_false_iff in E as [E _]. now destruct (newestLine a).
           ++ destruct (isNil (newestLine a) || Qltb age (newestAge a)) eqn:E;
                [apply Qle_refl|].
              apply orb_false_iff in E as [_ E]. now apply Qltb_ge.
           ++ destruct (isNil (oldestLine a) || Qltb (oldestAge a) age) eqn:E;
                [apply Qle_refl|].
              apply orb_false_iff in E as [_ E]. now apply Qltb_ge.
      * intros o Ho.
        destruct (isNil (oldestLine a) || Qltb (oldestAge a) age) eqn:E.
        -- injection Ho as <-. split; [exact Hlast|]. split; [exact Hsv | symmetry; exact Hage].
        -- destruct (Hold o Ho) as (H1 & H2 & H3). auto.
      * intros n Hn.
        destruct (isNil (newestLine a) || Qltb age (newestAge a)) eqn:E.
        -- injection Hn as <-. split; [exact Hlast|]. split; [exact Hsv | symmetry; exact Hage].
        -- destruct (Hnew n Hn) as (H1 & H2 & H3). auto.
    + assert (Hns : ~ survivor now line).
      { intros [_ H]. rewrite Hage in H. congruence. }
      split; [|split].
      * intros s Hs Hss. apply in_app_or in Hs as [Hs|[<-|[]]];
          [now apply Hall | contradiction].
      * intros o Ho. destruct (Hold o Ho) as (H1 & H2 & H3). auto.
      * intros n Hn. destruct (Hnew n Hn) as (H1 & H2 & H3). auto.
Qed.

Lemma fold_extremes (now : Time) (lines seen : list CodeLine) (a : Tally) :
  extremes now seen a ->
  extremes now (seen ++ lines) (fold_left (tallyLine now) lines a).
Proof.
  revert seen a. induction lines as [|line lines IH]; intros seen a H; simpl.
  - now rewrite app_nil_r.
  - replace (seen ++ line :: lines) with ((seen ++ [line]) ++ lines)
      by (now rewrite <- app_assoc).
    apply IH, tallyLine_extremes, H.
Qed.

Lemma tally_extremes (now : Time) (lines : list CodeLine) :
  extremes now lines (tally now lines).
Proof.
  apply (fold_extremes now lines [] emptyTally).
  split; [|split]; simpl; intros; [contradiction | discriminate | discriminate].
Qed.

End TrackerStatsMore.

(** ** What the report of the analyzer with the survival curve holds *)

Module TrackerStatsExtras.

Import GoStrings GoTime GoSort GoGit Tracker TrackerNotions GoFacts.
Import TrackerStats TrackerHalfLife TrackerOutcome TrackerStatsMore.

Section Report.

Variable filepath_Base : string -> string.
Variable filepath_Match : string -> string -> option bool.
Variable rangeLines : gmap string CodeLine -> list (string * CodeLine).
Variable rangeSurvivors : gmap string CodeLine -> list (string * CodeLine).

(** A loop over the map visits every entry once. *)
Hypothesis rangeLines_visits : forall m, rangeLines m ≡ₚ map_to_list m.

Local Abbreviation replay := (replay filepath_Base filepath_Match).
Local Abbreviation statistics := (statistics rangeLines rangeSurvivors).
Local Abbreviation analyzeRepository :=
  (analyzeRepository filepath_Base filepath_Match rangeLines rangeSurvivors).

Lemma visited_is_stored (m : gmap string CodeLine) (line : CodeLine) :
  In line (List.map snd (rangeLines m)) -> exists k, m !! k = Some line.
Proof.
  intros H. apply in_map_iff in H as [[k cl] [Heq Hin]]. simpl in Heq. subst cl.
  exists k. apply elem_of_map_to_list, list_elem_of_In.
  eapply Permutation_in; [apply rangeLines_visits | exact Hin].
Qed.

Lemma stored_is_visited (m : gmap string CodeLine) (k : string) (line : CodeLine) :
  m !! k = Some line -> In line (List.map snd (rangeLines m)).
Proof.
  intros H. apply in_map_iff. exists (k, line). split; [reflexivity|].
  eapply Permutation_in; [symmetry; apply rangeLines_visits|].
  apply list_elem_of_In, elem_of_map_to_list, H.
Qed.

Lemma survivor_times (now : Time) (line : CodeLine) :
  survivor now line <-> DeletedAt line = None /\ CreatedAt line < now.
Proof.
  unfold survivor. rewrite lifetimeDays_pos. split; intros [Hd H]; split; try exact Hd.
  - now rewrite Hd in H.
  - now rewrite Hd.
Qed.

(** The remaining fields of a report that [statistics] returns. *)
Lemma statistics_more_fields (validateMode : bool) (now : Time) (commits : list Commit)
    (st : State) (r : Report) :
  statistics validateMode now commits st = Ok r ->
  let t := tally now (List.map snd (rangeLines (codeLines st))) in
  SurvivingLines (statsOf r) = survivingLines t
  /\ DeletedLines (statsOf r) = (totalLines t - survivingLines t)%nat
  /\ TotalLines (statsOf r) = totalLines t
  /\ OldestLineAge (statsOf r) = oldestAge t
  /\ NewestLineAge (statsOf r) = newestAge t
  /\ exists oldest newest,
       oldestLine t = Some oldest /\ newestLine t = Some newest
       /\ OldestLine (statsOf r) = Content oldest
       /\ NewestLine (statsOf r) = Content newest.
Proof.
  unfold Tracker.statistics. cbv zeta.
  set (t := tally now (List.map snd (rangeLines (codeLines st)))).
  destruct (lifetimes t) as [|x l] eqn:El; simpl; [discriminate|].
  destruct (oldestLine t) as [oldest|]; [|discriminate].
  destruct (newestLine t) as [newest|]; [|discriminate].
  destruct commits as [|first rest]; [discriminate|].
  destruct (last (first :: rest)) as [lastc|]; [|discriminate].
  destruct validateMode; simpl; intros H; injection H as <-; simpl;
    (do 5 (split; [reflexivity|])); exists oldest, newest; auto.
Qed.

(** X5. When every record is either deleted or not older than the time of
    the analysis, and some deleted record lived for a positive time, the
    sample is not empty and the analysis does not return: building the
    report dereferences the nil pointer to the oldest surviving line. *)
Theorem analysis_panics_when_no_line_survives (r : Repository) (filePattern : string)
    (validateMode : bool) (now : Time) (mainRef : string) (newestFirst : list Commit)
    (k : string) (cl : CodeLine) (d : Time) :
  firstSome (Reference r "main") (Reference r "master") = Some mainRef ->
  Log r mainRef = Commits newestFirst ->
  (forall k' cl',
     codeLines (replay filePattern validateMode (rev newestFirst)) !! k' = Some cl' ->
     DeletedAt cl' <> None \/ now <= CreatedAt cl') ->
  codeLines (replay filePattern validateMode (rev newestFirst)) !! k = Some cl ->
  DeletedAt cl = Some d -> CreatedAt cl < d ->
  analyzeRepository (inr r) filePattern validateMode now
  = Panic "nil pointer dereference".
Proof.
  intros Href Hlog Hnone Hk Hd Hlt.
  unfold Tracker.analyzeRepository. rewrite Href, Hlog.
  set (st := replay filePattern validateMode (rev newestFirst)) in *.
  apply statistics_panics.
  - rewrite tally_lifetimes.
    assert (Hin : In (lifetimeDays now cl)
                    (List.filter (fun x => Qltb 0 x)
                       (List.map (lifetimeDays now)
                          (List.map snd (rangeLines (codeLines st)))))).
    { apply filter_In. split.
      - apply in_map. eapply stored_is_visited, Hk.
      - apply lifetimeDays_pos. now rewrite Hd. }
    destruct (List.filter _ _); [destruct Hin | simpl; lia].
  - intros line Hin Hsv. apply visited_is_stored in Hin as [k' Hk'].
    apply survivor_times in Hsv as [Hopen Hage].
    destruct (Hnone k' line Hk') as [H|H]; [congruence | lia].
Qed.

Lemma replay_nonempty (filePattern : string) (validateMode : bool)
    (commits : list Commit) (k : string) (cl : CodeLine) :
  codeLines (replay filePattern validateMode commits) !! k = Some cl -> commits <> [].
Proof.
  intros Hk ->. simpl in Hk. rewrite lookup_empty in Hk. discriminate.
Qed.

(** X6. When some record is alive and was created before the time of the
    analysis, the analysis of an opened repository with a resolved branch and
    a readable log returns a report. *)
Theorem analysis_returns_when_a_line_survives (r : Repository) (filePattern : string)
    (validateMode : bool) (now : Time) (mainRef : string) (newestFirst : list Commit)
    (k : string) (cl : CodeLine) :
  firstSome (Reference r "main") (Reference r "master") = Some mainRef ->
  Log r mainRef = Commits newestFirst ->
  codeLines (replay filePattern validateMode (rev newestFirst)) !! k = Some cl ->
  DeletedAt cl = None -> CreatedAt cl < now ->
  exists report, analyzeRepository (inr r) filePattern validateMode now = Ok report.
Proof.
  intros Href Hlog Hk Hd Hlt.
  unfold Tracker.analyzeRepository. rewrite Href, Hlog.
  apply (statistics_returns rangeLines rangeSurvivors validateMode now _ _ cl).
  - eapply stored_is_visited, Hk.
  - apply survivor_times. split; assumption.
  - eapply replay_nonempty, Hk.
Qed.

(** X7. The survival curve of a report has [timePoints] points; the first
    is 1, and every point is greater than 0 and at most 1: the curve never
    reaches zero, because the sampled ages stay below the greatest
    lifetime. *)
Theorem survival_curve_starts_at_one_and_stays_positive (validateMode : bool)
    (now : Time) (commits : list Commit) (st : State) (r : Report) :
  statistics validateMode now commits st = Ok r ->
  length (SurvivalRate (statsOf r)) = timePoints
  /\ (forall a, SurvivalRate (statsOf r) !! 0%nat = Some a -> (a == 1)%Q)
  /\ (forall i a, SurvivalRate (statsOf r) !! i = Some a -> (0 < a)%Q /\ (a <= 1)%Q).
Proof.
  intros Hr. apply statistics_fields in Hr. cbv zeta in Hr.
  destruct Hr as (Hne & _ & _ & Hcurve & _). rewrite Hcurve.
  set (sample := lifetimes (tally now (List.map snd (rangeLines (codeLines st))))) in *.
  assert (Hsorted : Float64s sample <> []).
  { intros H. apply Hne. apply length_zero_iff_nil.
    rewrite <- (Float64s_length sample), H. reflexivity. }
  assert (Hpos : List.Forall (fun x => (0 < x)%Q) (Float64s sample)).
  { apply Float64s_Forall, tally_positive. }
  split; [apply survivalCurve_length|]. split.
  - intros a Ha. apply survivalCurve_lookup in Ha as [_ ->].
    now apply fraction_at_0.
  - intros i a Ha. apply survivalCurve_lookup in Ha as [Hi ->].
    now apply fraction_bounds.
Qed.

(** X8. The half-life of a report is positive and at most the greatest
    lifetime of the sample, and the median it reports is one of the
    lifetimes of the sample. *)
Theorem half_life_is_positive_and_bounded (validateMode : bool)
    (now : Time) (commits : list Commit) (st : State) (r : Report) :
  statistics validateMode now commits st = Ok r ->
  let sample := lifetimes (tally now (List.map snd (rangeLines (codeLines st)))) in
  (0 < HalfLife (statsOf r))%Q
  /\ In (MedianAge (statsOf r)) sample
  /\ exists greatest,
       In greatest sample
       /\ (forall x, In x sample -> (x <= greatest)%Q)
       /\ (HalfLife (statsOf r) <= greatest)%Q.
Proof.
  intros Hr sample. apply statistics_fields in Hr. cbv zeta in Hr.
  destruct Hr as (Hne & -> & -> & _ & _). fold sample in Hne |- *.
  set (sorted := Float64s sample).
  assert (Hsorted : sorted <> []).
  { intros H. apply Hne. apply length_zero_iff_nil.
    rewrite <- (Float64s_length sample). fold sorted. now rewrite H. }
  assert (Hpos : List.Forall (fun x => (0 < x)%Q) sorted).
  { apply Float64s_Forall, tally_positive. }
  assert (Hback : forall x, In x sorted -> In x sample).
  { intros x. apply Permutation_in. symmetry. apply Float64s_perm. }
  assert (Hmid : In (middle sorted) sorted).
  { unfold middle. apply nth_In. destruct sorted as [|y l]; [congruence|].
    apply Nat.div_lt; simpl; lia. }
  assert (Hgreatest : forall x, In x sorted -> (x <= maxAgeOf sorted)%Q).
  { intros x. apply maxAgeOf_greatest, Float64s_sorted. }
  assert (Hmax : (0 < maxAgeOf sorted)%Q) by (now apply maxAgeOf_pos).
  rewrite List.Forall_forall in Hpos.
  destruct (halfLifeOf_cases sorted Hsorted) as [Hfound Hnone];
    [now apply List.Forall_forall|].
  assert (Hhalf : (0 < halfLifeOf sorted)%Q /\ (halfLifeOf sorted <= maxAgeOf sorted)%Q).
  { destruct (below_dec
                (fun i => (survivalAt sorted (timePoint (maxAgeOf sorted) i) <= 1 # 2)%Q)
                timePoints (fraction_dec sorted (maxAgeOf sorted))) as [Hex|Hno].
    - destruct (Hfound Hex) as [i [Hi [Heq [Hfi _]]]]. rewrite Heq. split.
      + apply timePoint_pos; [exact Hmax|].
        destruct i as [|i]; [|lia]. exfalso.
        rewrite (fraction_at_0 sorted (maxAgeOf sorted) Hsorted) in Hfi
          by (now apply List.Forall_forall).
        revert Hfi. apply Qlt_not_le. reflexivity.
      + apply timePoint_below; [apply Qlt_le_weak, Hmax | exact Hi].
    - rewrite Hnone.
      + split; [apply Hpos, Hmid | apply Hgreatest, Hmid].
      + intros i Hi Hfi. apply Hno. exists i. split; assumption. }
  split; [apply Hhalf|]. split; [apply Hback, Hmid|].
  exists (maxAgeOf sorted). split; [apply Hback, maxAgeOf_In, Hsorted|].
  split; [|apply Hhalf].
  intros x Hx. apply Hgreatest.
  eapply Permutation_in; [apply Float64s_perm | exact Hx].
Qed.

(** X9. In a report the surviving lines are the records without a deletion
    time, whatever their age, the deleted lines are those with one, counted
    as the timeline counts them, and the two add up to the total. *)
Theorem surviving_and_deleted_lines_add_up (validateMode : bool)
    (now : Time) (commits : list Commit) (st : State) (r : Report) :
  statistics validateMode now commits st = Ok r ->
  SurvivingLines (statsOf r)
  = length (List.filter (fun kv => isNil (DeletedAt (snd kv))) (map_to_list (codeLines st)))
  /\ DeletedLines (statsOf r) = countDeletedLines (codeLines st)
  /\ (SurvivingLines (statsOf r) + DeletedLines (statsOf r))%nat = TotalLines (statsOf r)
  /\ TotalLines (statsOf r) = size (codeLines st).
Proof.
  intros Hr. apply statistics_more_fields in Hr. cbv zeta in Hr.
  destruct Hr as (-> & -> & -> & _).
  unfold tally. rewrite fold_survivingLines.
  rewrite (proj2 (fold_tally now _ emptyTally)). simpl.
  rewrite length_map, filter_map_length.
  rewrite (Permutation_length (rangeLines_visits _)), length_map_to_list.
  rewrite (filter_length_perm _ _ _ (rangeLines_visits (codeLines st))).
  pose proof (filter_split_length (fun kv : string * CodeLine => isNil (DeletedAt (snd kv)))
                (map_to_list (codeLines st))) as Hsplit.
  rewrite length_map_to_list in Hsplit.
  unfold countDeletedLines. repeat split; lia.
Qed.

(** X10. The oldest and newest lines of a report are stored records that
    are alive, with their own ages, and the age of every stored record that
    is alive and older than the time of the analysis lies between the
    two. *)
Theorem oldest_and_newest_bound_the_surviving_ages (validateMode : bool)
    (now : Time) (commits : list Commit) (st : State) (r : Report) :
  statistics validateMode now commits st = Ok r ->
  (exists k oldest,
      codeLines st !! k = Some oldest /\ DeletedAt oldest = None
      /\ OldestLine (statsOf r) = Content oldest
      /\ OldestLineAge (statsOf r) = lifetimeDays now oldest)
  /\ (exists k newest,
        codeLines st !! k = Some newest /\ DeletedAt newest = None
        /\ NewestLine (statsOf r) = Content newest
        /\ NewestLineAge (statsOf r) = lifetimeDays now newest)
  /\ (forall k line,
        codeLines st !! k = Some line -> DeletedAt line = None -> CreatedAt line < now ->
        (NewestLineAge (statsOf r) <= lifetimeDays now line)%Q
        /\ (lifetimeDays now line <= OldestLineAge (statsOf r))%Q).
Proof.
  intros Hr. apply statistics_more_fields in Hr. cbv zeta in Hr.
  destruct Hr as (_ & _ & _ & -> & -> & oldest & newest & Ho & Hn & -> & ->).
  destruct (tally_extremes now (List.map snd (rangeLines (codeLines st))))
    as (Hall & Hold & Hnew).
  destruct (Hold oldest Ho) as (Hino & [Hdo _] & Hao).
  destruct (Hnew newest Hn) as (Hinn & [Hdn _] & Han).
  split; [|split].
  - apply visited_is_stored in Hino as [k Hk]. exists k, oldest. auto.
  - apply visited_is_stored in Hinn as [k Hk]. exists k, newest. auto.
  - intros k line Hk Hd Hlt.
    destruct (Hall line) as (_ & _ & Hlo & Hhi).
    + eapply stored_is_visited, Hk.
    + apply survivor_times. split; assumption.
    + split; assumption.
Qed.

End Report.

(** *** On the example histories *)

Import TrackerExamples TrackerRuns.

Lemma analysis_panics_when_no_line_survives_witness :
  analyzeRepository unusedBase unusedMatch map_to_list map_to_list
    (inr goneRepo) "*" false now
  = Panic "nil pointer dereference".
Proof.
  apply (analysis_panics_when_no_line_survives unusedBase unusedMatch
           map_to_list map_to_list (fun m => Permutation_refl _)
           goneRepo "*" false now "g1" [later "g1" 10 Delete "x"; lone]
           (key "a.go" "x") goneX (10 * day)).
  - reflexivity.
  - reflexivity.
  - intros k' cl' Hk'.
    assert (Hmap : codeLines (replay unusedBase unusedMatch "*" false
                                (rev [later "g1" 10 Delete "x"; lone]))
                   = {[ key "a.go" "x" := goneX ]})
      by (vm_compute; reflexivity).
    rewrite Hmap in Hk'. apply lookup_singleton_Some in Hk' as [_ <-].
    left. discriminate.
  - vm_compute. reflexivity.
  - reflexivity.
  - vm_compute. reflexivity.
Defined.

Lemma analysis_returns_when_a_line_survives_witness :
  exists report,
    analyzeRepository unusedBase unusedMatch map_to_list map_to_list
      (inr repo) "*" false now = Ok report.
Proof.
  apply (analysis_returns_when_a_line_survives unusedBase unusedMatch
           map_to_list map_to_list (fun m => Permutation_refl _)
           repo "*" false now "h4" [c4; c3; c2; c1; c0] (key "a.go" "x") lineX).
  - reflexivity.
  - reflexivity.
  - vm_compute. reflexivity.
  - reflexivity.
  - vm_compute. reflexivity.
Defined.

Lemma survival_curve_starts_at_one_and_stays_positive_witness :
  match outcome false with
  | Ok r => length (SurvivalRate (statsOf r)) = timePoints
            /\ forall i a, SurvivalRate (statsOf r) !! i = Some a -> (0 < a)%Q /\ (a <= 1)%Q
  | _ => False
  end.
Proof.
  destruct (outcome false) as [r|msg|msg] eqn:E;
    [|vm_compute in E; discriminate|vm_compute in E; discriminate].
  destruct (survival_curve_starts_at_one_and_stays_positive map_to_list map_to_list
              false now history (run false history) r E) as (H1 & _ & H3).
  split; assumption.
Defined.

Lemma half_life_is_positive_and_bounded_witness :
  match outcome false with
  | Ok r => (0 < HalfLife (statsOf r))%Q
  | _ => False
  end.
Proof.
  destruct (outcome false) as [r|msg|msg] eqn:E;
    [|vm_compute in E; discriminate|vm_compute in E; discriminate].
  pose proof (half_life_is_positive_and_bounded map_to_list map_to_list
                false now history (run false history) r E) as H.
  cbv zeta in H. destruct H as (H & _). exact H.
Defined.

Lemma surviving_and_deleted_lines_add_up_witness :
  match outcome true with
  | Ok r => DeletedLines (statsOf r) = countDeletedLines (codeLines (run true history))
            /\ (SurvivingLines (statsOf r) + DeletedLines (statsOf r))%nat
               = TotalLines (statsOf r)
  | _ => False
  end.
Proof.
  destruct (outcome true) as [r|msg|msg] eqn:E;
    [|vm_compute in E; discriminate|vm_compute in E; discriminate].
  unfold outcome in E.
  destruct (surviving_and_deleted_lines_add_up map_to_list map_to_list
              (fun m => Permutation_refl (map_to_list m))
              true now history (run true history) r E)
    as (_ & H2 & H3 & _).
  split; assumption.
Defined.

Lemma oldest_and_newest_bound_the_surviving_ages_witness :
  match outcome false with
  | Ok r => (NewestLineAge (statsOf r) <= lifetimeDays now lineX)%Q
            /\ (lifetimeDays now lineX <= OldestLineAge (statsOf r))%Q
  | _ => False
  end.
Proof.
  destruct (outcome false) as [r|msg|msg] eqn:E;
    [|vm_compute in E; discriminate|vm_compute in E; discriminate].
  unfold outcome in E.
  destruct (oldest_and_newest_bound_the_surviving_ages map_to_list map_to_list
              (fun m => Permutation_refl (map_to_list m))
              false now history (run false history) r E)
    as (_ & _ & H).
  apply (H (key "a.go" "x") lineX).
  - vm_compute. reflexivity.
  - reflexivity.
  - vm_compute. reflexivity.
Defined.

End TrackerStatsExtras.

(** ** File patterns, the sample in terms of times, the timeline, the samples *)

Module TrackerMisc.

Import GoStrings GoTime GoSort GoGit Tracker TrackerNotions GoFacts.
Import TrackerStats TrackerReplay.

(** *** Suffixes *)

Lemma drop_all (s : string) : drop (String.length s) s = "".
Proof. induction s as [|c s IH]; simpl; [reflexivity | exact IH]. Qed.

Lemma drop_append (p s : string) : drop (String.length p) (p +:+ s) = s.
Proof. induction p as [|c p IH]; simpl; [reflexivity | exact IH]. Qed.

Lemma length_append (p s : string) :
  String.length (p +:+ s) = (String.length p + String.length s)%nat.
Proof. induction p as [|c p IH]; simpl; [reflexivity | now rewrite IH]. Qed.

Lemma drop_split (n : nat) (s : string) :
  (n <= String.length s)%nat ->
  exists p, s = p +:+ drop n s /\ String.length p = n.
Proof.
  revert s. induction n as [|n IH]; intros s Hn.
  - exists "". split; reflexivity.
  - destruct s as [|c s]; simpl in Hn; [lia|].
    destruct (IH s) as [p [Hp Hl]]; [lia|].
    exists (String c p). split.
    + change (String c s = String c (p +:+ drop n s)). f_equal. exact Hp.
    + simpl. now rewrite Hl.
Qed.

(** [strings.HasSuffix]: the string ends with the suffix. *)
Lemma HasSuffix_ends (s suffix : string) :
  HasSuffix s suffix = true <-> exists stem, s = stem +:+ suffix.
Proof.
  unfold HasSuffix. rewrite andb_true_iff, Nat.leb_le, String.eqb_eq. split.
  - intros [Hlen Hdrop].
    destruct (drop_split (String.length s - String.length suffix) s) as [p [Hp _]]; [lia|].
    exists p. now rewrite Hdrop in Hp.
  - intros [stem ->]. rewrite length_append. split; [lia|].
    replace (String.length stem + String.length suffix - String.length suffix)%nat
      with (String.length stem) by lia.
    apply drop_append.
Qed.

(** X11. The pattern ["*"] matches every file name, and a pattern ["*.ext"]
    matches exactly the names that end in [".ext"], in any directory; for
    these patterns [filepath.Match] is not consulted, and the filter of the
    other analyzer gives the same answer. *)
Theorem star_patterns_match_by_suffix
    (filepath_Base : string -> string) (filepath_Match : string -> string -> option bool)
    (filename ext : string) :
  matchesPattern filepath_Base filepath_Match filename "*" = true
  /\ (matchesPattern filepath_Base filepath_Match filename ("*." +:+ ext) = true
      <-> exists stem, filename = stem +:+ "." +:+ ext)
  /\ MainGo.matches filename "*" = true
  /\ MainGo.matches filename ("*." +:+ ext)
     = matchesPattern filepath_Base filepath_Match filename ("*." +:+ ext).
Proof.
  change ("*." +:+ ext) with (String "*" (String "." ext)).
  change ("." +:+ ext) with (String "." ext).
  assert (Hstar : String.eqb (String "*" (String "." ext)) "*" = false)
    by (simpl; now destruct ext).
  split; [reflexivity|]. split; [|split].
  - unfold matchesPattern. rewrite Hstar. unfold TrimPrefix. simpl.
    replace (HasPrefix ext "") with true by (now destruct ext).
    apply HasSuffix_ends.
  - unfold MainGo.matches, TrimPrefix. simpl.
    apply HasSuffix_ends. exists filename. clear.
    induction filename as [|c s IH]; [reflexivity|].
    change (String c s = String c (s +:+ "")). f_equal. exact IH.
  - unfold MainGo.matches, matchesPattern. rewrite Hstar. simpl.
    replace (HasPrefix ext "") with true by (now destruct ext).
    reflexivity.
Qed.

(** *** The sample in terms of the times of the records *)

(** The end of the life of a record: its deletion, or the time of the
    analysis. *)
Lemma positive_lifetime (now : Time) (line : CodeLine) :
  Qltb 0 (lifetimeDays now line) = (CreatedAt line <? endOf now line).
Proof.
  destruct (CreatedAt line <? endOf now line) eqn:E.
  - apply lifetimeDays_pos. apply Z.ltb_lt in E. exact E.
  - apply not_true_iff_false. intros H. apply lifetimeDays_pos in H.
    apply Z.ltb_ge in E. unfold endOf in E.
    destruct (DeletedAt line); lia.
Qed.

Lemma filter_map_swap {A B : Type} (f : B -> bool) (g : A -> B) (l : list A) :
  List.filter f (List.map g l) = List.map g (List.filter (fun x => f (g x)) l).
Proof.
  induction l as [|x l IH]; simpl; [reflexivity|].
  destruct (f (g x)); simpl; now rewrite IH.
Qed.

(** X12. The sample is made of the lifetimes of the records whose life ends
    after it began, in the order they are visited: a record created and
    deleted at the same time, or created at the time of the analysis or
    later, is left out; the conversion to days and the saturation of the
    difference do not change who is in it. *)
Theorem sample_holds_the_records_that_end_after_they_begin (now : Time)
    (lines : list CodeLine) :
  lifetimes (tally now lines)
  = List.map (lifetimeDays now)
      (List.filter (fun line => CreatedAt line <? endOf now line) lines).
Proof.
  rewrite tally_lifetimes, filter_map_swap. f_equal.
  apply List.filter_ext. intros line. apply positive_lifetime.
Qed.

(** *** The timeline *)

Lemma size_insert_ge (m : gmap string CodeLine) (k : string) (cl : CodeLine) :
  (size m <= size (<[k := cl]> m))%nat /\ (1 <= size (<[k := cl]> m))%nat.
Proof.
  destruct (m !! k) as [old|] eqn:E.
  - rewrite (map_size_insert_Some k cl m (mk_is_Some _ _ E)). split; [lia|].
    destruct (size m) eqn:Es; [|lia].
    apply map_size_empty_iff in Es. subst m. rewrite lookup_empty in E. discriminate.
  - rewrite (map_size_insert_None k cl m E). lia.
Qed.

Lemma countDeletedLines_le (m : gmap string CodeLine) :
  (countDeletedLines m <= size m)%nat.
Proof.
  unfold countDeletedLines. rewrite <- length_map_to_list.
  generalize (map_to_list m). intros l.
  induction l as [|x l IH]; simpl; [lia|].
  destruct (negb (isNil (DeletedAt (snd x)))); simpl; lia.
Qed.

Lemma countDeletedLines_pos (m : gmap string CodeLine) (k : string) (cl : CodeLine) :
  m !! k = Some cl -> DeletedAt cl <> None -> (1 <= countDeletedLines m)%nat.
Proof.
  intros Hk Hd. unfold countDeletedLines.
  assert (Hin : In (k, cl)
                  (List.filter (fun kv => negb (isNil (DeletedAt (snd kv)))) (map_to_list m))).
  { apply filter_In. split.
    - apply list_elem_of_In, elem_of_map_to_list, Hk.
    - simpl. now destruct (DeletedAt cl). }
  destruct (List.filter _ _); [destruct Hin | simpl; lia].
Qed.

Lemma logEvent_consistent (v : bool) (ev : TimelineEvent) (st : State)
    (lines : gmap string CodeLine) :
  consistentTimeline st ->
  (size (codeLines st) <= size lines)%nat ->
  consistentEvent (size lines) ev ->
  consistentTimeline {| codeLines := lines; timeline := logEvent v ev (timeline st) |}.
Proof.
  unfold consistentTimeline. simpl. intros Hst Hsize Hev.
  assert (Hold : List.Forall (consistentEvent (size lines)) (timeline st)).
  { eapply List.Forall_impl; [|exact Hst]. intros e (H1 & H2 & H3).
    split; [lia|]. split; assumption. }
  unfold logEvent. destruct v; [|exact Hold].
  apply List.Forall_app. split; [exact Hold|]. constructor; [exact Hev | constructor].
Qed.

Lemma snapshotLine_consistent (v : bool) (c : Commit) (name : string) (st : State)
    (line : string) :
  consistentTimeline st -> consistentTimeline (snapshotLine v c name st line).
Proof.
  intros H. unfold snapshotLine. destruct (isBlank line); [exact H|].
  destruct (size_insert_ge (codeLines st) (key name line) (newCodeLine c name line))
    as [Hge H1].
  apply logEvent_consistent; [exact H | exact Hge|].
  unfold consistentEvent, createEvent. simpl.
  split; [lia|]. split; [lia|]. left. split; reflexivity.
Qed.

Lemma addLine_consistent (v : bool) (c : Commit) (path : string) (st : State)
    (line : string) :
  consistentTimeline st -> consistentTimeline (addLine v c path st line).
Proof.
  intros H. unfold addLine. destruct (isBlank line); [exact H|].
  destruct (codeLines st !! key path line) as [cl|] eqn:E.
  - destruct (size_insert_ge (codeLines st) (key path line) (setLastSeen (When c) cl))
      as [Hge _].
    unfold consistentTimeline in *. simpl.
    eapply List.Forall_impl; [|exact H]. intros e (H1 & H2 & H3).
    split; [lia|]. split; assumption.
  - destruct (size_insert_ge (codeLines st) (key path line) (newCodeLine c path line))
      as [Hge H1].
    apply logEvent_consistent; [exact H | exact Hge|].
    unfold consistentEvent, createEvent. simpl.
    split; [lia|]. split; [lia|]. left. split; reflexivity.
Qed.

Lemma deleteLine_consistent (v : bool) (c : Commit) (path : string) (st : State)
    (line : string) :
  consistentTimeline st -> consistentTimeline (deleteLine v c path st line).
Proof.
  intros H. unfold deleteLine. destruct (isBlank line); [exact H|].
  destruct (codeLines st !! key path line) as [cl|] eqn:E; [|exact H].
  destruct (size_insert_ge (codeLines st) (key path line) (setDeletedAt (When c) cl))
    as [Hge H1].
  apply logEvent_consistent; [exact H | exact Hge|].
  unfold consistentEvent, deleteEvent. simpl.
  split; [lia|]. split; [apply countDeletedLines_le|]. right. split; [reflexivity|].
  apply (countDeletedLines_pos _ (key path line) (setDeletedAt (When c) cl)).
  - apply lookup_insert_eq.
  - discriminate.
Qed.

Section Timeline.

Variable filepath_Base : string -> string.
Variable filepath_Match : string -> string -> option bool.

Local Abbreviation matchesPattern := (matchesPattern filepath_Base filepath_Match).
Local Abbreviation replay := (replay filepath_Base filepath_Match).

Lemma replay_consistent (filePattern : string) (validateMode : bool)
    (commits : list Commit) :
  consistentTimeline (replay filePattern validateMode commits).
Proof.
  unfold Tracker.replay. destruct commits as [|c0 rest]; [constructor|].
  apply (fold_left_preserves _ consistentTimeline).
  - intros s c Hs. unfold laterCommit. destruct (Patch c) as [patches|]; [|exact Hs].
    apply (fold_left_preserves _ consistentTimeline); [|exact Hs].
    intros s1 fp Hs1. unfold applyFilePatch.
    destruct (patchPath fp) as [path|]; [|exact Hs1].
    destruct (negb (matchesPattern path filePattern)); [exact Hs1|].
    apply (fold_left_preserves _ consistentTimeline); [|exact Hs1].
    intros s2 chunk Hs2. unfold applyChunk. destruct (GoGit.Type_ chunk); [exact Hs2| |].
    + apply (fold_left_preserves _ consistentTimeline); [|exact Hs2].
      intros s3 x. apply addLine_consistent.
    + apply (fold_left_preserves _ consistentTimeline); [|exact Hs2].
      intros s3 x. apply deleteLine_consistent.
  - unfold firstCommit. destruct (Tree c0) as [files|]; [|constructor].
    apply (fold_left_preserves _ consistentTimeline); [|constructor].
    intros s f Hs. unfold snapshotFile.
    destruct (negb (matchesPattern (Name f) filePattern)); [exact Hs|].
    destruct (Contents f) as [content|]; [|exact Hs].
    apply (fold_left_preserves _ consistentTimeline); [|exact Hs].
    intros s1 x. apply snapshotLine_consistent.
Qed.

(** X13. Every event of the timeline of a replay counts at least one line
    and no more lines than the replay ends with, and no more deleted lines
    than lines; a create event always carries zero deleted lines, also
    after deletions, and a delete event at least one. *)
Theorem timeline_events_are_consistent (filePattern : string) (commits : list Commit)
    (ev : TimelineEvent) :
  In ev (timeline (replay filePattern true commits)) ->
  (1 <= ev_LinesSoFar ev)%nat
  /\ (ev_LinesSoFar ev <= size (codeLines (replay filePattern true commits)))%nat
  /\ (ev_DeletedSoFar ev <= ev_LinesSoFar ev)%nat
  /\ ((ev_Action ev = "create" /\ ev_DeletedSoFar ev = 0%nat)
      \/ (ev_Action ev = "delete" /\ (1 <= ev_DeletedSoFar ev)%nat)).
Proof.
  intros Hin.
  pose proof (replay_consistent filePattern true commits) as H.
  unfold consistentTimeline in H. rewrite List.Forall_forall in H.
  destruct (H ev Hin) as ((H1 & H2) & H3 & H4). auto.
Qed.

End Timeline.

(** *** The samples of the validation report *)

(** X14. The samples of a validation report always hold the oldest and the
    newest line; the five numbered samples are there only when more than five
    lines survive, and then they are the survivors at the evenly spaced
    positions [i * n / 5] of the visiting order, each within range. *)
Theorem samples_are_evenly_spaced_survivors (oldest newest : CodeLine)
    (survivors : list CodeLine) :
  let samples := collectSamples oldest newest survivors in
  let n := length survivors in
  samples !! "oldest" = Some oldest
  /\ samples !! "newest" = Some newest
  /\ (forall i, (i < 5)%nat ->
        samples !! sampleLabel i
        = if (5 <? n)%nat then survivors !! ((i * n) / 5)%nat else None)
  /\ (forall i, (i < 5)%nat -> (5 < n)%nat -> is_Some (samples !! sampleLabel i)).
Proof.
  intros samples n.
  assert (Hadd : forall m i label,
            addSample survivors m i !! label
            = if decide (label = sampleLabel i)
              then match survivors !! ((i * n) / 5)%nat with
                   | Some cl => Some cl
                   | None => m !! label
                   end
              else m !! label).
  { intros m i label. unfold addSample. fold n.
    destruct (survivors !! ((i * n) / 5)%nat) as [cl|]; case_decide as Hl;
      try reflexivity.
    - subst label. apply lookup_insert_eq.
    - apply lookup_insert_ne. congruence. }
  assert (Hlabels : forall i, (i < 5)%nat ->
            samples !! sampleLabel i
            = if (5 <? n)%nat then survivors !! ((i * n) / 5)%nat else None).
  { intros i Hi. unfold samples, collectSamples. fold n.
    destruct (5 <? n)%nat.
    - simpl fold_left. rewrite !Hadd.
      do 5 (destruct i as [|i];
            [simpl sampleLabel; repeat (case_decide; try discriminate);
             try congruence;
             match goal with |- context [survivors !! ?j] =>
               destruct (survivors !! j); reflexivity end|]).
      lia.
    - do 5 (destruct i as [|i]; [reflexivity|]). lia. }
  split; [|split; [|split]].
  - unfold samples, collectSamples. fold n. destruct (5 <? n)%nat.
    + simpl fold_left. rewrite !Hadd. simpl sampleLabel.
      repeat (case_decide; try discriminate). reflexivity.
    + reflexivity.
  - unfold samples, collectSamples. fold n. destruct (5 <? n)%nat.
    + simpl fold_left. rewrite !Hadd. simpl sampleLabel.
      repeat (case_decide; try discriminate). reflexivity.
    + reflexivity.
  - exact Hlabels.
  - intros i Hi Hn. rewrite (Hlabels i Hi).
    replace (5 <? n)%nat with true by (symmetry; apply Nat.ltb_lt; exact Hn).
    apply lookup_lt_is_Some. fold n.
    apply Nat.Div0.div_lt_upper_bound. nia.
Qed.

Import TrackerExamples.

Lemma timeline_events_are_consistent_witness :
  (1 <= ev_LinesSoFar (deleteEvent c2 "a.go" "z" (codeLines (run true [c0; c1; c2]))))%nat
  /\ (ev_LinesSoFar (deleteEvent c2 "a.go" "z" (codeLines (run true [c0; c1; c2])))
      <= size (codeLines (run true [c0; c1; c2; c3])))%nat.
Proof.
  destruct (timeline_events_are_consistent unusedBase unusedMatch "*" [c0; c1; c2; c3]
              (deleteEvent c2 "a.go" "z" (codeLines (run true [c0; c1; c2]))))
    as (H1 & H2 & _).
  - vm_compute. right. right. right. left. reflexivity.
  - split; assumption.
Defined.

End TrackerMisc.

(** ** The histories of the change-event analyzer *)

Module MainGoReplay.

Import GoStrings GoTime GoSort GoGit MainGo MainGoNotions GoFacts.

(** A property of the map of histories kept by the three kinds of lines is
    kept by a commit. *)
Lemma processCommit_histories
    (range : gmap string LineHistory -> list (string * LineHistory))
    (P : gmap string LineHistory -> Prop) (pattern : string) (st : State) (c : Commit) :
  (forall path h line, P h -> P (addLine c path h line)) ->
  (forall path h line, P h -> P (deleteLine c path h line)) ->
  (forall path h line, P h -> P (equalLine c path h line)) ->
  P (lineHistories st) -> P (lineHistories (processCommit range pattern st c)).
Proof.
  intros Hadd Hdel Heq H. unfold processCommit.
  destruct (Tree c) as [files|]; [|exact H].
  destruct (0 <? NumParents c)%nat; [|exact H].
  destruct (negb (Parent c)); [exact H|].
  destruct (Patch c) as [patches|]; [|exact H].
  simpl. apply (fold_left_preserves _ (fun s => P (lineHistories s))); [|exact H].
  intros s fp Hs. unfold applyFilePatch.
  destruct (To fp) as [path|]; [|exact Hs].
  destruct (negb (matches path pattern)); [exact Hs|].
  apply (fold_left_preserves _ (fun s => P (lineHistories s))); [|exact Hs].
  intros s1 chunk Hs1. unfold applyChunk. cbv zeta.
  destruct (GoGit.Type_ chunk); simpl.
  - apply (fold_left_preserves _ P); [|exact Hs1]. intros h x. apply Heq.
  - apply (fold_left_preserves _ P); [|exact Hs1]. intros h x. apply Hadd.
  - apply (fold_left_preserves _ P); [|exact Hs1]. intros h x. apply Hdel.
Qed.

(** A commit whose patch is not read leaves the histories, the tally of
    edits and, with nothing tracked, the tally of events as they are. *)
Lemma processCommit_without_patch
    (range : gmap string LineHistory -> list (string * LineHistory))
    (pattern : string) (st : State) (c : Commit) :
  hasPatch c = false ->
  lineHistories (processCommit range pattern st c) = lineHistories st
  /\ totalEdits (processCommit range pattern st c) = totalEdits st
  /\ totalEditSize (processCommit range pattern st c) = totalEditSize st.
Proof.
  unfold hasPatch, processCommit. intros H.
  destruct (Tree c) as [files|]; [|auto].
  destruct (0 <? NumParents c)%nat; [|simpl; auto].
  destruct (Parent c); simpl; [|auto].
  destruct (Patch c) as [patches|]; [discriminate H|auto].
Qed.

(** *** Well-formed histories *)

Lemma newHistory_wellFormed (c : Commit) (path line : string) :
  isBlank line = false -> wellFormed (key path line) (newHistory c path line).
Proof.
  intros Hnb. unfold wellFormed, newHistory, createdEvent. simpl.
  split; [reflexivity|]. split; [exact Hnb|]. split; [now exists []|].
  split; [|discriminate].
  constructor; [|constructor]. split; [reflexivity | discriminate].
Qed.

Lemma markDeleted_wellFormed (c : Commit) (k : string) (history : LineHistory) :
  wellFormed k history -> wellFormed k (markDeleted c history).
Proof.
  intros (Hk & Hnb & [rest Hc] & Hall & Hd). unfold wellFormed, markDeleted. simpl.
  split; [exact Hk|]. split; [exact Hnb|]. split; [|split].
  - exists (rest ++ [deletedEvent (When c)]). rewrite Hc. reflexivity.
  - apply List.Forall_app. split; [exact Hall|].
    constructor; [|constructor]. split; reflexivity.
  - intros d Heq. injection Heq as <-. now exists (Changes history).
Qed.

Lemma markSeen_wellFormed (c : Commit) (k line : string) (history : LineHistory) :
  wellFormed k history -> wellFormed k (markSeen c line history).
Proof.
  intros (Hk & Hnb & [rest Hc] & Hall & Hd). unfold wellFormed, markSeen. simpl.
  split; [exact Hk|]. split; [exact Hnb|].
  destruct (DeletedAt history) as [d0|]; simpl.
  - split; [now exists rest|]. split; [exact Hall | exact Hd].
  - split; [|split].
    + eexists. rewrite Hc. reflexivity.
    + apply List.Forall_app. split; [exact Hall|].
      constructor; [|constructor]. split; [reflexivity | discriminate].
    + discriminate.
Qed.

Lemma processCommit_wellFormed
    (range : gmap string LineHistory -> list (string * LineHistory))
    (pattern : string) (st : State) (c : Commit) :
  map_Forall wellFormed (lineHistories st) ->
  map_Forall wellFormed (lineHistories (processCommit range pattern st c)).
Proof.
  apply (processCommit_histories range (map_Forall wellFormed)).
  - intros path h line H. unfold addLine.
    destruct (isBlank line) eqn:Hnb; [exact H|].
    destruct (h !! key path line); [exact H|].
    apply map_Forall_insert_2; [|exact H]. now apply newHistory_wellFormed.
  - intros path h line H. unfold deleteLine.
    destruct (isBlank line) eqn:Hnb; [exact H|].
    destruct (h !! key path line) as [history|] eqn:E; [|exact H].
    apply map_Forall_insert_2; [|exact H].
    apply markDeleted_wellFormed, (H _ _ E).
  - intros path h line H. unfold equalLine.
    destruct (isBlank line) eqn:Hnb; [exact H|].
    destruct (h !! key path line) as [history|] eqn:E; [|exact H].
    apply map_Forall_insert_2; [|exact H].
    apply markSeen_wellFormed, (H _ _ E).
Qed.

(** *** Histories persist *)

Lemma persists_refl (history : LineHistory) : persists history history.
Proof.
  unfold persists. split; [reflexivity|]. split; [reflexivity|].
  split; [reflexivity|]. split; [|auto].
  exists []. now rewrite app_nil_r.
Qed.

Lemma persists_trans (h0 h1 h2 : LineHistory) :
  persists h0 h1 -> persists h1 h2 -> persists h0 h2.
Proof.
  intros (F1 & L1 & S1 & [m1 C1] & D1) (F2 & L2 & S2 & [m2 C2] & D2).
  unfold persists. split; [congruence|]. split; [congruence|].
  split; [congruence|]. split; [|auto].
  exists (m1 ++ m2). rewrite C2, C1, app_assoc. reflexivity.
Qed.

Lemma markDeleted_persists (c : Commit) (history : LineHistory) :
  persists history (markDeleted c history).
Proof.
  unfold persists, markDeleted. simpl.
  split; [reflexivity|]. split; [reflexivity|]. split; [reflexivity|].
  split; [eexists; reflexivity | discriminate].
Qed.

Lemma markSeen_persists (c : Commit) (line : string) (history : LineHistory) :
  persists history (markSeen c line history).
Proof.
  unfold persists, markSeen. simpl.
  split; [reflexivity|]. split; [reflexivity|]. split; [reflexivity|].
  split; [|auto].
  destruct (isNil (DeletedAt history)); [eexists; reflexivity|].
  exists []. now rewrite app_nil_r.
Qed.

(** Every history of [h0] is in [h], in a later state. *)
Lemma kept_step (h0 h : gmap string LineHistory) (k : string) (new : LineHistory) :
  (forall k0 old, h0 !! k0 = Some old -> exists cur, h !! k0 = Some cur /\ persists old cur) ->
  (forall cur, h !! k = Some cur -> persists cur new) ->
  forall k0 old, h0 !! k0 = Some old ->
    exists cur, <[k := new]> h !! k0 = Some cur /\ persists old cur.
Proof.
  intros H Hnew k0 old Hk0. destruct (H k0 old Hk0) as [cur [Hcur Hp]].
  destruct (decide (k = k0)) as [->|Hne].
  - exists new. rewrite lookup_insert_eq. split; [reflexivity|].
    eapply persists_trans; [exact Hp | apply Hnew, Hcur].
  - exists cur. rewrite lookup_insert_ne by exact Hne. split; assumption.
Qed.

Lemma processCommit_persists
    (range : gmap string LineHistory -> list (string * LineHistory))
    (pattern : string) (h0 : gmap string LineHistory) (st : State) (c : Commit) :
  (forall k old, h0 !! k = Some old ->
     exists cur, lineHistories st !! k = Some cur /\ persists old cur) ->
  forall k old, h0 !! k = Some old ->
    exists cur, lineHistories (processCommit range pattern st c) !! k = Some cur
                /\ persists old cur.
Proof.
  apply (processCommit_histories range
           (fun h => forall k old, h0 !! k = Some old ->
                       exists cur, h !! k = Some cur /\ persists old cur)).
  - intros path h line H. unfold addLine.
    destruct (isBlank line); [exact H|].
    destruct (h !! key path line) as [history|] eqn:E; [exact H|].
    apply kept_step; [exact H|]. intros cur Hcur. congruence.
  - intros path h line H. unfold deleteLine.
    destruct (isBlank line); [exact H|].
    destruct (h !! key path line) as [history|] eqn:E; [|exact H].
    apply kept_step; [exact H|]. intros cur Hcur.
    replace cur with history by congruence. apply markDeleted_persists.
  - intros path h line H. unfold equalLine.
    destruct (isBlank line); [exact H|].
    destruct (h !! key path line) as [history|] eqn:E; [|exact H].
    apply kept_step; [exact H|]. intros cur Hcur.
    replace cur with history by congruence. apply markSeen_persists.
Qed.

(** *** Times when the commits are visited newest first *)

Lemma recent_earlier (t t' : Time) (history : LineHistory) :
  t' <= t -> recent t history -> recent t' history.
Proof.
  intros Ht (H1 & H2 & H3). unfold recent. split; [lia|]. split; [exact H2|].
  intros d Hd. destruct (H3 d Hd). lia.
Qed.

Lemma processCommit_recent
    (range : gmap string LineHistory -> list (string * LineHistory))
    (pattern : string) (t : Time) (st : State) (c : Commit) :
  When c <= t ->
  allRecent t (lineHistories st) ->
  allRecent (When c) (lineHistories (processCommit range pattern st c)).
Proof.
  intros Ht H.
  assert (H0 : allRecent (When c) (lineHistories st)).
  { intros k history Hk. eapply recent_earlier; [exact Ht | exact (H k history Hk)]. }
  clear H. revert H0. unfold allRecent.
  apply (processCommit_histories range
           (map_Forall (fun _ history => recent (When c) history))).
  - intros path h line H. unfold addLine.
    destruct (isBlank line); [exact H|].
    destruct (h !! key path line); [exact H|].
    apply map_Forall_insert_2; [|exact H].
    unfold recent, newHistory. simpl.
    split; [lia|]. split; [lia|]. discriminate.
  - intros path h line H. unfold deleteLine.
    destruct (isBlank line); [exact H|].
    destruct (h !! key path line) as [history|] eqn:E; [|exact H].
    apply map_Forall_insert_2; [|exact H].
    destruct (H _ _ E) as (R1 & R2 & R3).
    unfold recent, markDeleted. simpl.
    split; [exact R1|]. split; [exact R2|].
    intros d Hd. injection Hd as <-. lia.
  - intros path h line H. unfold equalLine.
    destruct (isBlank line); [exact H|].
    destruct (h !! key path line) as [history|] eqn:E; [|exact H].
    apply map_Forall_insert_2; [|exact H].
    destruct (H _ _ E) as (R1 & R2 & R3).
    unfold recent, markSeen. simpl.
    split; [lia|]. split; [lia | exact R3].
Qed.

Lemma commits_recent
    (range : gmap string LineHistory -> list (string * LineHistory))
    (pattern : string) (commits : list Commit) :
  StronglySorted Z.ge (List.map When commits) ->
  forall (t : Time) (st : State),
    List.Forall (fun c => When c <= t) commits ->
    allRecent t (lineHistories st) ->
    exists t', allRecent t' (lineHistories (fold_left (processCommit range pattern) commits st)).
Proof.
  induction commits as [|c rest IH]; intros Hs t st Hall Hst; simpl.
  - exists t. exact Hst.
  - apply StronglySorted_inv in Hs as [Hrest Hc]. simpl in Hrest.
    apply List.Forall_cons_iff in Hall as [Hct _].
    apply (IH Hrest (When c)).
    + apply List.Forall_forall. intros c' Hin.
      rewrite List.Forall_forall in Hc.
      assert (When c >= When c') by (apply Hc, in_map, Hin). lia.
    + now apply (processCommit_recent range pattern t).
Qed.

(** A duration that is not positive is not a positive number of days. *)
Lemma days_nonpos (t u : Time) : t <= u -> (days (Sub t u) <= 0)%Q.
Proof.
  intros Htu. unfold days.
  assert (HH : (Hours (Sub t u) <= 0)%Q).
  { apply Qnot_lt_le. intros Hpos. apply (proj1 (Hours_pos _)) in Hpos.
    apply (proj1 (TrackerStats.Sub_pos _ _)) in Hpos. unfold Time in *. lia. }
  unfold Qdiv. rewrite <- (Qmult_0_l (/ 24)).
  apply Qmult_le_compat_r; [exact HH|]. discriminate.
Qed.

End MainGoReplay.

Module MainGoReplayExtras.

Import GoStrings GoTime GoSort GoGit MainGo MainGoNotions GoFacts MainGoReplay.

Section Histories.

Variable math_Sqrt : Q -> Q.
Variable math_Log : Q -> Q.
Variable range : gmap string LineHistory -> list (string * LineHistory).

Local Abbreviation processCommit := (processCommit range).
Local Abbreviation analyzeRepository := (analyzeRepository math_Sqrt math_Log range).

(** X15. Every history that the analysis returns is stored under the key of
    its own file and line, belongs to a line that is not blank, starts with
    the [Created] event of its first sighting, holds only events of distance
    zero, and, when it is closed, ends with the [Deleted] event of
    [DeletedAt]. *)
Theorem returned_histories_are_well_formed (repo : string + Repository)
    (filePattern : string) (nowStats nowSurvival : Time)
    (stats : Stats) (histories : gmap string LineHistory)
    (k : string) (history : LineHistory) :
  analyzeRepository repo filePattern nowStats nowSurvival = Ok (stats, histories) ->
  histories !! k = Some history ->
  k = key (File history) (Line history)
  /\ isBlank (Line history) = false
  /\ (exists rest, Changes history = createdEvent history :: rest)
  /\ List.Forall plainEvent (Changes history)
  /\ (forall d, DeletedAt history = Some d ->
        exists before, Changes history = before ++ [deletedEvent d]).
Proof.
  unfold MainGo.analyzeRepository. intros Hrun Hk.
  destruct repo as [err|r]; [discriminate|].
  destruct (Head r) as [err|ref]; [discriminate|].
  destruct (Log r ref) as [err|err|commits]; [discriminate|discriminate|].
  injection Hrun as _ <-.
  assert (Hall : map_Forall wellFormed
                   (lineHistories (fold_left (processCommit filePattern) commits emptyState))).
  { apply (fold_left_preserves _ (fun s => map_Forall wellFormed (lineHistories s))).
    - intros s c. apply processCommit_wellFormed.
    - apply map_Forall_empty. }
  exact (Hall k history Hk).
Qed.

(** X16. A commit loop never drops a history and never reopens one: a
    history tracked before the commits is tracked after them under the same
    key, with the same file, line and first sighting, with its events kept as
    a prefix of the later ones, and still closed if it was closed. *)
Theorem histories_only_grow (filePattern : string) (commits : list Commit) (st : State)
    (k : string) (old : LineHistory) :
  lineHistories st !! k = Some old ->
  exists cur,
    lineHistories (fold_left (processCommit filePattern) commits st) !! k = Some cur
    /\ File cur = File old /\ Line cur = Line old /\ FirstSeen cur = FirstSeen old
    /\ (exists more, Changes cur = Changes old ++ more)
    /\ (DeletedAt old <> None -> DeletedAt cur <> None).
Proof.
  intros Hk.
  assert (Hall : forall k0 old0, lineHistories st !! k0 = Some old0 ->
            exists cur,
              lineHistories (fold_left (processCommit filePattern) commits st) !! k0
              = Some cur /\ persists old0 cur).
  { apply (fold_left_preserves _
             (fun s => forall k0 old0, lineHistories st !! k0 = Some old0 ->
                         exists cur, lineHistories s !! k0 = Some cur /\ persists old0 cur)).
    - intros s c. apply processCommit_persists.
    - intros k0 old0 H0. exists old0. split; [exact H0 | apply persists_refl]. }
  destruct (Hall k old Hk) as [cur [Hcur Hp]]. exists cur. split; [exact Hcur | exact Hp].
Qed.

(** X17. When the commits are visited newest first, that is, with times that
    do not increase, every closed history has its deletion at or before its
    first sighting, and its last sighting too: the lifetime of a deleted
    line is never positive. *)
Theorem newest_first_visit_dates_deletions_before_creations (filePattern : string)
    (commits : list Commit) (k : string) (history : LineHistory) (d now : Time) :
  StronglySorted Z.ge (List.map When commits) ->
  lineHistories (fold_left (processCommit filePattern) commits emptyState) !! k
  = Some history ->
  DeletedAt history = Some d ->
  d <= FirstSeen history
  /\ LastSeen history <= FirstSeen history
  /\ (days (Sub (endTimeOf now history) (FirstSeen history)) <= 0)%Q.
Proof.
  intros Hs Hk Hd.
  assert (Hex : exists t,
            allRecent t (lineHistories (fold_left (processCommit filePattern) commits
                                          emptyState))).
  { destruct commits as [|c rest].
    - exists 0. apply map_Forall_empty.
    - apply (commits_recent range filePattern (c :: rest) Hs (When c)).
      + constructor; [lia|].
        apply StronglySorted_inv in Hs as [_ Hc]. simpl in Hc.
        apply List.Forall_forall. intros c' Hin. rewrite List.Forall_forall in Hc.
        assert (When c >= When c') by (apply Hc, in_map, Hin). lia.
      + apply map_Forall_empty. }
  destruct Hex as [t Hall]. destruct (Hall k history Hk) as (R1 & R2 & R3).
  destruct (R3 d Hd) as [_ Hle].
  split; [exact Hle|]. split; [exact R2|].
  unfold endTimeOf. rewrite Hd. apply days_nonpos, Hle.
Qed.

End Histories.

Import MainGoExamples.

Lemma returned_histories_are_well_formed_witness :
  key "a.go" "x" = key (File (newHistory c1 "a.go" "x")) (Line (newHistory c1 "a.go" "x"))
  /\ isBlank (Line (newHistory c1 "a.go" "x")) = false.
Proof.
  destruct (returned_histories_are_well_formed anySqrt anyLog map_to_list
              (inr repo) "*.go" now now
              (finish anySqrt anyLog map_to_list now now (currentLinesOf repo "*.go")
                 (visit [c2; c1; root]))
              (lineHistories (visit [c2; c1; root]))
              (key "a.go" "x") (newHistory c1 "a.go" "x"))
    as (H1 & H2 & _).
  - reflexivity.
  - vm_compute. reflexivity.
  - split; assumption.
Defined.

Lemma histories_only_grow_witness :
  exists cur,
    lineHistories (fold_left (MainGo.processCommit map_to_list "*.go") [deleteBraces]
                     (visit [addBraces])) !! key "a.go" "}" = Some cur
    /\ File cur = "a.go" /\ Line cur = "}" /\ FirstSeen cur = 20 * day.
Proof.
  destruct (histories_only_grow map_to_list "*.go" [deleteBraces] (visit [addBraces])
              (key "a.go" "}") (newHistory addBraces "a.go" "}"))
    as (cur & H1 & H2 & H3 & H4 & _).
  - vm_compute. reflexivity.
  - exists cur. split; [exact H1|]. split; [exact H2|]. split; [exact H3 | exact H4].
Defined.

Lemma newest_first_visit_dates_deletions_before_creations_witness :
  10 * day <= FirstSeen braceHistory.
Proof.
  destruct (newest_first_visit_dates_deletions_before_creations map_to_list "*.go"
              [addBraces; deleteBraces] (key "a.go" "}") braceHistory (10 * day) now)
    as (H1 & _).
  - constructor; [constructor; [constructor | constructor]|].
    constructor; [|constructor]. vm_compute. discriminate.
  - vm_compute. reflexivity.
  - reflexivity.
  - exact H1.
Defined.

End MainGoReplayExtras.

(** ** The statistics of the change-event analyzer *)

Module MainGoStats.

Import GoStrings GoTime GoSort GoGit MainGo MainGoNotions GoFacts MainGoReplay.

(** *** The tally *)

Lemma tallyChange_frequency (type : ChangeType) (freq : gmap string Z)
    (change : ChangeEvent) :
  frequencyOf type (tallyChange freq change)
  = frequencyOf type freq + (if isType type change then 1 else 0).
Proof.
  unfold tallyChange, bump, frequencyOf, isType.
  destruct type, (Type_ change); simpl;
    rewrite ?lookup_insert_eq; try (rewrite lookup_insert_ne by discriminate);
    simpl; lia.
Qed.

Lemma tallyChanges_frequency (type : ChangeType) (l : list ChangeEvent)
    (freq : gmap string Z) :
  frequencyOf type (fold_left tallyChange l freq)
  = frequencyOf type freq + Z.of_nat (length (List.filter (isType type) l)).
Proof.
  revert freq. induction l as [|e l IH]; intros freq; simpl; [lia|].
  rewrite IH, tallyChange_frequency. destruct (isType type e); simpl; lia.
Qed.

Lemma tallyHistories_frequency (type : ChangeType) (l : list LineHistory)
    (freq : gmap string Z) :
  frequencyOf type (fold_left tallyHistory l freq)
  = frequencyOf type freq + total (List.map (eventsOf type) l).
Proof.
  revert freq. induction l as [|h l IH]; intros freq; simpl; [lia|].
  rewrite IH. unfold tallyHistory. rewrite tallyChanges_frequency.
  unfold eventsOf. lia.
Qed.

Lemma total_perm (l l' : list Z) : Permutation l l' -> total l = total l'.
Proof.
  induction 1 as [|x l l' _ IH|x y l|l l' l'' _ IH1 _ IH2]; simpl;
    [reflexivity | now rewrite IH | lia | congruence].
Qed.

Lemma applyFilePatches_frequency (pattern : string) (c : Commit)
    (patches : list FilePatch) (st : State) :
  changeFrequency (fold_left (applyFilePatch pattern c) patches st) = changeFrequency st.
Proof.
  apply (fold_left_preserves _ (fun s => changeFrequency s = changeFrequency st));
    [|reflexivity].
  intros s fp Hs. unfold applyFilePatch.
  destruct (To fp) as [path|]; [|exact Hs].
  destruct (negb (matches path pattern)); [exact Hs|].
  apply (fold_left_preserves _ (fun s => changeFrequency s = changeFrequency st));
    [|exact Hs].
  intros s1 chunk Hs1. unfold applyChunk. cbv zeta.
  destruct (GoGit.Type_ chunk); exact Hs1.
Qed.

(** An event of a history with its events in order is counted as [Created]
    once. *)
Lemma eventsOf_created (history : LineHistory) :
  eventsInOrder history -> eventsOf Created history = 1.
Proof.
  intros (first & mods & dels & Hc & Hf & Hm & Hd & _).
  assert (Hfirst : isType Created first = true) by (unfold isType; now rewrite Hf).
  unfold eventsOf. rewrite Hc. cbn [List.filter]. rewrite Hfirst.
  rewrite (filter_none (isType Created) (mods ++ dels)); [reflexivity|].
  intros e Hin. apply in_app_or in Hin. unfold isType.
  rewrite List.Forall_forall in Hm, Hd.
  destruct Hin as [Hin|Hin]; [rewrite (Hm e Hin) | rewrite (Hd e Hin)]; reflexivity.
Qed.

Lemma allEventsOf_created (h : gmap string LineHistory) :
  allInOrder h -> allEventsOf Created h = Z.of_nat (size h).
Proof.
  intros Hall. unfold allEventsOf. rewrite <- length_map_to_list.
  assert (Hl : List.Forall (fun kv => eventsInOrder (snd kv)) (map_to_list h)).
  { apply List.Forall_forall. intros [k history] Hin. simpl.
    apply (Hall k). apply elem_of_map_to_list, list_elem_of_In, Hin. }
  induction Hl as [|kv l Hkv _ IH]; simpl; [reflexivity|].
  rewrite IH, (eventsOf_created _ Hkv). lia.
Qed.

(** *** The sample *)

Lemma gather_length (now : Time) (l : list LineHistory) (acc : list Q) :
  (length (fold_left (gatherLifetime now) l acc) <= length acc + length l)%nat.
Proof.
  revert acc. induction l as [|h l IH]; intros acc; simpl; [lia|].
  eapply Nat.le_trans; [apply IH|]. unfold gatherLifetime.
  destruct (Qleb 0 _); [rewrite length_app; simpl; lia | lia].
Qed.

Lemma half_sum_bounds (lo hi x y : Q) :
  (lo <= x)%Q /\ (x <= hi)%Q -> (lo <= y)%Q /\ (y <= hi)%Q ->
  (lo <= (x + y) / 2)%Q /\ ((x + y) / 2 <= hi)%Q.
Proof.
  intros [H1 H2] [H3 H4]. split.
  - apply Qle_shift_div_l; [reflexivity|]. lra.
  - apply Qle_shift_div_r; [reflexivity|]. lra.
Qed.

Lemma nth_bounds (l : list Q) (i : nat) :
  StronglySorted Qle l -> (i < length l)%nat ->
  (nth 0 l 0 <= nth i l 0)%Q /\ (nth i l 0 <= nth (length l - 1) l 0)%Q.
Proof.
  intros Hs Hi. split; apply TrackerStatsMore.sorted_nth_le; try exact Hs; lia.
Qed.

(** *** The survival map *)

Lemma int_nonneg (t : Q) : (0 <= t)%Q -> 0 <= int t.
Proof.
  intros Ht. unfold int. apply Z.quot_pos; [|lia].
  unfold Qle in Ht. simpl in Ht. lia.
Qed.

(** The entry of a day is written by the greatest time point of that day,
    since the time points are visited in increasing order. *)
Lemma survival_last (f : Q -> Q) (l : list Q) (m : gmap Z Q) (a : Z) (v : Q) :
  StronglySorted Qle l ->
  fold_left (fun survival t => <[int t := f t]> survival) l m !! a = Some v ->
  (m !! a = Some v /\ forall t, In t l -> int t <> a)
  \/ exists t, In t l /\ int t = a /\ v = f t
               /\ forall t', In t' l -> int t' = a -> (t' <= t)%Q.
Proof.
  revert m. induction l as [|t l IH]; intros m Hs H; simpl in H.
  - left. split; [exact H | intros t []].
  - apply StronglySorted_inv in Hs as [Hl Ht]. rewrite List.Forall_forall in Ht.
    destruct (IH _ Hl H) as [[Hm Hnone]|(t0 & Hin & Hint & Hv & Hmax)].
    + destruct (decide (int t = a)) as [Heq|Hne].
      * right. exists t. rewrite Heq, lookup_insert_eq in Hm. injection Hm as <-.
        split; [now left|]. split; [exact Heq|]. split; [reflexivity|].
        intros t' [<-|Hin'] Hint'; [apply Qle_refl|].
        exfalso. exact (Hnone t' Hin' Hint').
      * left. rewrite lookup_insert_ne in Hm by exact Hne. split; [exact Hm|].
        intros t' [<-|Hin']; [exact Hne | apply Hnone, Hin'].
    + right. exists t0. split; [now right|]. split; [exact Hint|]. split; [exact Hv|].
      intros t' [<-|Hin'] Hint'; [apply Ht, Hin | apply Hmax; assumption].
Qed.

Lemma survival_keys (f : Q -> Q) (l : list Q) (m : gmap Z Q) (t : Q) :
  In t l ->
  is_Some (fold_left (fun survival t => <[int t := f t]> survival) l m !! int t).
Proof.
  intros Hin.
  apply (fold_left_hits _ (fun _ => True) (fun s => is_Some (s !! int t)) l t Hin);
    [auto| | |exact I].
  - intros s y Hs. destruct (decide (int y = int t)) as [Heq|Hne].
    + rewrite Heq, lookup_insert_eq. eauto.
    + rewrite lookup_insert_ne by exact Hne. exact Hs.
  - intros s _. rewrite lookup_insert_eq. eauto.
Qed.

End MainGoStats.

Module MainGoStatsExtras.

Import GoStrings GoTime GoSort GoGit MainGo MainGoNotions GoFacts MainGoReplay MainGoStats.

Section Statistics.

Variable math_Sqrt : Q -> Q.
Variable math_Log : Q -> Q.
Variable range : gmap string LineHistory -> list (string * LineHistory).
Hypothesis range_visits : forall m, range m ≡ₚ map_to_list m.

Local Abbreviation processCommit := (processCommit range).
Local Abbreviation updateFrequency := (updateFrequency range).
Local Abbreviation calculateStats := (calculateStats math_Sqrt math_Log range).
Local Abbreviation calculateSurvivalRate := (calculateSurvivalRate range).
Local Abbreviation fractionAt := (fractionAt range).
Local Abbreviation analyzeRepository := (analyzeRepository math_Sqrt math_Log range).

Lemma range_length (m : gmap string LineHistory) :
  length (List.map snd (range m)) = size m.
Proof.
  rewrite length_map, (Permutation_length (range_visits m)). apply length_map_to_list.
Qed.

Lemma range_empty : range ∅ = [].
Proof. apply Permutation_nil. symmetry. rewrite <- map_to_list_empty. apply range_visits. Qed.

Lemma updateFrequency_frequency (type : ChangeType) (st : State) :
  frequencyOf type (changeFrequency (updateFrequency st))
  = frequencyOf type (changeFrequency st) + allEventsOf type (lineHistories st).
Proof.
  unfold MainGo.updateFrequency. simpl. rewrite tallyHistories_frequency. f_equal.
  unfold allEventsOf. rewrite List.map_map. apply total_perm, Permutation_map, range_visits.
Qed.

(** X18. The tally of change events is cumulative: a commit after which the
    tally loop runs adds, for each type, the number of events of that type
    in all the histories tracked so far, the old ones included; any other
    commit leaves the tally as it is. With the events of every history in
    order, what is added to [Created] is the number of histories. *)
Theorem tally_adds_all_events_after_each_commit (filePattern : string) (st : State)
    (c : Commit) (type : ChangeType) :
  let st' := processCommit filePattern st c in
  frequencyOf type (changeFrequency st')
  = frequencyOf type (changeFrequency st)
    + (if tallied c then allEventsOf type (lineHistories st') else 0)
  /\ (allInOrder (lineHistories st) -> tallied c = true ->
      frequencyOf Created (changeFrequency st')
      = frequencyOf Created (changeFrequency st) + Z.of_nat (size (lineHistories st'))).
Proof.
  intros st'.
  assert (Hlaw : forall ty,
            frequencyOf ty (changeFrequency st')
            = frequencyOf ty (changeFrequency st)
              + (if tallied c then allEventsOf ty (lineHistories st') else 0)).
  { intros ty. unfold st', MainGo.processCommit, tallied.
    destruct (Tree c) as [files|]; cbn [isNil negb andb]; [|lia].
    destruct (0 <? NumParents c)%nat.
    - destruct (Parent c); cbn [isNil negb andb]; [|simpl; lia].
      destruct (Patch c) as [patches|]; cbn [isNil negb andb]; [|simpl; lia].
      rewrite updateFrequency_frequency, applyFilePatches_frequency. reflexivity.
    - rewrite updateFrequency_frequency. reflexivity. }
  split; [apply Hlaw|].
  intros Hall Htallied. rewrite Hlaw, Htallied. f_equal.
  apply allEventsOf_created.
  apply (MainGoClaims.processCommit_inOrder range), Hall.
Qed.

(** X19. When no commit of the history has a patch that is read, because
    the commits have no parent or their tree, parent or patch cannot be read,
    the analysis succeeds with no history at all and with statistics that
    are all zero, except for the count of the lines of HEAD. *)
Theorem history_without_patches_gives_zero_statistics (r : Repository) (ref : string)
    (commits : list Commit) (filePattern : string) (nowStats nowSurvival : Time) :
  Head r = inr ref ->
  Log r ref = Commits commits ->
  List.Forall (fun c => hasPatch c = false) commits ->
  analyzeRepository (inr r) filePattern nowStats nowSurvival
  = Ok ({| MedianLifetime := 0; MeanLifetime := 0; StdDevLifetime := 0; HalfLife := 0;
           TotalLinesTracked := currentLinesOf r filePattern;
           LinesWithChanges := 0; OldestCode := 0; NewestCode := 0;
           SurvivalRate := ∅; ChangeFrequency := ∅; AverageEditSize := 0 |}, ∅).
Proof.
  intros Hhead Hlog Hall. unfold MainGo.analyzeRepository. rewrite Hhead, Hlog.
  assert (Hst : forall st,
            lineHistories st = ∅ /\ changeFrequency st = ∅
            /\ totalEdits st = 0 /\ totalEditSize st = 0 ->
            let st' := fold_left (processCommit filePattern) commits st in
            lineHistories st' = ∅ /\ changeFrequency st' = ∅
            /\ totalEdits st' = 0 /\ totalEditSize st' = 0).
  { clear Hlog. induction Hall as [|c rest Hc _ IH]; intros st Hst; [exact Hst|].
    simpl. apply IH. destruct Hst as (H1 & H2 & H3 & H4).
    destruct (processCommit_without_patch range filePattern st c Hc) as (P1 & P2 & P3).
    split; [congruence|]. split; [|split; congruence].
    revert Hc. unfold hasPatch, MainGo.processCommit.
    destruct (Tree c) as [files|]; [|intros _; exact H2].
    assert (Hup : forall s, lineHistories s = ∅ -> changeFrequency s = ∅ ->
                    changeFrequency (updateFrequency s) = ∅).
    { intros s Hs1 Hs2. unfold MainGo.updateFrequency. simpl.
      rewrite Hs1, range_empty. exact Hs2. }
    destruct (0 <? NumParents c)%nat; simpl.
    - destruct (Parent c); simpl; [|intros _; exact H2].
      destruct (Patch c); simpl; [discriminate | intros _; exact H2].
    - intros _. apply Hup; assumption. }
  destruct (Hst emptyState) as (H1 & H2 & H3 & H4); [repeat split|].
  set (st := fold_left (processCommit filePattern) commits emptyState) in *.
  unfold finish, MainGo.calculateStats, MainGo.calculateSurvivalRate.
  rewrite H1, H2, H3, range_empty. reflexivity.
Qed.

(** X20. With a sample that is not empty, the statistics of order lie
    within it: [LinesWithChanges] is its size, which is at most the number of
    histories; [NewestCode] is not negative and is its least value,
    [OldestCode] its greatest, and the median lies between the two. *)
Theorem statistics_lie_within_the_sample (now : Time)
    (histories : gmap string LineHistory) :
  let sample := fold_left (gatherLifetime now) (List.map snd (range histories)) [] in
  let stats := calculateStats now histories in
  sample <> [] ->
  LinesWithChanges stats = len sample
  /\ len sample <= Z.of_nat (size histories)
  /\ (0 <= NewestCode stats)%Q
  /\ In (NewestCode stats) sample
  /\ In (OldestCode stats) sample
  /\ (forall x, In x sample -> (NewestCode stats <= x)%Q /\ (x <= OldestCode stats)%Q)
  /\ (NewestCode stats <= MedianLifetime stats)%Q
  /\ (MedianLifetime stats <= OldestCode stats)%Q.
Proof.
  intros sample stats Hne.
  set (sorted := Float64s sample).
  assert (Hlen : length sorted = length sample) by apply Float64s_length.
  assert (Hpos : (0 < length sample)%nat) by (destruct sample; [congruence | simpl; lia]).
  assert (Hsorted : StronglySorted Qle sorted) by apply Float64s_sorted.
  assert (Hnonneg : List.Forall (fun x => (0 <= x)%Q) sorted).
  { apply Float64s_Forall, MainGoRemarks.gather_nonneg. constructor. }
  set (lo := nth 0 sorted 0%Q). set (hi := nth (length sorted - 1) sorted 0%Q).
  assert (Hfields : LinesWithChanges stats = len sample
                    /\ NewestCode stats = lo /\ OldestCode stats = hi
                    /\ MedianLifetime stats = medianOf sorted).
  { unfold stats, MainGo.calculateStats. fold sample.
    destruct (len sample =? 0)%Z eqn:E; [apply Z.eqb_eq in E; unfold len in E; lia|].
    cbv zeta. fold sorted. simpl.
    split; [unfold len; now rewrite Hlen|].
    split; [reflexivity|]. split; [|reflexivity].
    unfold hi, index, len. f_equal. lia. }
  destruct Hfields as (F1 & F2 & F3 & F4).
  assert (Hin : forall x, In x sorted -> (lo <= x)%Q /\ (x <= hi)%Q).
  { intros x Hx. destruct (In_nth sorted x 0%Q Hx) as [i [Hi <-]].
    apply nth_bounds; assumption. }
  assert (Hnth : forall i, (i < length sorted)%nat ->
                   (lo <= nth i sorted 0)%Q /\ (nth i sorted 0 <= hi)%Q).
  { intros i Hi. apply nth_bounds; assumption. }
  assert (Hback : forall x, In x sorted -> In x sample).
  { intros x Hx. eapply Permutation_in; [apply Permutation_sym, Float64s_perm | exact Hx]. }
  rewrite F1, F2, F3, F4.
  split; [reflexivity|].
  split; [|split; [|split; [|split; [|split; [|split]]]]].
  - unfold len, sample.
    pose proof (gather_length now (List.map snd (range histories)) []) as Hg.
    rewrite range_length in Hg. simpl in Hg. lia.
  - rewrite List.Forall_forall in Hnonneg. apply Hnonneg, nth_In. lia.
  - apply Hback, nth_In. lia.
  - apply Hback, nth_In. lia.
  - intros x Hx. apply Hin. eapply Permutation_in; [apply Float64s_perm | exact Hx].
  - unfold medianOf, index, len. destruct (Z.of_nat (length sorted) mod 2 =? 0) eqn:E.
    + apply Z.eqb_eq in E.
      apply (half_sum_bounds lo hi); apply Hnth; Z.div_mod_to_equations; lia.
    + apply Hnth. Z.div_mod_to_equations. lia.
  - unfold medianOf, index, len. destruct (Z.of_nat (length sorted) mod 2 =? 0) eqn:E.
    + apply Z.eqb_eq in E.
      apply (half_sum_bounds lo hi); apply Hnth; Z.div_mod_to_equations; lia.
    + apply Hnth. Z.div_mod_to_equations. lia.
Qed.

Lemma fractionAt_bounds (now : Time) (histories : gmap string LineHistory) (t : Q) :
  (0 <= fractionAt now histories t)%Q /\ (fractionAt now histories t <= 1)%Q.
Proof.
  unfold MainGo.fractionAt. cbv zeta.
  set (alive := List.filter _ _).
  assert (Ha : (length alive <= size histories)%nat).
  { unfold alive. rewrite <- range_length. apply List.filter_length_le. }
  unfold float64, len.
  destruct (size histories) as [|n] eqn:En.
  - replace (length alive) with 0%nat by lia. split; discriminate.
  - assert (Hn : (0 < inject_Z (Z.of_nat (S n)))%Q)
      by (change 0%Q with (inject_Z 0); rewrite <- Zlt_Qlt; lia).
    split.
    + apply Qle_shift_div_l; [exact Hn|]. rewrite Qmult_0_l.
      change 0%Q with (inject_Z 0). rewrite <- Zle_Qle. lia.
    + apply Qle_shift_div_r; [exact Hn|]. rewrite Qmult_1_l.
      rewrite <- Zle_Qle. lia.
Qed.

(** X21. The survival map has an entry for the whole days of every value of
    the sample and no other; a day is not negative and its fraction lies
    between zero and one; when several values share a day, the entry holds
    the fraction at the greatest of them, which is the lowest of their
    fractions; and the fractions do not increase with the day. *)
Theorem survival_map_holds_the_lowest_fraction_of_each_day (now : Time)
    (histories : gmap string LineHistory) :
  let sample := fold_left (gatherLifetime now) (List.map snd (range histories)) [] in
  let survival := calculateSurvivalRate now histories in
  (forall t, In t sample -> is_Some (survival !! int t))
  /\ (forall a v, survival !! a = Some v ->
        0 <= a /\ (0 <= v)%Q /\ (v <= 1)%Q
        /\ exists t, In t sample /\ int t = a /\ v = fractionAt now histories t
                     /\ forall t', In t' sample -> int t' = a ->
                          (t' <= t)%Q /\ (v <= fractionAt now histories t')%Q)
  /\ (forall a1 a2 v1 v2, survival !! a1 = Some v1 -> survival !! a2 = Some v2 ->
        a1 < a2 -> (v2 <= v1)%Q).
Proof.
  intros sample survival.
  assert (Hperm : forall t, In t sample <-> In t (Float64s sample)).
  { intros t. split; apply Permutation_in;
      [apply Float64s_perm | apply Permutation_sym, Float64s_perm]. }
  assert (Hnonneg : List.Forall (fun x => (0 <= x)%Q) sample).
  { apply MainGoRemarks.gather_nonneg. constructor. }
  rewrite List.Forall_forall in Hnonneg.
  split; [|split].
  - intros t Hin. unfold survival, MainGo.calculateSurvivalRate. cbv zeta. fold sample.
    apply (survival_keys (fractionAt now histories)), Hperm, Hin.
  - intros a v Hv. unfold survival, MainGo.calculateSurvivalRate in Hv.
    cbv zeta in Hv. fold sample in Hv.
    apply (survival_last (fractionAt now histories)) in Hv;
      [|apply Float64s_sorted].
    destruct Hv as [[Hv _]|(t & Hin & Hint & -> & Hmax)];
      [rewrite lookup_empty in Hv; discriminate|].
    apply Hperm in Hin.
    split; [rewrite <- Hint; apply int_nonneg, Hnonneg, Hin|].
    split; [apply fractionAt_bounds|]. split; [apply fractionAt_bounds|].
    exists t. split; [exact Hin|]. split; [exact Hint|]. split; [reflexivity|].
    intros t' Hin' Hint'.
    assert (Hle : (t' <= t)%Q) by (apply Hmax; [apply Hperm, Hin' | exact Hint']).
    split; [exact Hle|]. apply MainGoRemarks.fractionAt_antitone, Hle.
  - intros a1 a2 v1 v2. apply MainGoRemarks.survival_rate_non_increasing.
Qed.

End Statistics.

Import MainGoExamples MainGoRuns.

Lemma tally_adds_all_events_after_each_commit_witness :
  frequencyOf Created (changeFrequency (MainGo.processCommit map_to_list "*.go" (visit [c2]) c1))
  = frequencyOf Created (changeFrequency (visit [c2]))
    + (if tallied c1
       then allEventsOf Created
              (lineHistories (MainGo.processCommit map_to_list "*.go" (visit [c2]) c1))
       else 0).
Proof.
  exact (proj1 (tally_adds_all_events_after_each_commit map_to_list
                  (fun m => Permutation_refl (map_to_list m))
                  "*.go" (visit [c2]) c1 Created)).
Defined.

Lemma history_without_patches_gives_zero_statistics_witness :
  exists stats,
    MainGo.analyzeRepository anySqrt anyLog map_to_list (inr rootOnly) "*.go" now now
    = Ok (stats, ∅)
    /\ HalfLife stats = 0%Q /\ ChangeFrequency stats = ∅.
Proof.
  eexists. split.
  - apply (history_without_patches_gives_zero_statistics anySqrt anyLog map_to_list
             (fun m => Permutation_refl (map_to_list m))
             rootOnly "r0" [root] "*.go" now now).
    + reflexivity.
    + reflexivity.
    + constructor; [reflexivity | constructor].
  - split; reflexivity.
Defined.

Lemma statistics_lie_within_the_sample_witness :
  (NewestCode (MainGo.calculateStats anySqrt anyLog map_to_list now tracked)
   <= MedianLifetime (MainGo.calculateStats anySqrt anyLog map_to_list now tracked))%Q
  /\ (MedianLifetime (MainGo.calculateStats anySqrt anyLog map_to_list now tracked)
      <= OldestCode (MainGo.calculateStats anySqrt anyLog map_to_list now tracked))%Q.
Proof.
  assert (Hne : fold_left (gatherLifetime now) (List.map snd (map_to_list tracked)) [] <> [])
    by (vm_compute; discriminate).
  destruct (statistics_lie_within_the_sample anySqrt anyLog map_to_list
              (fun m => Permutation_refl (map_to_list m)) now tracked Hne)
    as (_ & _ & _ & _ & _ & _ & H1 & H2).
  split; [exact H1 | exact H2].
Defined.

Lemma survival_map_holds_the_lowest_fraction_of_each_day_witness :
  match MainGo.calculateSurvivalRate map_to_list now tracked !! 20 with
  | Some v => 0 <= 20 /\ (0 <= v)%Q /\ (v <= 1)%Q
  | None => False
  end.
Proof.
  destruct (MainGo.calculateSurvivalRate map_to_list now tracked !! 20) as [v|] eqn:E;
    [|vm_compute in E; discriminate].
  pose proof (survival_map_holds_the_lowest_fraction_of_each_day map_to_list
                (fun m => Permutation_refl (map_to_list m)) now tracked) as H.
  cbv zeta in H. destruct H as (_ & H & _).
  destruct (H 20 v E) as (H1 & H2 & H3 & _).
  split; [exact H1|]. split; [exact H2 | exact H3].
Defined.

End MainGoStatsExtras.

Module MainGoMoreExtras.

Import GoStrings GoTime GoSort GoGit MainGo MainGoNotions GoFacts MainGoReplay MainGoStats.

(** *** The sample in terms of the times of the histories *)

Lemma Hours_nonneg (d : Duration) : (0 <= Hours d)%Q <-> 0 <= d.
Proof.
  split; intros H.
  - destruct (Z_lt_le_dec d 0) as [Hd|Hd]; [|exact Hd]. exfalso.
    assert (Hneg : (Hours d < 0)%Q).
    { rewrite Hours_exact. unfold Qdiv.
      assert (HH : (0 < / inject_Z Hour)%Q) by reflexivity.
      assert (Hd' : (inject_Z d < 0)%Q)
        by (change 0%Q with (inject_Z 0); rewrite <- Zlt_Qlt; exact Hd).
      rewrite <- (Qmult_0_l (/ inject_Z Hour)).
      apply Qmult_lt_compat_r; assumption. }
    exact (Qlt_not_le _ _ Hneg H).
  - rewrite Hours_exact. apply Qle_shift_div_l; [reflexivity|].
    rewrite Qmult_0_l. change 0%Q with (inject_Z 0). rewrite <- Zle_Qle. exact H.
Qed.

Lemma Sub_nonneg (t u : Time) : 0 <= Sub t u <-> u <= t.
Proof.
  unfold Sub, minDuration, maxDuration.
  destruct (t - u <? - 2 ^ 63) eqn:E1; [apply Z.ltb_lt in E1; lia|].
  apply Z.ltb_ge in E1.
  destruct (2 ^ 63 - 1 <? t - u) eqn:E2; [apply Z.ltb_lt in E2; lia|].
  lia.
Qed.

Lemma lifetime_nonneg (now : Time) (history : LineHistory) :
  Qleb 0 (days (Sub (endTimeOf now history) (FirstSeen history)))
  = (FirstSeen history <=? endTimeOf now history).
Proof.
  assert (Hiff : (0 <= days (Sub (endTimeOf now history) (FirstSeen history)))%Q
                 <-> FirstSeen history <= endTimeOf now history).
  { rewrite <- Sub_nonneg, <- Hours_nonneg. unfold days. split; intros H.
    - apply Qnot_lt_le. intros Hneg. apply (Qlt_not_le _ _ Hneg) in H || idtac.
      assert (Hq : (Hours (Sub (endTimeOf now history) (FirstSeen history)) / 24 < 0)%Q).
      { unfold Qdiv. rewrite <- (Qmult_0_l (/ 24)).
        apply Qmult_lt_compat_r; [reflexivity | exact Hneg]. }
      exact (Qlt_not_le _ _ Hq H).
    - apply Qle_shift_div_l; [reflexivity|]. now rewrite Qmult_0_l. }
  destruct (FirstSeen history <=? endTimeOf now history) eqn:E.
  - apply Qleb_le, Hiff, Z.leb_le, E.
  - apply not_true_iff_false. intros H. apply Qleb_le, Hiff in H.
    apply Z.leb_gt in E. lia.
Qed.

Lemma gather_filter (now : Time) (l : list LineHistory) (acc : list Q) :
  fold_left (gatherLifetime now) l acc
  = acc ++ List.map (fun history => days (Sub (endTimeOf now history) (FirstSeen history)))
             (List.filter (fun history => FirstSeen history <=? endTimeOf now history) l).
Proof.
  revert acc. induction l as [|h l IH]; intros acc; simpl; [now rewrite app_nil_r|].
  rewrite IH. unfold gatherLifetime. cbv zeta. rewrite lifetime_nonneg.
  destruct (FirstSeen h <=? endTimeOf now h); simpl; [|reflexivity].
  now rewrite <- app_assoc.
Qed.

(** *** The lines of HEAD *)

Lemma Split_length (s : string) : length (Split s) = S (newlines s).
Proof.
  induction s as [|c rest IH]; simpl; [reflexivity|].
  destruct (Ascii.eqb c newline); simpl; [now rewrite IH|].
  destruct (Split rest) as [|piece more]; simpl in *; [discriminate | exact IH].
Qed.

Lemma countLines_total (filePattern : string) (files : list GoGit.File) (n : Z) :
  fold_left (countLines filePattern) files n
  = n + total (List.map (linesIn filePattern) files).
Proof.
  revert n. induction files as [|f files IH]; intros n; simpl; [lia|].
  rewrite IH. unfold countLines, linesIn.
  destruct (matches (Name f) filePattern); [|lia].
  destruct (Contents f) as [contents|]; [|lia].
  unfold len. rewrite Split_length. lia.
Qed.

Section Statistics.

Variable math_Sqrt : Q -> Q.
Variable math_Log : Q -> Q.
Variable range : gmap string LineHistory -> list (string * LineHistory).

Local Abbreviation calculateStats := (calculateStats math_Sqrt math_Log range).
Local Abbreviation analyzeRepository := (analyzeRepository math_Sqrt math_Log range).

(** X26. The sample of lifetimes is made of the histories whose end, the
    deletion or the time of the analysis, is not before the first sighting,
    in the order they are visited: a history that ends at its first sighting
    is in it with a lifetime of zero days, one that ends before it is left
    out, and [LinesWithChanges] is the number of the histories in it. *)
Theorem sample_holds_the_histories_that_do_not_end_before_they_begin (now : Time)
    (histories : gmap string LineHistory) :
  let kept := List.filter (fun history => FirstSeen history <=? endTimeOf now history)
                (List.map snd (range histories)) in
  fold_left (gatherLifetime now) (List.map snd (range histories)) []
  = List.map (fun history => days (Sub (endTimeOf now history) (FirstSeen history))) kept
  /\ LinesWithChanges (calculateStats now histories) = len kept.
Proof.
  intros kept. pose proof (gather_filter now (List.map snd (range histories)) []) as Hg.
  simpl in Hg. fold kept in Hg. split; [exact Hg|].
  unfold MainGo.calculateStats. rewrite Hg. unfold len at 1. rewrite length_map.
  destruct (Z.of_nat (length kept) =? 0) eqn:E.
  - apply Z.eqb_eq in E. unfold len. simpl. lia.
  - cbv zeta. simpl. unfold len. now rewrite Float64s_length, length_map.
Qed.

(** X27. [TotalLinesTracked] counts the lines of the files of HEAD, whatever
    the commits and the histories are: every file of the tree of HEAD that
    matches the pattern and can be read adds one more than the number of its
    newlines, blank lines included, so that an empty file counts as one
    line. *)
Theorem total_lines_are_the_lines_of_head (r : Repository) (head : string)
    (headCommit : Commit) (files : list GoGit.File) (commits : list Commit)
    (filePattern : string) (nowStats nowSurvival : Time) :
  Head r = inr head ->
  CommitObject r head = Some headCommit ->
  Tree headCommit = Some files ->
  Log r head = Commits commits ->
  exists stats histories,
    analyzeRepository (inr r) filePattern nowStats nowSurvival = Ok (stats, histories)
    /\ TotalLinesTracked stats = total (List.map (linesIn filePattern) files)
    /\ Z.of_nat (length (List.filter (fun f => matches (Name f) filePattern
                                                && negb (isNil (Contents f))) files))
       <= TotalLinesTracked stats.
Proof.
  intros Hhead Hobj Htree Hlog. unfold MainGo.analyzeRepository.
  rewrite Hhead, Hlog. eexists _, _. split; [reflexivity|].
  unfold finish. cbv zeta. cbn [TotalLinesTracked].
  unfold currentLinesOf. rewrite Hhead, Hobj, Htree, countLines_total.
  split; [lia|]. clear.
  induction files as [|f files IH]; simpl; [lia|].
  unfold linesIn at 1. destruct (matches (Name f) filePattern); simpl; [|lia].
  destruct (Contents f); simpl; lia.
Qed.

End Statistics.

Import MainGoExamples MainGoRuns.

Lemma total_lines_are_the_lines_of_head_witness :
  exists stats histories,
    MainGo.analyzeRepository anySqrt anyLog map_to_list (inr repo) "*.go" now now
    = Ok (stats, histories)
    /\ TotalLinesTracked stats = 2.
Proof.
  destruct (total_lines_are_the_lines_of_head anySqrt anyLog map_to_list repo "h2" c2
              [file ("x" +:+ nl +:+ "y")] [c2; c1; root] "*.go" now now)
    as (stats & histories & H1 & H2 & _); try reflexivity.
  exists stats, histories. split; [exact H1|]. rewrite H2. reflexivity.
Defined.

End MainGoMoreExtras.

Module MainGoEdits.

Import GoStrings GoTime GoSort GoGit MainGo MainGoNotions GoFacts MainGoReplay MainGoStats.

Lemma editBytes_app (l1 l2 : list Chunk) :
  editBytes (l1 ++ l2) = editBytes l1 + editBytes l2.
Proof.
  unfold editBytes. induction l1 as [|c l1 IH]; simpl; [lia|]. rewrite IH. lia.
Qed.

Lemma counts_refl (st : State) : counts st [] st.
Proof. unfold counts, editBytes. simpl. lia. Qed.

Lemma counts_trans (st0 st1 st2 : State) (l1 l2 : list Chunk) :
  counts st0 l1 st1 -> counts st1 l2 st2 -> counts st0 (l1 ++ l2) st2.
Proof.
  unfold counts. intros [A1 A2] [B1 B2]. rewrite length_app, editBytes_app. lia.
Qed.

Lemma applyChunks_counts (c : Commit) (path : string) (chunks : list Chunk) (st : State) :
  counts st (List.filter isEdit chunks) (fold_left (applyChunk c path) chunks st).
Proof.
  revert st. induction chunks as [|chunk chunks IH]; intros st; [apply counts_refl|].
  cbn [fold_left List.filter].
  assert (Hone : counts st (if isEdit chunk then [chunk] else []) (applyChunk c path st chunk)).
  { unfold applyChunk, isEdit, counts, editBytes. cbv zeta.
    destruct (GoGit.Type_ chunk); simpl; lia. }
  destruct (isEdit chunk).
  - apply (counts_trans st (applyChunk c path st chunk) _ [chunk]
             (List.filter isEdit chunks)); [exact Hone | apply IH].
  - apply (counts_trans st (applyChunk c path st chunk) _ []
             (List.filter isEdit chunks)); [exact Hone | apply IH].
Qed.

Lemma applyFilePatches_counts (pattern : string) (c : Commit) (patches : list FilePatch)
    (st : State) :
  counts st (concat (List.map (editsOfPatch pattern) patches))
    (fold_left (applyFilePatch pattern c) patches st).
Proof.
  revert st. induction patches as [|fp patches IH]; intros st; [apply counts_refl|].
  cbn [fold_left List.map concat].
  apply (counts_trans st (applyFilePatch pattern c st fp) _ (editsOfPatch pattern fp)
           (concat (List.map (editsOfPatch pattern) patches))); [|apply IH].
  unfold applyFilePatch, editsOfPatch.
  destruct (To fp) as [path|]; [|apply counts_refl].
  destruct (matches path pattern); simpl; [apply applyChunks_counts | apply counts_refl].
Qed.

Section Edits.

Variable math_Sqrt : Q -> Q.
Variable math_Log : Q -> Q.
Variable range : gmap string LineHistory -> list (string * LineHistory).

Local Abbreviation processCommit := (processCommit range).
Local Abbreviation analyzeRepository := (analyzeRepository math_Sqrt math_Log range).

Lemma processCommit_counts (pattern : string) (st : State) (c : Commit) :
  counts st (editsOf pattern c) (processCommit pattern st c).
Proof.
  unfold MainGo.processCommit, editsOf, hasPatch.
  destruct (Tree c) as [files|]; cbn [isNil negb andb]; [|apply counts_refl].
  destruct (0 <? NumParents c)%nat; cbn [andb];
    [|unfold counts, editBytes; simpl; lia].
  destruct (Parent c); cbn [negb andb]; [|unfold counts, editBytes; simpl; lia].
  destruct (Patch c) as [patches|]; cbn [isNil negb];
    [|unfold counts, editBytes; simpl; lia].
  destruct (applyFilePatches_counts pattern c patches
              {| lineHistories := lineHistories st; changeFrequency := changeFrequency st;
                 totalEditSize := totalEditSize st; totalEdits := totalEdits st;
                 totalLines := fold_left (countLines pattern) files (totalLines st) |})
    as [H1 H2].
  split; [exact H1 | exact H2].
Qed.

Lemma processCommits_counts (pattern : string) (commits : list Commit) (st : State) :
  counts st (allEdits pattern commits) (fold_left (processCommit pattern) commits st).
Proof.
  revert st. induction commits as [|c commits IH]; intros st; [apply counts_refl|].
  cbn [fold_left]. unfold allEdits. cbn [List.map concat].
  apply (counts_trans st (processCommit pattern st c) _ (editsOf pattern c)
           (concat (List.map (editsOf pattern) commits)));
    [apply processCommit_counts | apply IH].
Qed.

Lemma calculateStats_no_edit_size (now : Time) (histories : gmap string LineHistory) :
  AverageEditSize (calculateStats math_Sqrt math_Log range now histories) = 0%Q.
Proof.
  unfold calculateStats. cbv zeta.
  destruct (len _ =? 0); reflexivity.
Qed.

(** X28. [AverageEditSize] is the mean number of bytes of the chunks that
    count as edits: the added and the deleted chunks, not the unchanged
    ones, of the patches of matching files in the commits whose patch is
    read; a chunk counts whole, blank lines included, whether or not its
    lines are tracked. Without such a chunk the value is zero. *)
Theorem average_edit_size_is_the_mean_size_of_the_changed_chunks (r : Repository)
    (ref : string) (commits : list Commit) (filePattern : string)
    (nowStats nowSurvival : Time) :
  Head r = inr ref ->
  Log r ref = Commits commits ->
  let edits := allEdits filePattern commits in
  exists stats histories,
    analyzeRepository (inr r) filePattern nowStats nowSurvival = Ok (stats, histories)
    /\ AverageEditSize stats
       = if 0 <? len edits
         then (float64 (editBytes edits) / float64 (len edits))%Q
         else 0%Q.
Proof.
  intros Hhead Hlog edits. unfold MainGo.analyzeRepository. rewrite Hhead, Hlog.
  eexists _, _. split; [reflexivity|].
  destruct (processCommits_counts filePattern commits emptyState) as [H1 H2].
  fold edits in H1, H2. simpl in H1, H2.
  unfold finish. cbv zeta. cbn [AverageEditSize].
  rewrite H1, H2, calculateStats_no_edit_size. reflexivity.
Qed.

End Edits.

Import MainGoExamples MainGoRuns.

Lemma average_edit_size_is_the_mean_size_of_the_changed_chunks_witness :
  exists stats histories,
    MainGo.analyzeRepository anySqrt anyLog map_to_list (inr repo) "*.go" now now
    = Ok (stats, histories)
    /\ (AverageEditSize stats == 1)%Q.
Proof.
  destruct (average_edit_size_is_the_mean_size_of_the_changed_chunks anySqrt anyLog
              map_to_list repo "h2" [c2; c1; root] "*.go" now now)
    as (stats & histories & H1 & H2); try reflexivity.
  exists stats, histories. split; [exact H1|]. rewrite H2. reflexivity.
Defined.

End MainGoEdits.

(** ** Facts about sorting and loops *)

Module GoSortFacts.

Import GoStrings GoSortMore GoFacts.

Section Insertion.

Context {A : Type} (leb : A -> A -> bool).
Hypothesis leb_total : forall x y, leb x y = true \/ leb y x = true.
Hypothesis leb_trans : forall x y z, leb x y = true -> leb y z = true -> leb x z = true.
Hypothesis leb_antisym : forall x y, leb x y = true -> leb y x = true -> x = y.

Local Abbreviation le := (fun x y => leb x y = true).

Lemma insertBy_perm (x : A) (l : list A) : Permutation (x :: l) (insertBy leb x l).
Proof.
  induction l as [|y l IH]; simpl; [apply Permutation_refl|].
  destruct (leb x y); [apply Permutation_refl|].
  eapply perm_trans; [apply perm_swap|]. apply perm_skip, IH.
Qed.

Lemma sortBy_perm (l : list A) : Permutation l (sortBy leb l).
Proof.
  induction l as [|x l IH]; simpl; [apply perm_nil|].
  eapply perm_trans; [apply perm_skip, IH | apply insertBy_perm].
Qed.

Lemma insertBy_sorted (x : A) (l : list A) :
  StronglySorted le l -> StronglySorted le (insertBy leb x l).
Proof.
  induction l as [|y l IH]; simpl; intros Hs.
  - constructor; constructor.
  - apply StronglySorted_inv in Hs as Hinv. destruct Hinv as [Hl Hy].
    destruct (leb x y) eqn:E.
    + constructor; [exact Hs|]. constructor; [exact E|].
      eapply List.Forall_impl; [|exact Hy]. intros z Hz. now apply (leb_trans x y z).
    + constructor; [apply IH, Hl|].
      eapply Permutation_Forall; [apply insertBy_perm|].
      constructor; [|exact Hy].
      destruct (leb_total x y) as [H|H]; [congruence | exact H].
Qed.

Lemma sortBy_sorted (l : list A) : StronglySorted le (sortBy leb l).
Proof.
  induction l as [|x l IH]; simpl; [constructor | apply insertBy_sorted, IH].
Qed.

(** A list has one sorted arrangement. *)
Lemma sorted_unique (l l' : list A) :
  StronglySorted le l -> StronglySorted le l' -> Permutation l l' -> l = l'.
Proof.
  intros Hs. revert l'. induction Hs as [|x l Hs IH Hx]; intros l' Hs' Hp.
  - apply Permutation_nil in Hp. now subst.
  - destruct l' as [|y l']; [apply Permutation_sym, Permutation_nil in Hp; discriminate|].
    apply StronglySorted_inv in Hs' as [Hs' Hy].
    rewrite List.Forall_forall in Hx, Hy.
    assert (Hxy : x = y).
    { assert (Hin1 : In x (y :: l')) by (eapply Permutation_in; [exact Hp | now left]).
      assert (Hin2 : In y (x :: l))
        by (eapply Permutation_in; [apply Permutation_sym, Hp | now left]).
      destruct Hin1 as [->|Hin1]; [reflexivity|].
      destruct Hin2 as [->|Hin2]; [reflexivity|].
      apply leb_antisym; [apply Hx, Hin2 | apply Hy, Hin1]. }
    subst y. f_equal. apply IH; [exact Hs'|]. eapply Permutation_cons_inv, Hp.
Qed.

(** The result of sorting depends on the values, not on their order. *)
Lemma sortBy_of_perm (l l' : list A) : Permutation l l' -> sortBy leb l = sortBy leb l'.
Proof.
  intros Hp. apply sorted_unique; try apply sortBy_sorted.
  eapply perm_trans; [apply Permutation_sym, sortBy_perm|].
  eapply perm_trans; [exact Hp | apply sortBy_perm].
Qed.

Lemma sortBy_sorted_id (l : list A) : StronglySorted le l -> sortBy leb l = l.
Proof.
  intros Hs. apply sorted_unique; [apply sortBy_sorted | exact Hs|].
  apply Permutation_sym, sortBy_perm.
Qed.

End Insertion.

Lemma sorted_app {A : Type} (R : A -> A -> Prop) (l1 l2 : list A) :
  StronglySorted R (l1 ++ l2) ->
  StronglySorted R l1 /\ StronglySorted R l2
  /\ forall x y, In x l1 -> In y l2 -> R x y.
Proof.
  induction l1 as [|a l1 IH]; simpl; intros Hs.
  - split; [constructor|]. split; [exact Hs|]. intros x y [].
  - apply StronglySorted_inv in Hs as [Hs Ha].
    destruct (IH Hs) as (H1 & H2 & H3).
    apply List.Forall_app in Ha as [Ha1 Ha2]. rewrite List.Forall_forall in Ha2.
    split; [now constructor|]. split; [exact H2|].
    intros x y [<-|Hx] Hy; [apply Ha2, Hy | apply H3; assumption].
Qed.

Lemma sorted_strict (l : list Z) :
  StronglySorted (fun x y => Z.leb x y = true) l -> NoDup l ->
  StronglySorted Z.lt l.
Proof.
  induction 1 as [|x l Hs IH Hx]; intros Hnd; [constructor|].
  apply NoDup_cons in Hnd as [Hnotin Hnd].
  constructor; [apply IH, Hnd|].
  apply List.Forall_forall. intros y Hy. rewrite List.Forall_forall in Hx.
  assert (x <> y) by (intros ->; apply Hnotin, list_elem_of_In, Hy).
  specialize (Hx y Hy). apply Z.leb_le in Hx. lia.
Qed.

Lemma Zleb_total (x y : Z) : Z.leb x y = true \/ Z.leb y x = true.
Proof. destruct (Z.leb_spec x y); [now left | right; apply Z.leb_le; lia]. Qed.

Lemma Zleb_trans (x y z : Z) : Z.leb x y = true -> Z.leb y z = true -> Z.leb x z = true.
Proof. rewrite !Z.leb_le. lia. Qed.

Lemma Zleb_antisym (x y : Z) : Z.leb x y = true -> Z.leb y x = true -> x = y.
Proof. rewrite !Z.leb_le. lia. Qed.

(** The order of strings is transitive. *)
Lemma String_leb_trans (s1 s2 s3 : string) :
  String.leb s1 s2 = true -> String.leb s2 s3 = true -> String.leb s1 s3 = true.
Proof.
  unfold String.leb. revert s2 s3.
  induction s1 as [|c1 s1 IH]; intros [|c2 s2] [|c3 s3]; simpl; try easy.
  unfold Ascii.compare.
  destruct (N.compare_spec (N_of_ascii c1) (N_of_ascii c2)) as [E12|L12|G12];
    [|intros _|discriminate].
  - rewrite E12. destruct (N.compare (N_of_ascii c2) (N_of_ascii c3)); [apply IH|easy..].
  - destruct (N.compare_spec (N_of_ascii c2) (N_of_ascii c3)) as [E23|L23|G23];
      [intros _|intros _|discriminate].
    + rewrite <- E23. now rewrite (proj2 (N.compare_lt_iff _ _) L12).
    + assert (L13 : (N_of_ascii c1 < N_of_ascii c3)%N) by lia.
      now rewrite (proj2 (N.compare_lt_iff _ _) L13).
Qed.

(** *** Counting loops *)

Lemma upFrom_length (i : Z) (count : nat) : length (upFrom i count) = count.
Proof. revert i. induction count as [|c IH]; intros i; simpl; [reflexivity | now rewrite IH]. Qed.

Lemma at_in_range {A : Type} (l : list A) (i : nat) (x : A) :
  nth_error l i = Some x -> at_ l (Z.of_nat i) = Ok x.
Proof.
  intros Hx. unfold at_.
  assert (Hi : (i < length l)%nat) by (apply nth_error_Some; congruence).
  replace (0 <=? Z.of_nat i) with true by (symmetry; apply Z.leb_le; lia).
  replace (Z.of_nat i <? Z.of_nat (length l)) with true
    by (symmetry; apply Z.ltb_lt; lia).
  simpl. rewrite Nat2Z.id, Hx. reflexivity.
Qed.

End GoSortFacts.

(** ** The report of the change-event analyzer *)

Module MainGoReportExtras.

Import GoStrings GoTime GoSort GoGit MainGo GoSortMore MainGoReport GoFacts GoSortFacts.

Section Format.

Variable formatFloat : nat -> Q -> string.
Variable rangeSurvival : gmap Z Q -> list (Z * Q).
Variable rangeFrequency : gmap string Z -> list (string * Z).
Hypothesis rangeSurvival_visits : forall m, rangeSurvival m ≡ₚ map_to_list m.
Hypothesis rangeFrequency_visits : forall m, rangeFrequency m ≡ₚ map_to_list m.

Local Abbreviation survivalLine := (survivalLine formatFloat).
Local Abbreviation formatSurvivalRate := (formatSurvivalRate formatFloat rangeSurvival).
Local Abbreviation formatChangeFrequency := (formatChangeFrequency rangeFrequency).

Lemma Ints_sorted (l : list Z) : NoDup l -> StronglySorted Z.lt (Ints l).
Proof.
  intros Hnd. apply sorted_strict.
  - apply sortBy_sorted; [apply Zleb_total | apply Zleb_trans].
  - apply (NoDup_Permutation_proper _ _ (sortBy_perm Z.leb l)), Hnd.
Qed.

(** X22. The survival section of the report shows the earliest days of the
    map, at most five, in ascending order, whatever the order in which the
    map is visited: every day shown is a day of the map, and every day of the
    map that is not shown is later than all the days shown. *)
Theorem survival_report_shows_the_earliest_days (survivalRate : gmap Z Q) :
  survivalRate <> ∅ ->
  exists days,
    formatSurvivalRate survivalRate
    = fold_left (fun result day => result +:+ survivalLine survivalRate day) days ""
    /\ length days = Nat.min 5 (size survivalRate)
    /\ StronglySorted Z.lt days
    /\ (forall day, In day days -> is_Some (survivalRate !! day))
    /\ (forall day other, In day days -> is_Some (survivalRate !! other) ->
          ~ In other days -> day < other)
    /\ formatSurvivalRate survivalRate
       = MainGoReport.formatSurvivalRate formatFloat map_to_list survivalRate.
Proof.
  intros Hne.
  set (keys := List.map fst (rangeSurvival survivalRate)).
  set (sorted := Ints keys).
  assert (Hkeys : Permutation keys (List.map fst (map_to_list survivalRate)))
    by apply Permutation_map, rangeSurvival_visits.
  assert (Hnd : NoDup keys).
  { apply (NoDup_Permutation_proper _ _ Hkeys).
    change (List.map fst (map_to_list survivalRate)) with (fst <$> map_to_list survivalRate).
    apply NoDup_fst_map_to_list. }
  assert (Hperm : Permutation keys sorted) by apply sortBy_perm.
  assert (Hlen : length sorted = size survivalRate).
  { rewrite <- (Permutation_length Hperm), (Permutation_length Hkeys), length_map.
    apply length_map_to_list. }
  assert (Hin : forall day, In day sorted <-> is_Some (survivalRate !! day)).
  { intros day. split.
    - intros H. apply (Permutation_in _ (Permutation_sym Hperm)) in H.
      apply (Permutation_in _ Hkeys) in H.
      apply in_map_iff in H as [[k v] [Hk H]]. simpl in Hk. subst k.
      exists v. apply elem_of_map_to_list, list_elem_of_In, H.
    - intros [v Hv]. apply (Permutation_in _ Hperm).
      apply (Permutation_in _ (Permutation_sym Hkeys)).
      apply in_map_iff. exists (day, v). split; [reflexivity|].
      apply list_elem_of_In, elem_of_map_to_list, Hv. }
  set (count := Z.to_nat (min 5 (len sorted))).
  assert (Hcount : count = Nat.min 5 (size survivalRate)).
  { unfold count, min, len. rewrite Hlen.
    destruct (5 <? Z.of_nat (size survivalRate)) eqn:E;
      [apply Z.ltb_lt in E | apply Z.ltb_ge in E]; lia. }
  assert (Hsplit : StronglySorted Z.lt (firstn count sorted ++ skipn count sorted)).
  { rewrite firstn_skipn. apply Ints_sorted, Hnd. }
  apply sorted_app in Hsplit as (Hfirst & _ & Hbelow).
  assert (Hsize : (size survivalRate =? 0)%nat = false).
  { apply Nat.eqb_neq. intros H0. apply Hne, map_size_empty_iff, H0. }
  exists (firstn count sorted).
  split; [unfold MainGoReport.formatSurvivalRate; rewrite Hsize; reflexivity|].
  split; [rewrite length_take, Hlen; lia|]. split; [exact Hfirst|].
  split; [|split].
  - intros day Hday. apply Hin. rewrite <- (firstn_skipn count sorted).
    apply in_or_app. now left.
  - intros day other Hday Hother Hnot. apply Hbelow; [exact Hday|].
    apply Hin in Hother. rewrite <- (firstn_skipn count sorted) in Hother.
    apply in_app_or in Hother as [H|H]; [contradiction | exact H].
  - unfold MainGoReport.formatSurvivalRate. rewrite Hsize. cbv zeta. fold keys.
    replace (Ints (List.map fst (map_to_list survivalRate))) with (Ints keys);
      [reflexivity|].
    apply sortBy_of_perm;
      [apply Zleb_total | apply Zleb_trans | apply Zleb_antisym | exact Hkeys].
Qed.

Lemma Strings_of_perm (l l' : list string) :
  Permutation l l' -> Strings l = Strings l'.
Proof.
  apply sortBy_of_perm;
    [apply String.leb_total | apply String_leb_trans | apply String.leb_antisym].
Qed.

(** X23. The lines of the change-frequency section are the entries of the
    map in ascending order of their text, whatever the order in which the map
    is visited; for the tally of the three types of events that is the order
    Created, Deleted, Modified. *)
Theorem change_frequency_report_is_sorted (frequency : gmap string Z) :
  formatChangeFrequency frequency
  = MainGoReport.formatChangeFrequency map_to_list frequency
  /\ (frequency <> ∅ ->
      exists entries,
        formatChangeFrequency frequency = Join entries nl
        /\ StronglySorted (fun a b => String.leb a b = true) entries
        /\ Permutation entries
             (List.map (fun kv => frequencyEntry (fst kv) (snd kv)) (map_to_list frequency)))
  /\ (forall created deleted modified,
        frequency = <["Created" := created]>
                      (<["Deleted" := deleted]> (<["Modified" := modified]> ∅)) ->
        formatChangeFrequency frequency
        = Join [frequencyEntry "Created" created; frequencyEntry "Deleted" deleted;
                frequencyEntry "Modified" modified] nl).
Proof.
  set (entry := fun kv : string * Z => frequencyEntry (fst kv) (snd kv)).
  assert (Hentries : Permutation (List.map entry (rangeFrequency frequency))
                       (List.map entry (map_to_list frequency)))
    by apply Permutation_map, rangeFrequency_visits.
  split; [|split].
  - unfold MainGoReport.formatChangeFrequency. cbv zeta. fold entry.
    now rewrite (Strings_of_perm _ _ Hentries).
  - intros Hne.
    assert (Hsize : (size frequency =? 0)%nat = false).
    { apply Nat.eqb_neq. intros H0. apply Hne, map_size_empty_iff, H0. }
    exists (Strings (List.map entry (rangeFrequency frequency))).
    split; [unfold MainGoReport.formatChangeFrequency; rewrite Hsize; reflexivity|].
    split; [apply sortBy_sorted; [apply String.leb_total | apply String_leb_trans]|].
    eapply perm_trans; [apply Permutation_sym, sortBy_perm | exact Hentries].
  - intros created deleted modified Hfreq.
    assert (Hsize : (size frequency =? 0)%nat = false).
    { apply Nat.eqb_neq. intros H0. apply map_size_empty_iff in H0.
      rewrite H0 in Hfreq. symmetry in Hfreq. exact (insert_non_empty _ _ _ Hfreq). }
    assert (Hlist : Permutation (map_to_list frequency)
                      [("Created", created); ("Deleted", deleted); ("Modified", modified)]).
    { rewrite Hfreq.
      rewrite map_to_list_insert by (vm_compute; reflexivity). apply perm_skip.
      rewrite map_to_list_insert by (vm_compute; reflexivity). apply perm_skip.
      rewrite map_to_list_insert by (vm_compute; reflexivity). apply perm_skip.
      rewrite map_to_list_empty. apply perm_nil. }
    unfold MainGoReport.formatChangeFrequency. rewrite Hsize. cbv zeta. fold entry.
    rewrite (Strings_of_perm _ _ Hentries).
    rewrite (Strings_of_perm _ _ (Permutation_map entry Hlist)).
    reflexivity.
Qed.

End Format.

Lemma survival_report_shows_the_earliest_days_witness :
  exists days,
    length days = Nat.min 5 (size ({[ 3 := 1%Q; 0 := 1%Q ]} : gmap Z Q))
    /\ StronglySorted Z.lt days.
Proof.
  destruct (survival_report_shows_the_earliest_days (fun _ _ => "") map_to_list
              (fun m => Permutation_refl (map_to_list m))
              ({[ 3 := 1%Q; 0 := 1%Q ]} : gmap Z Q))
    as (days & _ & H1 & H2 & _).
  - apply insert_non_empty.
  - exists days. split; assumption.
Defined.

Lemma change_frequency_report_is_sorted_witness :
  MainGoReport.formatChangeFrequency map_to_list
    (<["Created" := 5]> (<["Deleted" := 1]> (<["Modified" := 2]> ∅)))
  = Join [frequencyEntry "Created" 5; frequencyEntry "Deleted" 1;
          frequencyEntry "Modified" 2] nl.
Proof.
  destruct (change_frequency_report_is_sorted map_to_list
              (fun m => Permutation_refl (map_to_list m))
              (<["Created" := 5]> (<["Deleted" := 1]> (<["Modified" := 2]> ∅))))
    as (_ & _ & H).
  apply H. reflexivity.
Defined.

End MainGoReportExtras.

(** ** The report of the snapshot analyzer *)

Module TrackerReportExtras.

Import GoStrings GoTime GoSort GoGit Tracker GoSortMore TrackerReport GoFacts GoSortFacts.

Lemma at_Ok {A : Type} (l : list A) (i : Z) :
  0 <= i < Z.of_nat (length l) ->
  exists x, nth_error l (Z.to_nat i) = Some x /\ at_ l i = Ok x.
Proof.
  intros Hi.
  destruct (nth_error l (Z.to_nat i)) as [x|] eqn:E.
  - exists x. split; [reflexivity|].
    rewrite <- (Z2Nat.id i) by lia. apply at_in_range, E.
  - apply nth_error_None in E. lia.
Qed.

Lemma skipn_nth {A : Type} (l : list A) (k : nat) (x : A) :
  nth_error l k = Some x -> skipn k l = x :: skipn (S k) l.
Proof.
  revert l. induction k as [|k IH]; intros [|y l] H; simpl in H; try discriminate.
  - injection H as ->. reflexivity.
  - apply (IH l H).
Qed.

Section Format.

Variable formatFloat : nat -> Q -> string.
Variable formatDate : Time -> string.

Local Abbreviation curveLine := (curveLine formatFloat).
Local Abbreviation formatSurvivalCurve := (formatSurvivalCurve formatFloat).
Local Abbreviation showEvent := (showEvent formatDate).
Local Abbreviation writeEvents := (writeEvents formatDate).
Local Abbreviation timelineSample := (timelineSample formatDate).

(** X24. For a curve that is not empty the survival section never reads
    outside of the curve and always has five rows, for the points at the
    positions 0, [step], ..., [4 * step], where [step] is a fifth of the
    number of points, rounded down: what lies after [4 * step] is not shown,
    a curve of fewer than five points shows its first point five times, and
    the curve of 100 points of the analysis shows the points 0, 20, 40, 60
    and 80. *)
Theorem survival_curve_report_shows_five_points (rates : list Q) :
  rates <> [] ->
  let n := Z.of_nat (length rates) in
  let step := Z.quot n 5 in
  4 * step < n
  /\ (n < 5 -> step = 0)
  /\ (length rates = timePoints -> step = 20)
  /\ exists r0 r1 r2 r3 r4,
       nth_error rates (Z.to_nat (0 * step)) = Some r0
       /\ nth_error rates (Z.to_nat (1 * step)) = Some r1
       /\ nth_error rates (Z.to_nat (2 * step)) = Some r2
       /\ nth_error rates (Z.to_nat (3 * step)) = Some r3
       /\ nth_error rates (Z.to_nat (4 * step)) = Some r4
       /\ formatSurvivalCurve rates
          = Ok (fold_left (fun result ir => result +:+ curveLine n step (fst ir) (snd ir))
                  [(0, r0); (1, r1); (2, r2); (3, r3); (4, r4)] "").
Proof.
  clear formatDate. intros Hne n step.
  assert (Hn : 0 < n) by (unfold n; destruct rates; [congruence | simpl; lia]).
  assert (Hstep : step = n / 5) by (apply Z.quot_div_nonneg; lia).
  assert (H4 : 0 <= step /\ 4 * step < n)
    by (rewrite Hstep; Z.div_mod_to_equations; lia).
  split; [apply H4|]. split; [|split].
  - intros H5. rewrite Hstep. apply Z.div_small. lia.
  - unfold timePoints. intros H100. unfold step, n. rewrite H100. reflexivity.
  - assert (Hi : forall i, 0 <= i <= 4 -> 0 <= i * step < n) by (intros i Hi; nia).
    destruct (at_Ok rates (0 * step)) as (r0 & E0 & A0); [apply Hi; lia|].
    destruct (at_Ok rates (1 * step)) as (r1 & E1 & A1); [apply Hi; lia|].
    destruct (at_Ok rates (2 * step)) as (r2 & E2 & A2); [apply Hi; lia|].
    destruct (at_Ok rates (3 * step)) as (r3 & E3 & A3); [apply Hi; lia|].
    destruct (at_Ok rates (4 * step)) as (r4 & E4 & A4); [apply Hi; lia|].
    exists r0, r1, r2, r3, r4.
    split; [exact E0|]. split; [exact E1|]. split; [exact E2|].
    split; [exact E3|]. split; [exact E4|].
    unfold TrackerReport.formatSurvivalCurve. fold n. cbv zeta. fold step.
    replace (n =? 0) with false by (symmetry; apply Z.eqb_neq; lia).
    change (interval 0 5) with [0; 1; 2; 3; 4].
    cbn [forEach].
    rewrite (proj2 (Z.ltb_lt (0 * step) n)) by (apply Hi; lia). rewrite A0.
    rewrite (proj2 (Z.ltb_lt (1 * step) n)) by (apply Hi; lia). rewrite A1.
    rewrite (proj2 (Z.ltb_lt (2 * step) n)) by (apply Hi; lia). rewrite A2.
    rewrite (proj2 (Z.ltb_lt (3 * step) n)) by (apply Hi; lia). rewrite A3.
    rewrite (proj2 (Z.ltb_lt (4 * step) n)) by (apply Hi; lia). rewrite A4.
    reflexivity.
Qed.

(** A loop that writes the events from the position [i] on, for as long as
    there are events. *)
Lemma forEach_showEvent (timeline : list TimelineEvent) (cond : Z -> bool)
    (count : nat) :
  forall (i : Z) (b : string),
    0 <= i ->
    (forall j, i <= j < i + Z.of_nat count -> cond j = (j <? Z.of_nat (length timeline))) ->
    forEach (upFrom i count) cond (showEvent timeline) b
    = Ok (writeEvents (firstn count (skipn (Z.to_nat i) timeline)) b).
Proof.
  induction count as [|count IH]; intros i b Hi Hcond; [reflexivity|].
  cbn [upFrom forEach]. rewrite (Hcond i) by lia.
  destruct (i <? Z.of_nat (length timeline)) eqn:E.
  - apply Z.ltb_lt in E.
    destruct (at_Ok timeline i) as (event & Hev & Hat); [lia|].
    unfold TrackerReport.showEvent at 1. rewrite Hat.
    rewrite IH; [|lia|intros j Hj; apply Hcond; lia].
    rewrite (skipn_nth _ _ _ Hev). cbn [firstn].
    replace (Z.to_nat (i + 1)) with (S (Z.to_nat i)) by lia. reflexivity.
  - apply Z.ltb_ge in E. rewrite skipn_all2 by lia. now rewrite firstn_nil.
Qed.

(** X25. The timeline section never reads outside of the timeline: it
    writes the first five events, then a line of dots when there are more
    than ten, then the events from the position [max 5 (n - 5)] on. With ten
    events or fewer that is every event once, in order; with more it is ten
    events. *)
Theorem timeline_sample_shows_each_event_once (timeline : list TimelineEvent)
    (b : string) :
  let n := Z.of_nat (length timeline) in
  let first := firstn 5 timeline in
  let last := skipn (Z.to_nat (max 5 (n - 5))) timeline in
  timelineSample timeline b
  = Ok (writeEvents last
          (if n >? 10 then writeEvents first b +:+ "..." +:+ nl else writeEvents first b))
  /\ (n <= 10 -> first ++ last = timeline)
  /\ (10 < n -> length (first ++ last) = 10%nat).
Proof.
  intros n first last.
  assert (Hmax : max 5 (n - 5) = Z.max 5 (n - 5)).
  { unfold max. destruct (5 >? n - 5) eqn:E.
    - apply Z.gtb_lt in E. lia.
    - rewrite Z.gtb_ltb in E. apply Z.ltb_ge in E. lia. }
  split; [|split].
  - unfold TrackerReport.timelineSample. fold n. cbv zeta.
    change (interval 0 5) with (upFrom 0 5).
    rewrite (forEach_showEvent timeline _ 5 0 b); [|lia|reflexivity].
    change (skipn (Z.to_nat 0) timeline) with timeline. fold first.
    change (5 * 2) with 10.
    set (b1 := if n >? 10 then _ else _).
    unfold interval. rewrite forEach_showEvent.
    + f_equal. f_equal. fold last. apply firstn_all2.
      unfold last. rewrite length_skipn. unfold n. lia.
    + rewrite Hmax. lia.
    + intros j Hj. symmetry. apply Z.ltb_lt. rewrite Hmax in Hj. lia.
  - intros Hle. unfold first, last. rewrite Hmax.
    destruct (Z_le_gt_dec n 5) as [H5|H5].
    + rewrite firstn_all2 by (unfold n in H5; lia).
      rewrite skipn_all2 by (unfold n in H5; lia). apply app_nil_r.
    + replace (Z.to_nat (Z.max 5 (n - 5))) with 5%nat by lia. apply firstn_skipn.
  - intros Hgt. unfold first, last. rewrite Hmax.
    rewrite length_app, length_firstn, length_skipn. unfold n in *. lia.
Qed.

End Format.

Lemma survival_curve_report_shows_five_points_witness :
  4 * Z.quot (Z.of_nat (length [1%Q; (1 # 2)%Q])) 5 < Z.of_nat (length [1%Q; (1 # 2)%Q]).
Proof.
  assert (Hne : [1%Q; (1 # 2)%Q] <> []) by discriminate.
  pose proof (survival_curve_report_shows_five_points (fun _ _ => "")
                [1%Q; (1 # 2)%Q] Hne) as H.
  cbv zeta in H. destruct H as [H _]. exact H.
Defined.

End TrackerReportExtras.

(** ** The half-life *)

Module TrackerHalfLifeClaim.

Import GoStrings GoTime GoSort GoGit Tracker GoFacts.
Import TrackerStats TrackerHalfLife TrackerStatsMore.

Lemma upper_middle (a b : Q) : (a <= b)%Q -> ((a + b) / 2 <= b)%Q.
Proof. intros H. apply Qle_shift_div_r; [reflexivity|]. lra. Qed.

Section Claim.

Variable rangeLines : gmap string CodeLine -> list (string * CodeLine).
Variable rangeSurvivors : gmap string CodeLine -> list (string * CodeLine).

Local Abbreviation statistics := (statistics rangeLines rangeSurvivors).

(** C1, as the analyzer has it. When the lifetime sample is not empty, the analyzer sorts
    it in ascending order and samples the [timePoints] ages
    [maxAge * i / timePoints], where [maxAge] is the greatest lifetime. The
    half-life is the smallest sampled age at which the survival fraction is
    at most one half. When no sampled age has such a fraction, the half-life
    is the element at index [len/2] of the sorted sample, which is the
    [MedianAge] of the report: the middle value when the count is odd, and
    the upper of the two middle values when it is even, which is at least
    their mean and is not their mean unless they are equal. *)
Theorem half_life_first_crossing_or_upper_middle (validateMode : bool) (now : Time)
    (commits : list Commit) (st : State) :
  let sample := lifetimes (tally now (List.map snd (rangeLines (codeLines st)))) in
  let sorted := Float64s sample in
  let age := fun i : nat => timePoint (maxAgeOf sorted) i in
  let fraction := fun i : nat => survivalAt sorted (age i) in
  length sample <> 0%nat ->
  (StronglySorted Qle sorted /\ Permutation sample sorted
   /\ In (maxAgeOf sorted) sample
   /\ forall x, In x sample -> (x <= maxAgeOf sorted)%Q)
  /\ (forall r, statistics validateMode now commits st = Ok r ->
                HalfLife (statsOf r) = halfLifeOf sorted
                /\ MedianAge (statsOf r) = middle sorted
                /\ SurvivalRate (statsOf r) = List.map fraction (seq 0 timePoints))
  /\ ((exists i, (i < timePoints)%nat /\ (fraction i <= 1 # 2)%Q) ->
      exists i, (i < timePoints)%nat /\ halfLifeOf sorted = age i
                /\ (fraction i <= 1 # 2)%Q
                /\ forall j, (j < timePoints)%nat -> (fraction j <= 1 # 2)%Q ->
                             (age i <= age j)%Q)
  /\ ((forall i, (i < timePoints)%nat -> ~ (fraction i <= 1 # 2)%Q) ->
      halfLifeOf sorted = middle sorted
      /\ In (halfLifeOf sorted) sample
      /\ forall k : nat,
           (length sorted = (2 * k + 1)%nat -> halfLifeOf sorted = nth k sorted 0%Q)
           /\ (length sorted = (2 * k)%nat ->
               halfLifeOf sorted = nth k sorted 0%Q
               /\ (nth (k - 1) sorted 0 <= nth k sorted 0)%Q
               /\ ((nth (k - 1) sorted 0 + nth k sorted 0) / 2 <= halfLifeOf sorted)%Q
               /\ ((halfLifeOf sorted == (nth (k - 1) sorted 0 + nth k sorted 0) / 2)%Q ->
                   (nth (k - 1) sorted 0 == nth k sorted 0)%Q))).
Proof.
  intros sample sorted age fraction Hne.
  assert (Hsorted : sorted <> []).
  { intros H. apply Hne. unfold sorted in H.
    rewrite <- (Float64s_length sample), H. reflexivity. }
  assert (Hpos : List.Forall (fun x => (0 < x)%Q) sorted).
  { apply Float64s_Forall, tally_positive. }
  assert (Hs : StronglySorted Qle sorted) by apply Float64s_sorted.
  assert (Hperm : Permutation sample sorted) by apply Float64s_perm.
  assert (Hlen : (0 < length sorted)%nat) by (destruct sorted; [congruence | simpl; lia]).
  destruct (halfLifeOf_cases sorted Hsorted Hpos) as [Hcross Hfall].
  split; [|split; [|split]].
  - split; [exact Hs|]. split; [exact Hperm|]. split.
    + apply (Permutation_in _ (Permutation_sym Hperm)), maxAgeOf_In, Hsorted.
    + intros x Hx. apply maxAgeOf_greatest; [exact Hs|].
      apply (Permutation_in _ Hperm), Hx.
  - intros r Hr. apply statistics_fields in Hr. cbv zeta in Hr. tauto.
  - exact Hcross.
  - intros Hnone. specialize (Hfall Hnone).
    split; [exact Hfall|]. split.
    + rewrite Hfall. apply (Permutation_in _ (Permutation_sym Hperm)).
      unfold middle. apply nth_In. apply Nat.Div0.div_lt_upper_bound. lia.
    + intros k. split; intros Hk.
      * rewrite Hfall. unfold middle. rewrite Hk. f_equal.
        replace (2 * k + 1)%nat with (1 + k * 2)%nat by lia.
        rewrite Nat.div_add by lia. reflexivity.
      * assert (Hmid : halfLifeOf sorted = nth k sorted 0%Q).
        { rewrite Hfall. unfold middle. rewrite Hk. f_equal.
          replace (2 * k)%nat with (k * 2)%nat by lia. apply Nat.div_mul. lia. }
        assert (Hle : (nth (k - 1) sorted 0 <= nth k sorted 0)%Q)
          by (apply sorted_nth_le; [exact Hs | lia | lia]).
        split; [exact Hmid|]. split; [exact Hle|]. rewrite Hmid. split.
        -- apply upper_middle, Hle.
        -- intros Heq. apply Qle_antisym; [exact Hle|].
           assert (H2 : (nth k sorted 0 * 2 == nth (k - 1) sorted 0 + nth k sorted 0)%Q).
           { rewrite Heq at 1. field. }
           lra.
Qed.

End Claim.

Import TrackerExamples TrackerRuns.

(** On the history in which the line [z] lives from day 10 to day 40 and the
    line [x] for 50 days, the fraction is one half from the age 30.5 days on,
    the 61st of the hundred sampled ages, and that age is the half-life. *)
Lemma half_life_first_crossing_or_upper_middle_witness :
  let st := run false crossingHistory in
  let sorted := Float64s (lifetimes (tally now (List.map snd (map_to_list (codeLines st))))) in
  (exists i, (i < timePoints)%nat
             /\ halfLifeOf sorted = timePoint (maxAgeOf sorted) i
             /\ (survivalAt sorted (timePoint (maxAgeOf sorted) i) <= 1 # 2)%Q)
  /\ exists r, statistics map_to_list map_to_list false now crossingHistory st = Ok r
               /\ (HalfLife (statsOf r) == 61 # 2)%Q.
Proof.
  assert (Hne : length (lifetimes (tally now (List.map snd
                  (map_to_list (codeLines (run false crossingHistory)))))) <> 0%nat)
    by (vm_compute; lia).
  destruct (half_life_first_crossing_or_upper_middle map_to_list map_to_list false now
              crossingHistory (run false crossingHistory) Hne)
    as (_ & Hreport & Hcross & _).
  split.
  - destruct Hcross as (i & Hi & Hhalf & Hfrac & _).
    + exists 61%nat. split; [unfold timePoints; lia|].
      apply Qle_bool_iff. vm_compute. reflexivity.
    + exists i. split; [exact Hi|]. split; [exact Hhalf | exact Hfrac].
  - destruct (statistics map_to_list map_to_list false now crossingHistory
                (run false crossingHistory)) as [r| |] eqn:E;
      [|vm_compute in E; discriminate|vm_compute in E; discriminate].
    exists r. split; [reflexivity|].
    destruct (Hreport r eq_refl) as (H1 & _). rewrite H1.
    apply Qeq_bool_iff. vm_compute. reflexivity.
Defined.

(** C1 fails as stated. On the history of two lines that are alive after
    49.6 and 50 days, every sampled age, the greatest being 49.5 days, is
    reached by both lines, so that no fraction is at most one half; the
    half-life is the upper of the two values, 50 days, and the median
    lifetime, the mean of the two, is 49.8 days. *)
Lemma half_life_is_not_the_median_lifetime_counterexample :
  let st := run false nearHistory in
  let sorted := Float64s (lifetimes (tally now (List.map snd (map_to_list (codeLines st))))) in
  length sorted = 2%nat
  /\ exists r, statistics map_to_list map_to_list false now nearHistory st = Ok r
               /\ forallb (fun rate => Qltb (1 # 2) rate) (SurvivalRate (statsOf r)) = true
               /\ (HalfLife (statsOf r) == 50)%Q
               /\ (MainGo.medianOf sorted == 249 # 5)%Q
               /\ ~ (HalfLife (statsOf r) == MainGo.medianOf sorted)%Q.
Proof.
  split; [vm_compute; reflexivity|].
  destruct (statistics map_to_list map_to_list false now nearHistory
              (run false nearHistory)) as [r| |] eqn:E;
    [|vm_compute in E; discriminate|vm_compute in E; discriminate].
  exists r. split; [reflexivity|].
  assert (Hr : r = match statistics map_to_list map_to_list false now nearHistory
                           (run false nearHistory) with
                   | Ok r' => r'
                   | _ => r
                   end) by (rewrite E; reflexivity).
  rewrite Hr.
  split; [vm_compute; reflexivity|].
  split; [apply Qeq_bool_iff; vm_compute; reflexivity|].
  split; [apply Qeq_bool_iff; vm_compute; reflexivity|].
  intros H. apply Qeq_bool_iff in H. vm_compute in H. discriminate.
Qed.

End TrackerHalfLifeClaim.
